(** * Thermal throttling controller (thermal_throttling.cpp): a shallow embedding

    The C++ class [ThermalThrottling] keeps, per sensor, a
    [ThermalThrottlingStatus] and, per cooling device (CDEV), a multiset of
    the votes of all sensors.  This file embeds the functions of
    [thermal_throttling.cpp] as executable Rocq functions and proves
    properties of them.

    Conventions of the embedding.
    - [float] is IEEE-754 binary32, taken from the specification of floats
      of the Standard Library ([SpecFloat], precision 24, emax 128).
    - [int], [size_t] and the tick count of [std::chrono::milliseconds] are
      [Z]; no arithmetic of the file reaches their range limits on the
      paths that are proved.
    - [std::unordered_map] members of the controller state are [gmap]s;
      the maps of the configuration, whose iteration order is observable,
      are association lists in iteration order.
    - An uncaught [std::out_of_range] (from [.at()]) and undefined behaviour
      (dereferencing [end()], indexing a vector out of range, a null
      [throttling_info]) end the run: such a call returns [None].
    - Calls are run one at a time: the locks of the class
      ([thermal_throttling_status_map_mutex_], [cdev_all_request_map_mutex_])
      are not modelled.  Logging ([LOG]), tracing ([ATRACE_INT]) and the
      reports to [thermal_stats_helper] write nothing that the functions
      read back and are left out, together with the conversions to [int]
      of their arguments. *)

From Stdlib Require Import ZArith Bool Lia.
From Stdlib Require Import Floats.SpecFloat.
From stdpp Require Import base option list gmap strings fin_maps sorting.

Local Open Scope Z_scope.

#[local] Set Warnings "-clear-no-such-hyp".

(** ** IEEE-754 binary32 *)

Module F32.

Definition prec : Z := 24.
Definition emax : Z := 128.

Definition float : Type := spec_float.

Definition NAN : float := S754_nan.
Definition zero : float := S754_zero false.

(** [static_cast<float>(z)] and the usual arithmetic conversion of an
    integer operand. *)
Definition of_int (z : Z) : float := binary_normalize prec emax z 0 false.

(** [std::numeric_limits<float>::max()] *)
Definition FLT_MAX : float := SFmax_float prec emax.

Definition add (x y : float) : float := SFadd prec emax x y.
Definition sub (x y : float) : float := SFsub prec emax x y.
Definition mul (x y : float) : float := SFmul prec emax x y.
Definition div (x y : float) : float := SFdiv prec emax x y.
Definition fabsf (x : float) : float := SFabs x.

Definition ltb (x y : float) : bool := SFltb x y.
Definition leb (x y : float) : bool := SFleb x y.
Definition eqb (x y : float) : bool := SFeqb x y.
Definition gtb (x y : float) : bool := SFltb y x.
Definition geb (x y : float) : bool := SFleb y x.

Definition isnan (x : float) : bool :=
  match x with S754_nan => true | _ => false end.

(** [std::max(a, b)] is [(a < b) ? b : a]; [std::min(a, b)] is
    [(b < a) ? b : a]; [std::clamp(v, lo, hi)] is
    [(v < lo) ? lo : (hi < v) ? hi : v]. *)
Definition max (a b : float) : float := if ltb a b then b else a.
Definition min (a b : float) : float := if ltb b a then b else a.
Definition clamp (v lo hi : float) : float :=
  if ltb v lo then lo else if ltb hi v then hi else v.

(** [static_cast<int>(x)]: truncation toward zero; undefined for NaN,
    infinities and values outside the range of [int]. *)
Definition INT_MAX : Z := 2147483647.
Definition INT_MIN : Z := -2147483648.

Definition trunc (x : float) : option Z :=
  match x with
  | S754_zero _ => Some 0
  | S754_finite s m e =>
      let a := match e with
               | Z0 => Zpos m
               | Zpos p => Zpos m * 2 ^ Zpos p
               | Zneg p => Zpos m / 2 ^ Zpos p
               end in
      let z := if s then - a else a in
      if (INT_MIN <=? z) && (z <=? INT_MAX) then Some z else None
  | _ => None
  end.

End F32.

Abbreviation float := F32.float.

(** ** Data model *)

(** Modelled from the spec: the AIDL enum [ThrottlingSeverity], whose
    declaration [thermal_throttling.cpp] only uses; the specification gives
    its seven levels in increasing order. *)
Inductive ThrottlingSeverity :=
  | NONE | LIGHT | MODERATE | SEVERE | CRITICAL | EMERGENCY | SHUTDOWN.

(** [static_cast<size_t>(severity)] *)
Definition severity_index (s : ThrottlingSeverity) : nat :=
  match s with
  | NONE => 0 | LIGHT => 1 | MODERATE => 2 | SEVERE => 3
  | CRITICAL => 4 | EMERGENCY => 5 | SHUTDOWN => 6
  end%nat.

(** [::ndk::enum_range<ThrottlingSeverity>()] *)
Definition enum_range : list ThrottlingSeverity :=
  [NONE; LIGHT; MODERATE; SEVERE; CRITICAL; EMERGENCY; SHUTDOWN].

(** [kThrottlingSeverityCount] *)
Definition kThrottlingSeverityCount : nat := 7.

(** [ThrottlingArray] is [std::array<float, kThrottlingSeverityCount>] and
    [CdevArray] is [std::array<int, kThrottlingSeverityCount>].  They are
    lists of that length; they are only indexed by severities, so the
    default of [nth] is never read on an array of the right length. *)
Definition ThrottlingArray : Type := list float.
Definition CdevArray : Type := list Z.

Definition fat (a : ThrottlingArray) (i : nat) : float := nth i a F32.NAN.
Definition iat (a : CdevArray) (i : nat) : Z := nth i a 0.

(** Modelled from the spec: [enum class ReleaseLogic] of [thermal_info.h],
    of which [thermal_throttling.cpp] has the uses only; the specification
    lists its five values. *)
Module ReleaseLogic.
Inductive t := INCREASE | DECREASE | STEPWISE | RELEASE_TO_FLOOR | NONE.
End ReleaseLogic.

(** Modelled from the spec: [struct BindedCdevInfo] of [thermal_info.h], of
    which [thermal_throttling.cpp] has the uses only.  This record and the
    configuration records after it list the members that
    [thermal_throttling.cpp] reads, with the types it uses them at. *)
Record BindedCdevInfo := mkBindedCdevInfo {
  limit_info : CdevArray;
  power_thresholds : ThrottlingArray;
  release_logic : ReleaseLogic.t;
  cdev_weight_for_pid : ThrottlingArray;
  cdev_ceiling : CdevArray;
  max_release_step : Z;
  max_throttle_step : Z;
  cdev_floor_with_power_link : CdevArray;
  power_rail : string;
  high_power_check : bool;
  throttling_with_power_link : bool;
  enabled : bool
}.

(** A binding map in iteration order. *)
Definition BindedCdevInfoMap : Type := list (string * BindedCdevInfo).

(** Modelled from the spec: [struct ThrottlingInfo] of [thermal_info.h]; the
    members are those that [thermal_throttling.cpp] reads. *)
Record ThrottlingInfo := mkThrottlingInfo {
  k_po : ThrottlingArray;
  k_pu : ThrottlingArray;
  k_io : ThrottlingArray;
  k_iu : ThrottlingArray;
  k_d : ThrottlingArray;
  i_max : ThrottlingArray;
  max_alloc_power : ThrottlingArray;
  min_alloc_power : ThrottlingArray;
  s_power : ThrottlingArray;
  i_cutoff : ThrottlingArray;
  i_default : float;
  i_default_pct : float;
  tran_cycle : Z;
  excluded_power_info_map : list (string * ThrottlingArray);
  binded_cdev_info_map : BindedCdevInfoMap;
  profile_map : list (string * BindedCdevInfoMap)
}.

(** Modelled from the spec: [struct PredictorInfo] of [thermal_info.h]; the
    members are those that [thermal_throttling.cpp] reads. *)
Record PredictorInfo := mkPredictorInfo {
  support_pid_compensation : bool;
  prediction_weights : list float;
  k_p_compensate : ThrottlingArray
}.

(** Modelled from the spec: [struct SensorInfo] of [thermal_info.h]; the
    members are those that [thermal_throttling.cpp] reads.
    [throttling_info] and [predictor_info] are pointers that may be null. *)
Record SensorInfo := mkSensorInfo {
  hot_thresholds : ThrottlingArray;
  multiplier : float;
  predictor_info : option PredictorInfo;
  throttling_info : option ThrottlingInfo
}.

(** Modelled from the spec: [struct CdevInfo] of [thermal_info.h]; the
    members are those that [thermal_throttling.cpp] reads. *)
Record CdevInfo := mkCdevInfo {
  state2power : list float;
  max_state : Z
}.

(** Modelled from the spec: [struct PowerStatus] of [power_files.h]; only
    [last_updated_avg_power] is read by [thermal_throttling.cpp]. *)
Record PowerStatus := mkPowerStatus {
  last_updated_avg_power : float
}.

(** Modelled from the spec: the AIDL parcelable [Temperature]; only [name]
    and [value] are read by [thermal_throttling.cpp]. *)
Record Temperature := mkTemperature {
  name : string;
  value : float
}.

(** Lookup in a configuration map kept in iteration order: [count] and
    [at] of [std::unordered_map]. *)
Fixpoint assoc {A} (k : string) (m : list (string * A)) : option A :=
  match m with
  | [] => None
  | (k', v) :: m' => if String.eqb k k' then Some v else assoc k m'
  end.

Definition count {A} (k : string) (m : list (string * A)) : bool :=
  match assoc k m with Some _ => true | None => false end.

(** [v[i]] on a [std::vector<float>] with an [int] or [size_t] index;
    reading out of range is undefined. *)
Definition vat (v : list float) (i : Z) : option float :=
  if i <? 0 then None else v !! Z.to_nat i.

(** ** Controller state *)

(** [struct ThermalThrottlingStatus]. *)
Module Status.

(** Modelled from the spec: [struct ThermalThrottlingStatus] of
    [thermal_throttling.h], of which [thermal_throttling.cpp] has the uses
    only.  The five maps hold [int]s: [registerThermalThrottling] and
    [clearThrottlingData] store [std::numeric_limits<int>::max()] in
    [pid_power_budget_map], and the request maps hold CDEV states.
    [prev_target] holds the [size_t] target state. *)
Record t := mk {
  pid_power_budget_map : gmap string Z;
  pid_cdev_request_map : gmap string Z;
  hardlimit_cdev_request_map : gmap string Z;
  throttling_release_map : gmap string Z;
  cdev_status_map : gmap string Z;
  prev_err : float;
  i_budget : float;
  prev_target : nat;
  prev_power_budget : float;
  budget_transient : float;
  tran_cycle : Z;
  profile : string
}.

(** The value-initialised status that [operator[]] inserts for a new key. *)
Definition empty : t :=
  mk ∅ ∅ ∅ ∅ ∅ F32.zero F32.zero 0%nat F32.zero F32.zero 0 "".

Definition set_pid_power_budget_map (f : gmap string Z → gmap string Z) (s : t) : t :=
  mk (f (pid_power_budget_map s)) (pid_cdev_request_map s)
     (hardlimit_cdev_request_map s) (throttling_release_map s) (cdev_status_map s)
     (prev_err s) (i_budget s) (prev_target s) (prev_power_budget s)
     (budget_transient s) (tran_cycle s) (profile s).

Definition set_pid_cdev_request_map (f : gmap string Z → gmap string Z) (s : t) : t :=
  mk (pid_power_budget_map s) (f (pid_cdev_request_map s))
     (hardlimit_cdev_request_map s) (throttling_release_map s) (cdev_status_map s)
     (prev_err s) (i_budget s) (prev_target s) (prev_power_budget s)
     (budget_transient s) (tran_cycle s) (profile s).

Definition set_hardlimit_cdev_request_map (f : gmap string Z → gmap string Z) (s : t) : t :=
  mk (pid_power_budget_map s) (pid_cdev_request_map s)
     (f (hardlimit_cdev_request_map s)) (throttling_release_map s) (cdev_status_map s)
     (prev_err s) (i_budget s) (prev_target s) (prev_power_budget s)
     (budget_transient s) (tran_cycle s) (profile s).

Definition set_throttling_release_map (f : gmap string Z → gmap string Z) (s : t) : t :=
  mk (pid_power_budget_map s) (pid_cdev_request_map s)
     (hardlimit_cdev_request_map s) (f (throttling_release_map s)) (cdev_status_map s)
     (prev_err s) (i_budget s) (prev_target s) (prev_power_budget s)
     (budget_transient s) (tran_cycle s) (profile s).

Definition set_cdev_status_map (f : gmap string Z → gmap string Z) (s : t) : t :=
  mk (pid_power_budget_map s) (pid_cdev_request_map s)
     (hardlimit_cdev_request_map s) (throttling_release_map s) (f (cdev_status_map s))
     (prev_err s) (i_budget s) (prev_target s) (prev_power_budget s)
     (budget_transient s) (tran_cycle s) (profile s).

Definition set_prev_err (v : float) (s : t) : t :=
  mk (pid_power_budget_map s) (pid_cdev_request_map s)
     (hardlimit_cdev_request_map s) (throttling_release_map s) (cdev_status_map s)
     v (i_budget s) (prev_target s) (prev_power_budget s)
     (budget_transient s) (tran_cycle s) (profile s).

Definition set_i_budget (v : float) (s : t) : t :=
  mk (pid_power_budget_map s) (pid_cdev_request_map s)
     (hardlimit_cdev_request_map s) (throttling_release_map s) (cdev_status_map s)
     (prev_err s) v (prev_target s) (prev_power_budget s)
     (budget_transient s) (tran_cycle s) (profile s).

Definition set_prev_target (v : nat) (s : t) : t :=
  mk (pid_power_budget_map s) (pid_cdev_request_map s)
     (hardlimit_cdev_request_map s) (throttling_release_map s) (cdev_status_map s)
     (prev_err s) (i_budget s) v (prev_power_budget s)
     (budget_transient s) (tran_cycle s) (profile s).

Definition set_prev_power_budget (v : float) (s : t) : t :=
  mk (pid_power_budget_map s) (pid_cdev_request_map s)
     (hardlimit_cdev_request_map s) (throttling_release_map s) (cdev_status_map s)
     (prev_err s) (i_budget s) (prev_target s) v
     (budget_transient s) (tran_cycle s) (profile s).

Definition set_budget_transient (v : float) (s : t) : t :=
  mk (pid_power_budget_map s) (pid_cdev_request_map s)
     (hardlimit_cdev_request_map s) (throttling_release_map s) (cdev_status_map s)
     (prev_err s) (i_budget s) (prev_target s) (prev_power_budget s)
     v (tran_cycle s) (profile s).

Definition set_tran_cycle (v : Z) (s : t) : t :=
  mk (pid_power_budget_map s) (pid_cdev_request_map s)
     (hardlimit_cdev_request_map s) (throttling_release_map s) (cdev_status_map s)
     (prev_err s) (i_budget s) (prev_target s) (prev_power_budget s)
     (budget_transient s) v (profile s).

Definition set_profile (v : string) (s : t) : t :=
  mk (pid_power_budget_map s) (pid_cdev_request_map s)
     (hardlimit_cdev_request_map s) (throttling_release_map s) (cdev_status_map s)
     (prev_err s) (i_budget s) (prev_target s) (prev_power_budget s)
     (budget_transient s) (tran_cycle s) v.

End Status.

(** The votes of one CDEV, largest first. *)
Module VoteSet.

(** Modelled from the spec: the element type of [cdev_all_request_map_],
    declared in [thermal_throttling.h], of which [thermal_throttling.cpp]
    has the uses only.  The specification describes a per-CDEV ordered
    multiset of votes whose current maximum is queryable, and the code reads
    the maximum at [*begin()]: a [std::multiset<int, std::greater<int>>],
    kept here as the list of its elements in iteration order. *)
Abbreviation t := (list Z).

(** [insert(x)]: after the elements that do not come after [x]. *)
Fixpoint insert (x : Z) (s : t) : t :=
  match s with
  | [] => [x]
  | y :: s' => if x <=? y then y :: insert x s' else x :: s
  end.

(** [erase(find(x))]: removes one element equal to [x]; erasing [end()],
    when there is none, is undefined. *)
Fixpoint erase_found (x : Z) (s : t) : option t :=
  match s with
  | [] => None
  | y :: s' => if x =? y then Some s' else (y ::.) <$> erase_found x s'
  end.

(** [*begin()]; undefined on an empty set. *)
Definition first (s : t) : option Z := head s.

End VoteSet.

(** Modelled from the spec: the two data members of [class ThermalThrottling]
    of [thermal_throttling.h] that [thermal_throttling.cpp] uses. *)
Record ThermalThrottling := mkThermalThrottling {
  thermal_throttling_status_map_ : gmap string Status.t;
  cdev_all_request_map_ : gmap string (list Z)
}.

Definition initial : ThermalThrottling := mkThermalThrottling ∅ ∅.

(** [thermal_throttling_status_map_[name]], which inserts a value-initialised
    status when [name] is new, followed by an update of that status. *)
Definition status_ref (name : string) (this : ThermalThrottling) : Status.t :=
  default Status.empty (thermal_throttling_status_map_ this !! name).

Definition with_status (name : string) (f : Status.t → Status.t)
    (this : ThermalThrottling) : ThermalThrottling :=
  mkThermalThrottling
    (<[name := f (status_ref name this)]> (thermal_throttling_status_map_ this))
    (cdev_all_request_map_ this).

(** [cdev_all_request_map_[cdev].insert(x)] *)
Definition vote_insert (cdev : string) (x : Z) (this : ThermalThrottling) : ThermalThrottling :=
  mkThermalThrottling
    (thermal_throttling_status_map_ this)
    (<[cdev := VoteSet.insert x (default [] (cdev_all_request_map_ this !! cdev))]>
       (cdev_all_request_map_ this)).

(** ** PID target state *)

(** The loop of [getTargetStateOfPID] over the severities [sevs] still to
    visit; [target_state] is the local of that name. *)
Fixpoint target_state_loop (s_power : ThrottlingArray) (curr_severity : ThrottlingSeverity)
    (sevs : list ThrottlingSeverity) (target_state : nat) : nat :=
  match sevs with
  | [] => target_state
  | severity :: sevs' =>
      let state := severity_index severity in
      if F32.isnan (fat s_power state) then
        target_state_loop s_power curr_severity sevs' target_state
      else
        let target_state := state in
        if (severity_index curr_severity <? severity_index severity)%nat then target_state
        else target_state_loop s_power curr_severity sevs' target_state
  end.

Definition getTargetStateOfPID (sensor_info : SensorInfo)
    (curr_severity : ThrottlingSeverity) : option nat :=
  ti ← throttling_info sensor_info;
  Some (target_state_loop (s_power ti) curr_severity enum_range 0%nat).

(** ** Registry of votes *)

(** [getCdevMaxRequest(cdev_name, &max_state)]: the returned flag and the
    value of [*max_state] after the call. *)
Definition getCdevMaxRequest (cdev_name : string) (max_state : Z)
    (this : ThermalThrottling) : option (bool * Z) :=
  match cdev_all_request_map_ this !! cdev_name with
  | None => Some (false, max_state)
  | Some request_set => m ← VoteSet.first request_set; Some (true, m)
  end.

Definition updateCdevMaxRequestAndNotifyIfChange (cdev_name : string)
    (cur_request new_request : Z) (this : ThermalThrottling)
    : option (bool * ThermalThrottling) :=
  request_set ← cdev_all_request_map_ this !! cdev_name;
  cur_max_request ← VoteSet.first request_set;
  erased ← VoteSet.erase_found cur_request request_set;
  let request_set := VoteSet.insert new_request erased in
  new_max_request ← VoteSet.first request_set;
  Some (negb (new_max_request =? cur_max_request),
        mkThermalThrottling (thermal_throttling_status_map_ this)
          (<[cdev_name := request_set]> (cdev_all_request_map_ this))).

(** ** Profile selection *)

(** [property] is the value that [GetProperty] returns for
    [vendor.thermal.<sensor>.profile]. *)
Definition parseProfileProperty (property : string) (sensor_name : string)
    (sensor_info : SensorInfo) (this : ThermalThrottling) : ThermalThrottling :=
  match throttling_info sensor_info with
  | None => this
  | Some ti =>
      let profile := property in
      if String.eqb profile "" || count profile (profile_map ti) then
        if negb (String.eqb profile (Status.profile (status_ref sensor_name this))) then
          with_status sensor_name (Status.set_profile profile) this
        else
          (* the comparison goes through [operator[]] *)
          with_status sensor_name (λ s, s) this
      else
        with_status sensor_name (Status.set_profile "") this
  end.

(** ** Clearing and registration *)

Definition clearThrottlingData (sensor_name : string) (this : ThermalThrottling)
    : ThermalThrottling :=
  match thermal_throttling_status_map_ this !! sensor_name with
  | None => this
  | Some _ =>
      with_status sensor_name
        (λ s,
           Status.set_tran_cycle 0
             (Status.set_prev_power_budget F32.NAN
                (Status.set_prev_target (severity_index NONE)
                   (Status.set_i_budget F32.NAN
                      (Status.set_prev_err F32.NAN
                         (Status.set_throttling_release_map (fmap (λ _, 0))
                            (Status.set_hardlimit_cdev_request_map (fmap (λ _, 0))
                               (Status.set_pid_cdev_request_map (fmap (λ _, 0))
                                  (Status.set_pid_power_budget_map
                                     (fmap (λ _, F32.INT_MAX)) s)))))))))
        this
  end.

(** The three registration blocks of one bound CDEV. *)
Definition register_pid (sensor_name cdev : string) (info : BindedCdevInfo)
    (this : ThermalThrottling) : ThermalThrottling :=
  if existsb (λ cdev_weight, negb (F32.isnan cdev_weight)) (cdev_weight_for_pid info) then
    vote_insert cdev 0
      (with_status sensor_name (Status.set_cdev_status_map <[cdev := 0]>)
         (with_status sensor_name (Status.set_pid_cdev_request_map <[cdev := 0]>)
            (with_status sensor_name (Status.set_pid_power_budget_map <[cdev := F32.INT_MAX]>)
               this)))
  else this.

Definition register_hardlimit (sensor_name cdev : string) (info : BindedCdevInfo)
    (this : ThermalThrottling) : ThermalThrottling :=
  if existsb (λ limit, 0 <? limit) (limit_info info) then
    vote_insert cdev 0
      (with_status sensor_name (Status.set_cdev_status_map <[cdev := 0]>)
         (with_status sensor_name (Status.set_hardlimit_cdev_request_map <[cdev := 0]>) this))
  else this.

Definition register_release (sensor_name cdev : string) (info : BindedCdevInfo)
    (this : ThermalThrottling) : ThermalThrottling :=
  if negb (String.eqb (power_rail info) "") then
    if existsb (λ power_threshold, negb (F32.isnan power_threshold)) (power_thresholds info)
    then with_status sensor_name (Status.set_throttling_release_map <[cdev := 0]>) this
    else this
  else this.

Fixpoint register_loop (sensor_name : string) (cooling_device_info_map : gmap string CdevInfo)
    (binded : BindedCdevInfoMap) (this : ThermalThrottling) : bool * ThermalThrottling :=
  match binded with
  | [] => (true, this)
  | (cdev, info) :: binded' =>
      match cooling_device_info_map !! cdev with
      | None => (false, this)
      | Some _ =>
          register_loop sensor_name cooling_device_info_map binded'
            (register_release sensor_name cdev info
               (register_hardlimit sensor_name cdev info
                  (register_pid sensor_name cdev info this)))
      end
  end.

Definition registerThermalThrottling (sensor_name : string)
    (throttling_info : option ThrottlingInfo)
    (cooling_device_info_map : gmap string CdevInfo)
    (this : ThermalThrottling) : bool * ThermalThrottling :=
  match thermal_throttling_status_map_ this !! sensor_name with
  | Some _ => (false, this)
  | None =>
      match throttling_info with
      | None => (false, this)
      | Some ti =>
          register_loop sensor_name cooling_device_info_map (binded_cdev_info_map ti)
            (with_status sensor_name
               (λ s,
                  Status.set_profile ""
                    (Status.set_tran_cycle 0
                       (Status.set_prev_power_budget F32.NAN
                          (Status.set_prev_target (severity_index NONE)
                             (Status.set_i_budget F32.NAN
                                (Status.set_prev_err F32.NAN s))))))
               this)
      end
  end.

(** ** The PID power budget *)

Definition severity_eqb (a b : ThrottlingSeverity) : bool :=
  (severity_index a =? severity_index b)%nat.

(** The binding map a tick iterates: that of the status's profile when
    [profile_map] has it, the default binding otherwise. *)
Definition active_binding (ti : ThrottlingInfo) (profile : string) : BindedCdevInfoMap :=
  match assoc profile (profile_map ti) with
  | Some binded => binded
  | None => binded_cdev_info_map ti
  end.

(** First loop of [updatePowerBudget]: the pair
    [(is_fully_throttle, is_fully_release)]. *)
Fixpoint throttle_status_loop (binded : BindedCdevInfoMap)
    (pid_cdev_request_map : gmap string Z) (curr_severity : ThrottlingSeverity)
    (flags : bool * bool) : option (bool * bool) :=
  match binded with
  | [] => Some flags
  | (cdev, info) :: binded' =>
      request ← pid_cdev_request_map !! cdev;
      let is_fully_release :=
        if iat (limit_info info) (severity_index curr_severity) <? request
        then false else snd flags in
      let is_fully_throttle :=
        if request <? iat (cdev_ceiling info) (severity_index curr_severity)
        then false else fst flags in
      throttle_status_loop binded' pid_cdev_request_map curr_severity
        (is_fully_throttle, is_fully_release)
  end.

(** Detection of a change of the target state; returns [target_changed]. *)
Definition detect_target_change (ti : ThrottlingInfo) (target_state : nat)
    (throttling_status : Status.t) : bool * Status.t :=
  if negb (Status.prev_target throttling_status =? severity_index NONE)%nat
     && negb (target_state =? Status.prev_target throttling_status)%nat
     && (0 <? tran_cycle ti)
  then (true, Status.set_prev_target target_state
                (Status.set_tran_cycle (tran_cycle ti - 1) throttling_status))
  else (false, Status.set_prev_target target_state throttling_status).

(** The loop that sums [state2power] for the default I budget.  The result
    of [getCdevMaxRequest], a [bool], is assigned to [max_cdev_vote] after
    the call has stored the maximum there. *)
Fixpoint default_i_budget_loop (binded : BindedCdevInfoMap)
    (cooling_device_info_map : gmap string CdevInfo) (this : ThermalThrottling)
    (default_i_budget : float) : option float :=
  match binded with
  | [] => Some default_i_budget
  | (cdev, _) :: binded' =>
      cdev_info ← cooling_device_info_map !! cdev;
      '(found, _) ← getCdevMaxRequest cdev 0 this;
      let max_cdev_vote := if (found : bool) then 1 else 0 in
      power ← vat (state2power cdev_info) max_cdev_vote;
      default_i_budget_loop binded' cooling_device_info_map this
        (F32.add default_i_budget power)
  end.

Fixpoint compensation_loop (prediction_weights : list float) (target multiplier : float)
    (sensor_predictions : list float) (i : Z) (compensation : float) : option float :=
  match sensor_predictions with
  | [] => Some compensation
  | prediction :: rest =>
      weight ← vat prediction_weights i;
      let prediction_err := F32.sub target (F32.mul prediction multiplier) in
      compensation_loop prediction_weights target multiplier rest (i + 1)
        (F32.add compensation (F32.mul weight prediction_err))
  end.

(** Initialisation of the I budget on the first tick. *)
Definition init_i_budget (ti : ThrottlingInfo)
    (cooling_device_info_map : gmap string CdevInfo) (this : ThermalThrottling)
    (throttling_status : Status.t) : option Status.t :=
  if F32.isnan (Status.i_budget throttling_status) then
    if F32.isnan (i_default_pct ti) then
      Some (Status.set_i_budget (i_default ti) throttling_status)
    else
      default_i_budget ←
        default_i_budget_loop (binded_cdev_info_map ti) cooling_device_info_map this F32.zero;
      Some (Status.set_i_budget
              (F32.div (F32.mul default_i_budget (i_default_pct ti)) (F32.of_int 100))
              throttling_status)
  else Some throttling_status.

(** Accumulation and clamping of the I budget. *)
Definition accumulate_i_budget (ti : ThrottlingInfo) (target_state : nat) (err : float)
    (is_fully_throttle is_fully_release : bool) (throttling_status : Status.t) : Status.t :=
  let throttling_status :=
    if F32.ltb err (fat (i_cutoff ti) target_state) then
      if F32.ltb err F32.zero
         && F32.gtb (Status.prev_power_budget throttling_status)
                    (fat (min_alloc_power ti) target_state)
         && negb is_fully_throttle
      then Status.set_i_budget
             (F32.add (Status.i_budget throttling_status)
                      (F32.mul err (fat (k_io ti) target_state))) throttling_status
      else if F32.gtb err F32.zero
              && F32.ltb (Status.prev_power_budget throttling_status)
                         (fat (max_alloc_power ti) target_state)
              && negb is_fully_release
      then Status.set_i_budget
             (F32.add (Status.i_budget throttling_status)
                      (F32.mul err (fat (k_iu ti) target_state))) throttling_status
      else throttling_status
    else throttling_status in
  if F32.gtb (F32.fabsf (Status.i_budget throttling_status)) (fat (i_max ti) target_state)
  then Status.set_i_budget
         (F32.mul (fat (i_max ti) target_state)
            (F32.of_int (if F32.gtb (Status.i_budget throttling_status) F32.zero
                         then 1 else -1)))
         throttling_status
  else throttling_status.

(** From "Calculate P budget" to the [std::clamp]: the clamped power budget
    and the status with [i_budget] and [prev_err] updated. *)
Definition pid_clamped_budget (temp : Temperature) (sensor_info : SensorInfo)
    (ti : ThrottlingInfo) (cooling_device_info_map : gmap string CdevInfo)
    (time_elapsed_ms : Z) (sensor_predictions : list float)
    (target_state : nat) (is_fully_throttle is_fully_release : bool)
    (this : ThermalThrottling) (throttling_status : Status.t) : option (float * Status.t) :=
  let target := fat (hot_thresholds sensor_info) target_state in
  let err := F32.sub target (value temp) in
  let p := F32.mul err (if F32.ltb err F32.zero then fat (k_po ti) target_state
                        else fat (k_pu ti) target_state) in
  throttling_status ← init_i_budget ti cooling_device_info_map this throttling_status;
  let throttling_status :=
    accumulate_i_budget ti target_state err is_fully_throttle is_fully_release
      throttling_status in
  let d :=
    if negb (F32.isnan (Status.prev_err throttling_status)) && negb (time_elapsed_ms =? 0)
    then F32.div (F32.mul (fat (k_d ti) target_state)
                    (F32.sub err (Status.prev_err throttling_status)))
                 (F32.of_int time_elapsed_ms)
    else F32.zero in
  compensation ←
    match predictor_info sensor_info with
    | Some predictor =>
        if support_pid_compensation predictor then
          compensation ←
            compensation_loop (prediction_weights predictor) target
              (multiplier sensor_info) sensor_predictions 0 F32.zero;
          Some (F32.mul compensation (fat (k_p_compensate predictor) target_state))
        else Some F32.zero
    | None => Some F32.zero
    end;
  let throttling_status := Status.set_prev_err err throttling_status in
  let power_budget :=
    F32.add (F32.add (F32.add (F32.add (fat (s_power ti) target_state) p)
                        (Status.i_budget throttling_status)) d) compensation in
  let power_budget :=
    F32.clamp power_budget (fat (min_alloc_power ti) target_state)
      (fat (max_alloc_power ti) target_state) in
  Some (power_budget, throttling_status).

(** From [if (target_changed)] to the end of [updatePowerBudget]. *)
Definition transient_blend (ti : ThrottlingInfo) (target_changed : bool)
    (power_budget : float) (throttling_status : Status.t) : float * Status.t :=
  let throttling_status :=
    if target_changed
    then Status.set_budget_transient
           (F32.sub (Status.prev_power_budget throttling_status) power_budget)
           throttling_status
    else throttling_status in
  let '(power_budget, throttling_status) :=
    if negb (Status.tran_cycle throttling_status =? 0) then
      let budget_transient :=
        F32.mul (Status.budget_transient throttling_status)
          (F32.div (F32.of_int (Status.tran_cycle throttling_status))
                   (F32.of_int (tran_cycle ti))) in
      (F32.add power_budget budget_transient,
       Status.set_tran_cycle (Status.tran_cycle throttling_status - 1) throttling_status)
    else (power_budget, throttling_status) in
  (power_budget, Status.set_prev_power_budget power_budget throttling_status).

(** Writing back through the reference [throttling_status]. *)
Definition store_status (name : string) (throttling_status : Status.t)
    (this : ThermalThrottling) : ThermalThrottling :=
  mkThermalThrottling
    (<[name := throttling_status]> (thermal_throttling_status_map_ this))
    (cdev_all_request_map_ this).

Definition updatePowerBudget (temp : Temperature) (sensor_info : SensorInfo)
    (cooling_device_info_map : gmap string CdevInfo) (time_elapsed_ms : Z)
    (curr_severity : ThrottlingSeverity) (max_throttling : bool)
    (sensor_predictions : list float) (this : ThermalThrottling)
    : option (float * ThermalThrottling) :=
  throttling_status ← thermal_throttling_status_map_ this !! name temp;
  if severity_eqb curr_severity NONE then Some (F32.FLT_MAX, this)
  else
    ti ← throttling_info sensor_info;
    '(is_fully_throttle, is_fully_release) ←
      throttle_status_loop (active_binding ti (Status.profile throttling_status))
        (Status.pid_cdev_request_map throttling_status) curr_severity (true, true);
    target_state ← getTargetStateOfPID sensor_info curr_severity;
    let '(target_changed, throttling_status) :=
      detect_target_change ti target_state throttling_status in
    let target := fat (hot_thresholds sensor_info) target_state in
    let err := F32.sub target (value temp) in
    if max_throttling && F32.leb err F32.zero then
      Some (fat (min_alloc_power ti) target_state,
            store_status (name temp) throttling_status this)
    else
      '(power_budget, throttling_status) ←
        pid_clamped_budget temp sensor_info ti cooling_device_info_map time_elapsed_ms
          sensor_predictions target_state is_fully_throttle is_fully_release
          this throttling_status;
      let '(power_budget, throttling_status) :=
        transient_blend ti target_changed power_budget throttling_status in
      Some (power_budget, store_status (name temp) throttling_status this).

Fixpoint excluded_power_loop (excluded : list (string * ThrottlingArray))
    (curr_severity : ThrottlingSeverity) (power_status_map : gmap string PowerStatus)
    (excluded_power : float) : option float :=
  match excluded with
  | [] => Some excluded_power
  | (rail, weights) :: excluded' =>
      status ← power_status_map !! rail;
      let avg := last_updated_avg_power status in
      excluded_power_loop excluded' curr_severity power_status_map
        (if negb (F32.isnan avg)
         then F32.add excluded_power
                (F32.mul avg (fat weights (severity_index curr_severity)))
         else excluded_power)
  end.

Definition computeExcludedPower (sensor_info : SensorInfo)
    (curr_severity : ThrottlingSeverity) (power_status_map : gmap string PowerStatus)
    : option float :=
  ti ← throttling_info sensor_info;
  excluded_power_loop (excluded_power_info_map ti) curr_severity power_status_map F32.zero.

(** ** Allocation of the power budget to the bound CDEVs *)

(** How the body of a loop iteration ends. *)
Inductive control :=
  | Proceed                 (* falls through to the next statement *)
  | Continue                (* [continue], or the end of the body *)
  | Break                   (* [break] *)
  | Return (result : bool). (* [return result] *)

(** The locals of [allocatePowerToCdev] that the passes modify. *)
Module Alloc.

Record t := mk {
  last_updated_avg_power : float;
  allocated_power : float;
  allocated_weight : float;
  power_data_invalid : bool;
  allocated_cdev : gset string
}.

Definition init (allocated_cdev : gset string) : t :=
  mk F32.NAN F32.zero F32.zero false allocated_cdev.

End Alloc.

(** "Go through binded cdev, compute total cdev weight": the total weight and
    the CDEVs that take no part in the allocation. *)
Fixpoint total_weight_loop (binded : BindedCdevInfoMap) (curr_severity : ThrottlingSeverity)
    (total_weight : float) (allocated_cdev : gset string) : float * gset string :=
  match binded with
  | [] => (total_weight, allocated_cdev)
  | (cdev, info) :: binded' =>
      let cdev_weight := fat (cdev_weight_for_pid info) (severity_index curr_severity) in
      if negb (enabled info) then
        total_weight_loop binded' curr_severity total_weight allocated_cdev
      else if F32.isnan cdev_weight || F32.eqb cdev_weight F32.zero then
        total_weight_loop binded' curr_severity total_weight ({[cdev]} ∪ allocated_cdev)
      else
        total_weight_loop binded' curr_severity (F32.add total_weight cdev_weight)
          allocated_cdev
  end.

(** "Get the power data" *)
Definition get_power_data (info : BindedCdevInfo)
    (power_status_map : gmap string PowerStatus) (l : Alloc.t) : option (control * Alloc.t) :=
  if negb (Alloc.power_data_invalid l) then
    if negb (String.eqb (power_rail info) "") then
      status ← power_status_map !! power_rail info;
      let avg := last_updated_avg_power status in
      if F32.isnan avg then
        Some (Break, Alloc.mk avg (Alloc.allocated_power l) (Alloc.allocated_weight l)
                       true (Alloc.allocated_cdev l))
      else if throttling_with_power_link info then
        Some (Return false,
              Alloc.mk avg (Alloc.allocated_power l) (Alloc.allocated_weight l)
                (Alloc.power_data_invalid l) (Alloc.allocated_cdev l))
      else
        Some (Proceed,
              Alloc.mk avg (Alloc.allocated_power l) (Alloc.allocated_weight l)
                (Alloc.power_data_invalid l) (Alloc.allocated_cdev l))
    else
      Some (Break, Alloc.mk (Alloc.last_updated_avg_power l) (Alloc.allocated_power l)
                     (Alloc.allocated_weight l) true (Alloc.allocated_cdev l))
  else Some (Proceed, l).

(** The two [while] loops that widen a slew step over states of equal
    power.  [fuel] bounds the number of iterations; the callers pass the
    distance to the limit, which the loop cannot exceed. *)
Fixpoint release_step_walk (fuel : nat) (state2power : list float)
    (curr_cdev_vote limit : Z) (target_release_step : Z) : option Z :=
  match fuel with
  | O => Some target_release_step
  | S fuel' =>
      if limit <? curr_cdev_vote - target_release_step then
        a ← vat state2power (curr_cdev_vote - target_release_step);
        b ← vat state2power curr_cdev_vote;
        if F32.eqb a b
        then release_step_walk fuel' state2power curr_cdev_vote limit (target_release_step + 1)
        else Some target_release_step
      else Some target_release_step
  end.

Fixpoint throttle_step_walk (fuel : nat) (state2power : list float)
    (curr_cdev_vote ceiling : Z) (target_throttle_step : Z) : option Z :=
  match fuel with
  | O => Some target_throttle_step
  | S fuel' =>
      if curr_cdev_vote + target_throttle_step <? ceiling then
        a ← vat state2power (curr_cdev_vote + target_throttle_step);
        b ← vat state2power curr_cdev_vote;
        if F32.eqb a b
        then throttle_step_walk fuel' state2power curr_cdev_vote ceiling
               (target_throttle_step + 1)
        else Some target_throttle_step
      else Some target_throttle_step
  end.

(** The slew limits of the second pass, applied to [cdev_power_budget]. *)
Definition apply_slew_limits (info : BindedCdevInfo) (cdev_info : CdevInfo)
    (curr_severity : ThrottlingSeverity) (power_data_invalid : bool)
    (cdev_power_adjustment : float) (curr_cdev_vote max_cdev_vote : Z)
    (cdev_power_budget : float) : option float :=
  cdev_power_budget ←
    (if negb (max_release_step info =? F32.INT_MAX)
        && (power_data_invalid || F32.gtb cdev_power_adjustment F32.zero)
     then
       if negb power_data_invalid && (curr_cdev_vote <? max_cdev_vote) then
         vat (state2power cdev_info) curr_cdev_vote
       else
         let limit := iat (limit_info info) (severity_index curr_severity) in
         target_release_step ←
           release_step_walk
             (Z.to_nat (curr_cdev_vote - max_release_step info - limit))
             (state2power cdev_info) curr_cdev_vote limit (max_release_step info);
         let target_state := Z.max (curr_cdev_vote - target_release_step) 0 in
         power ← vat (state2power cdev_info) target_state;
         Some (F32.min cdev_power_budget power)
     else Some cdev_power_budget);
  if negb (max_throttle_step info =? F32.INT_MAX)
     && (power_data_invalid || F32.ltb cdev_power_adjustment F32.zero)
  then
    let ceiling := iat (cdev_ceiling info) (severity_index curr_severity) in
    target_throttle_step ←
      throttle_step_walk
        (Z.to_nat (ceiling - (curr_cdev_vote + max_throttle_step info)))
        (state2power cdev_info) curr_cdev_vote ceiling (max_throttle_step info);
    let target_state := Z.min (curr_cdev_vote + target_throttle_step) ceiling in
    power ← vat (state2power cdev_info) target_state;
    Some (F32.max cdev_power_budget power)
  else Some cdev_power_budget.

(** The body of the allocation loop for one bound CDEV.  The status of
    [temp.name] exists here, as [updatePowerBudget] has read it. *)
Definition allocate_cdev (sensor_name : string) (curr_severity : ThrottlingSeverity)
    (power_status_map : gmap string PowerStatus)
    (cooling_device_info_map : gmap string CdevInfo) (max_throttling : bool)
    (low_power_device_check : bool) (total_power_budget total_weight : float)
    (cdev : string) (info : BindedCdevInfo) (l : Alloc.t) (this : ThermalThrottling)
    : option (control * Alloc.t * ThermalThrottling) :=
  let cdev_weight := fat (cdev_weight_for_pid info) (severity_index curr_severity) in
  if bool_decide (cdev ∈ Alloc.allocated_cdev l) then Some (Continue, l, this)
  else
    '(c, l) ← get_power_data info power_status_map l;
    match c with
    | Proceed =>
        let last_updated_avg_power := Alloc.last_updated_avg_power l in
        let throttling_status := status_ref sensor_name this in
        let cdev_power_budget :=
          F32.mul total_power_budget (F32.div cdev_weight total_weight) in
        let cdev_power_adjustment := F32.sub cdev_power_budget last_updated_avg_power in
        if low_power_device_check then
          if F32.gtb cdev_power_adjustment F32.zero then
            request ← Status.pid_cdev_request_map throttling_status !! cdev;
            if request =? 0 then
              Some (Continue,
                    Alloc.mk last_updated_avg_power
                      (F32.add (Alloc.allocated_power l) last_updated_avg_power)
                      (F32.add (Alloc.allocated_weight l) cdev_weight)
                      (Alloc.power_data_invalid l)
                      ({[cdev]} ∪ Alloc.allocated_cdev l),
                    this)
            else Some (Continue, l, this)
          else Some (Continue, l, this)
        else
          cdev_info ← cooling_device_info_map !! cdev;
          at_max ←
            (if F32.ltb cdev_power_adjustment F32.zero then
               request ← Status.pid_cdev_request_map throttling_status !! cdev;
               Some (request =? max_state cdev_info)
             else Some false);
          if (at_max : bool) then Some (Continue, l, this)
          else
            cdev_power_budget ←
              (if negb (enabled info) then vat (state2power cdev_info) 0
               else if negb (Alloc.power_data_invalid l)
                       && negb (String.eqb (power_rail info) "")
               then
                 cdev_curr_power_budget ←
                   Status.pid_power_budget_map throttling_status !! cdev;
                 let curr := F32.of_int cdev_curr_power_budget in
                 cdev_curr_power_budget ←
                   F32.trunc
                     (if F32.gtb last_updated_avg_power curr
                      then F32.add curr
                             (F32.mul cdev_power_adjustment
                                (F32.div curr last_updated_avg_power))
                      else F32.add curr cdev_power_adjustment);
                 Some (F32.of_int cdev_curr_power_budget)
               else Some (F32.mul total_power_budget (F32.div cdev_weight total_weight)));
            power0 ← vat (state2power cdev_info) 0;
            let cdev_power_budget :=
              if negb (F32.isnan power0) && F32.gtb cdev_power_budget power0 then power0
              else if F32.ltb cdev_power_budget F32.zero then F32.zero
              else cdev_power_budget in
            '(found, max_cdev_vote) ← getCdevMaxRequest cdev 0 this;
            if negb found then Some (Return false, l, this)
            else
              curr_cdev_vote ← Status.pid_cdev_request_map throttling_status !! cdev;
              cdev_power_budget ←
                (if negb max_throttling then
                   apply_slew_limits info cdev_info curr_severity
                     (Alloc.power_data_invalid l) cdev_power_adjustment
                     curr_cdev_vote max_cdev_vote cdev_power_budget
                 else Some cdev_power_budget);
              _ ← Status.pid_power_budget_map throttling_status !! cdev;
              stored ← F32.trunc cdev_power_budget;
              Some (Continue, l,
                    with_status sensor_name
                      (Status.set_pid_power_budget_map <[cdev := stored]>) this)
    | _ => Some (c, l, this)
    end.

(** One pass of the [for] loop inside [while (!is_budget_allocated)]; the
    first component is the value returned from inside the loop, if any. *)
Fixpoint allocate_pass (sensor_name : string) (curr_severity : ThrottlingSeverity)
    (power_status_map : gmap string PowerStatus)
    (cooling_device_info_map : gmap string CdevInfo) (max_throttling : bool)
    (low_power_device_check : bool) (total_power_budget total_weight : float)
    (binded : BindedCdevInfoMap) (l : Alloc.t) (this : ThermalThrottling)
    : option (option bool * Alloc.t * ThermalThrottling) :=
  match binded with
  | [] => Some (None, l, this)
  | (cdev, info) :: binded' =>
      '(c, l, this) ←
        allocate_cdev sensor_name curr_severity power_status_map cooling_device_info_map
          max_throttling low_power_device_check total_power_budget total_weight
          cdev info l this;
      match c with
      | Return result => Some (Some result, l, this)
      | Break => Some (None, l, this)
      | _ =>
          allocate_pass sensor_name curr_severity power_status_map cooling_device_info_map
            max_throttling low_power_device_check total_power_budget total_weight
            binded' l this
      end
  end.

Definition allocatePowerToCdev (temp : Temperature) (sensor_info : SensorInfo)
    (curr_severity : ThrottlingSeverity) (time_elapsed_ms : Z)
    (power_status_map : gmap string PowerStatus)
    (cooling_device_info_map : gmap string CdevInfo) (max_throttling : bool)
    (sensor_predictions : list float) (this : ThermalThrottling)
    : option (bool * ThermalThrottling) :=
  '(total_power_budget, this) ←
    updatePowerBudget temp sensor_info cooling_device_info_map time_elapsed_ms
      curr_severity max_throttling sensor_predictions this;
  let profile := Status.profile (status_ref (name temp) this) in
  ti ← throttling_info sensor_info;
  total_power_budget ←
    (match excluded_power_info_map ti with
     | [] => Some total_power_budget
     | _ =>
         excluded ← computeExcludedPower sensor_info curr_severity power_status_map;
         Some (F32.max (F32.sub total_power_budget excluded) F32.zero)
     end);
  let binded := active_binding ti profile in
  let '(total_weight, allocated_cdev) :=
    total_weight_loop binded curr_severity F32.zero ∅ in
  (* first pass: low_power_device_check *)
  '(returned, l, this) ←
    allocate_pass (name temp) curr_severity power_status_map cooling_device_info_map
      max_throttling true total_power_budget total_weight binded
      (Alloc.init allocated_cdev) this;
  match returned with
  | Some result => Some (result, this)
  | None =>
      let total_power_budget :=
        if negb (Alloc.power_data_invalid l)
        then F32.sub total_power_budget (Alloc.allocated_power l)
        else total_power_budget in
      let total_weight :=
        if negb (Alloc.power_data_invalid l)
        then F32.sub total_weight (Alloc.allocated_weight l)
        else total_weight in
      let l := Alloc.mk (Alloc.last_updated_avg_power l) F32.zero F32.zero
                 (Alloc.power_data_invalid l) (Alloc.allocated_cdev l) in
      (* second pass *)
      '(returned, l, this) ←
        allocate_pass (name temp) curr_severity power_status_map cooling_device_info_map
          max_throttling false total_power_budget total_weight binded l this;
      match returned with
      | Some result => Some (result, this)
      | None => Some (true, this)
      end
  end.

(** ** From budgets and severities to requests *)

(** The search loop of [updateCdevRequestByPower]: the first state whose
    power the budget covers, or the last state.  The vector must not be
    empty: [state2power.size() - 1] wraps around and the loop would read
    past the end. *)
Fixpoint power_to_state_loop (budget : float) (state2power : list float) (i : Z) : Z :=
  match state2power with
  | [] => i
  | power :: rest =>
      match rest with
      | [] => i
      | _ => if F32.geb budget power then i else power_to_state_loop budget rest (i + 1)
      end
  end.

Definition power_to_state (state2power : list float) (budget : Z) : option Z :=
  match state2power with
  | [] => None
  | _ => Some (power_to_state_loop (F32.of_int budget) state2power 0)
  end.

Fixpoint request_by_power_loop (sensor_name : string)
    (cooling_device_info_map : gmap string CdevInfo)
    (budgets : list (string * Z)) (this : ThermalThrottling) : option ThermalThrottling :=
  match budgets with
  | [] => Some this
  | (cdev, budget) :: budgets' =>
      cdev_info ← cooling_device_info_map !! cdev;
      i ← power_to_state (state2power cdev_info) budget;
      _ ← Status.pid_cdev_request_map (status_ref sensor_name this) !! cdev;
      request_by_power_loop sensor_name cooling_device_info_map budgets'
        (with_status sensor_name (Status.set_pid_cdev_request_map <[cdev := i]>) this)
  end.

Definition updateCdevRequestByPower (sensor_name : string)
    (cooling_device_info_map : gmap string CdevInfo) (this : ThermalThrottling)
    : option ThermalThrottling :=
  let this := with_status sensor_name (λ s, s) this in
  request_by_power_loop sensor_name cooling_device_info_map
    (map_to_list (Status.pid_power_budget_map (status_ref sensor_name this))) this.

Fixpoint request_by_severity_loop (sensor_name : string)
    (curr_severity : ThrottlingSeverity) (binded : BindedCdevInfoMap)
    (this : ThermalThrottling) : ThermalThrottling :=
  match binded with
  | [] => this
  | (cdev, info) :: binded' =>
      let this := with_status sensor_name (λ s, s) this in
      match Status.hardlimit_cdev_request_map (status_ref sensor_name this) !! cdev with
      | None => request_by_severity_loop sensor_name curr_severity binded' this
      | Some _ =>
          request_by_severity_loop sensor_name curr_severity binded'
            (with_status sensor_name
               (Status.set_hardlimit_cdev_request_map
                  <[cdev := if enabled info
                            then iat (limit_info info) (severity_index curr_severity)
                            else 0]>)
               this)
      end
  end.

Definition updateCdevRequestBySeverity (sensor_name : string) (sensor_info : SensorInfo)
    (curr_severity : ThrottlingSeverity) (this : ThermalThrottling)
    : option ThermalThrottling :=
  let this := with_status sensor_name (λ s, s) this in
  let profile := Status.profile (status_ref sensor_name this) in
  ti ← throttling_info sensor_info;
  Some (request_by_severity_loop sensor_name curr_severity (active_binding ti profile) this).

(** ** Release logic *)

(** The [switch] on [release_logic]. *)
Definition next_release_step (logic : ReleaseLogic.t) (is_over_budget : bool)
    (max_state release_step : Z) : Z :=
  match logic with
  | ReleaseLogic.INCREASE =>
      if negb is_over_budget then
        if Z.abs release_step <? max_state then release_step - 1 else release_step
      else 0
  | ReleaseLogic.DECREASE =>
      if negb is_over_budget then
        if release_step <? max_state then release_step + 1 else release_step
      else 0
  | ReleaseLogic.STEPWISE =>
      if negb is_over_budget then
        if release_step <? max_state then release_step + 1 else release_step
      else
        if Z.abs release_step <? max_state then release_step - 1 else release_step
  | ReleaseLogic.RELEASE_TO_FLOOR => if is_over_budget then 0 else max_state
  | ReleaseLogic.NONE => release_step
  end.

Fixpoint release_loop (sensor_name : string)
    (cooling_device_info_map : gmap string CdevInfo)
    (power_status_map : gmap string PowerStatus) (severity : ThrottlingSeverity)
    (binded : BindedCdevInfoMap) (this : ThermalThrottling)
    : option (bool * ThermalThrottling) :=
  match binded with
  | [] => Some (true, this)
  | (cdev, info) :: binded' =>
      thermal_throttling_status ← thermal_throttling_status_map_ this !! sensor_name;
      match Status.throttling_release_map thermal_throttling_status !! cdev,
            power_status_map !! power_rail info with
      | Some release_step, Some status =>
          cdev_info ← cooling_device_info_map !! cdev;
          let max_state := max_state cdev_info in
          let avg_power := last_updated_avg_power status in
          let release_step :=
            if F32.isnan avg_power || F32.ltb avg_power F32.zero then
              if throttling_with_power_link info then max_state else 0
            else
              let threshold := fat (power_thresholds info) (severity_index severity) in
              let is_over_budget :=
                if negb (high_power_check info)
                then negb (F32.ltb avg_power threshold)
                else negb (F32.gtb avg_power threshold) in
              next_release_step (release_logic info) is_over_budget max_state release_step in
          release_loop sensor_name cooling_device_info_map power_status_map severity binded'
            (with_status sensor_name
               (Status.set_throttling_release_map <[cdev := release_step]>) this)
      | _, _ => Some (false, this)
      end
  end.

Definition throttlingReleaseUpdate (sensor_name : string)
    (cooling_device_info_map : gmap string CdevInfo)
    (power_status_map : gmap string PowerStatus) (severity : ThrottlingSeverity)
    (sensor_info : SensorInfo) (this : ThermalThrottling)
    : option (bool * ThermalThrottling) :=
  match thermal_throttling_status_map_ this !! sensor_name with
  | None => Some (false, this)
  | Some _ =>
      ti ← throttling_info sensor_info;
      release_loop sensor_name cooling_device_info_map power_status_map severity
        (binded_cdev_info_map ti) this
  end.

(** ** The control tick *)

(** The PID part of the tick up to and including the clearing of the requests
    on a failed allocation. *)
Definition pid_request_stage (temp : Temperature) (sensor_info : SensorInfo)
    (curr_severity : ThrottlingSeverity) (time_elapsed_ms : Z)
    (power_status_map : gmap string PowerStatus)
    (cooling_device_info_map : gmap string CdevInfo) (max_throttling : bool)
    (sensor_predictions : list float) (this : ThermalThrottling)
    : option (bool * ThermalThrottling) :=
  '(allocated, this) ←
    allocatePowerToCdev temp sensor_info curr_severity time_elapsed_ms power_status_map
      cooling_device_info_map max_throttling sensor_predictions this;
  if negb allocated then
    Some (allocated,
          with_status (name temp) (Status.set_pid_cdev_request_map (fmap (λ _, 0))) this)
  else Some (allocated, this).

Definition thermalThrottlingUpdate (property : string) (temp : Temperature)
    (sensor_info : SensorInfo) (curr_severity : ThrottlingSeverity) (time_elapsed_ms : Z)
    (power_status_map : gmap string PowerStatus)
    (cooling_device_info_map : gmap string CdevInfo) (max_throttling : bool)
    (sensor_predictions : list float) (this : ThermalThrottling)
    : option ThermalThrottling :=
  match thermal_throttling_status_map_ this !! name temp with
  | None => Some this
  | Some _ =>
      ti ← throttling_info sensor_info;
      let this :=
        match profile_map ti with
        | [] => this
        | _ => parseProfileProperty property (name temp) sensor_info this
        end in
      this ←
        (if bool_decide (Status.pid_power_budget_map (status_ref (name temp) this) ≠ ∅) then
           '(_, this) ←
             pid_request_stage temp sensor_info curr_severity time_elapsed_ms
               power_status_map cooling_device_info_map max_throttling
               sensor_predictions this;
           updateCdevRequestByPower (name temp) cooling_device_info_map this
         else Some this);
      this ←
        (if bool_decide (Status.hardlimit_cdev_request_map (status_ref (name temp) this) ≠ ∅)
         then updateCdevRequestBySeverity (name temp) sensor_info curr_severity this
         else Some this);
      if bool_decide (Status.throttling_release_map (status_ref (name temp) this) ≠ ∅) then
        '(_, this) ←
          throttlingReleaseUpdate (name temp) cooling_device_info_map power_status_map
            curr_severity sensor_info this;
        Some this
      else Some this
  end.

(** ** Combining the requests of a sensor *)

(** The final request of one CDEV: from [std::max(pid_cdev_request,
    hardlimit_cdev_request)] to [std::min(request_state, cdev_ceiling)]. *)
Definition final_request (pid_cdev_request hardlimit_cdev_request release_step
    cdev_floor cdev_ceiling : Z) : Z :=
  let request_state := Z.max pid_cdev_request hardlimit_cdev_request in
  let request_state :=
    if negb (release_step =? 0) then
      let request_state :=
        if request_state <=? release_step then 0 else request_state - release_step in
      Z.max request_state cdev_floor
    else request_state in
  Z.min request_state cdev_ceiling.

(** The loop over [cdev_status_map]; [cooling_devices_to_update] is the
    vector behind the pointer of that name. *)
Fixpoint cooling_devices_request_loop (sensor_name : string)
    (curr_severity : ThrottlingSeverity) (binded_cdev_info_map : BindedCdevInfoMap)
    (cdev_requests : list (string * Z)) (cooling_devices_to_update : list string)
    (this : ThermalThrottling) : option (list string * ThermalThrottling) :=
  match cdev_requests with
  | [] => Some (cooling_devices_to_update, this)
  | (cdev_name, cdev_request) :: cdev_requests' =>
      let thermal_throttling_status := status_ref sensor_name this in
      binded_cdev_info ← assoc cdev_name binded_cdev_info_map;
      let cdev_ceiling := iat (cdev_ceiling binded_cdev_info) (severity_index curr_severity) in
      let cdev_floor :=
        iat (cdev_floor_with_power_link binded_cdev_info) (severity_index curr_severity) in
      let pid_cdev_request :=
        default 0 (Status.pid_cdev_request_map thermal_throttling_status !! cdev_name) in
      let hardlimit_cdev_request :=
        default 0 (Status.hardlimit_cdev_request_map thermal_throttling_status !! cdev_name) in
      let release_step :=
        default 0 (Status.throttling_release_map thermal_throttling_status !! cdev_name) in
      let request_state :=
        final_request pid_cdev_request hardlimit_cdev_request release_step
          cdev_floor cdev_ceiling in
      if negb (cdev_request =? request_state) then
        '(notify, this) ←
          updateCdevMaxRequestAndNotifyIfChange cdev_name cdev_request request_state this;
        cooling_devices_request_loop sensor_name curr_severity binded_cdev_info_map
          cdev_requests'
          (if (notify : bool) then cooling_devices_to_update ++ [cdev_name]
           else cooling_devices_to_update)
          (with_status sensor_name
             (Status.set_cdev_status_map <[cdev_name := request_state]>) this)
      else
        cooling_devices_request_loop sensor_name curr_severity binded_cdev_info_map
          cdev_requests' cooling_devices_to_update this
  end.

(** The calls of [thermal_stats_helper], a telemetry sink, are left out.  The
    source visits [cdev_status_map], a [std::unordered_map], in an order that
    the language leaves open; the loop here visits it in the order of
    [map_to_list], so that the order of the names appended to
    [cooling_devices_to_update] in one call is not that of the code.  The
    properties below do not depend on that order. *)
Definition computeCoolingDevicesRequest (sensor_name : string) (sensor_info : SensorInfo)
    (curr_severity : ThrottlingSeverity) (cooling_devices_to_update : list string)
    (this : ThermalThrottling) : option (list string * ThermalThrottling) :=
  match thermal_throttling_status_map_ this !! sensor_name with
  | None => Some (cooling_devices_to_update, this)
  | Some thermal_throttling_status =>
      let profile := Status.profile thermal_throttling_status in
      ti ← throttling_info sensor_info;
      cooling_devices_request_loop sensor_name curr_severity (active_binding ti profile)
        (map_to_list (Status.cdev_status_map thermal_throttling_status))
        cooling_devices_to_update this
  end.

(** * Vocabulary of the properties *)

Definition sev_le (a b : ThrottlingSeverity) : Prop :=
  (severity_index a <= severity_index b)%nat.

Definition sev_lt (a b : ThrottlingSeverity) : Prop :=
  (severity_index a < severity_index b)%nat.

(** The severity [s] has a PID table: [s_power[s]] is not NaN. *)
Definition has_s_power (ti : ThrottlingInfo) (s : ThrottlingSeverity) : Prop :=
  F32.isnan (fat (s_power ti) (severity_index s)) = false.

(** Registration conditions of a binding, as [registerThermalThrottling]
    tests them: a PID weight that is not NaN at some severity, a positive
    hard limit at some severity. *)
Definition has_pid_weight (info : BindedCdevInfo) : Prop :=
  ∃ w, w ∈ cdev_weight_for_pid info ∧ F32.isnan w = false.

Definition has_hard_limit (info : BindedCdevInfo) : Prop :=
  ∃ limit, limit ∈ limit_info info ∧ 0 < limit.

(** The readings of the three conditions of the specification: a PID weight
    that is a number other than zero, a hard-limit state other than zero, a
    power threshold that is a number. *)
Definition has_nonzero_pid_weight (info : BindedCdevInfo) : Prop :=
  ∃ w, w ∈ cdev_weight_for_pid info ∧ F32.isnan w = false ∧ F32.eqb w F32.zero = false.

Definition has_nonzero_hard_limit (info : BindedCdevInfo) : Prop :=
  ∃ limit, limit ∈ limit_info info ∧ limit ≠ 0.

Definition has_power_threshold (info : BindedCdevInfo) : Prop :=
  ∃ threshold, threshold ∈ power_thresholds info ∧ F32.isnan threshold = false.

(** The sensor [name] holds a status, and [cdev] is a key of its
    [cdev_status_map]. *)
Definition in_cdev_status_map (name cdev : string) (this : ThermalThrottling) : Prop :=
  is_Some (Status.cdev_status_map (status_ref name this) !! cdev).

(** The power data of the rail of [info] is unavailable: there is no rail,
    or the average power of the rail is NaN. *)
Definition rail_data_unavailable (info : BindedCdevInfo)
    (power_status_map : gmap string PowerStatus) : Prop :=
  power_rail info = ""
  ∨ ∃ status, power_status_map !! power_rail info = Some status
              ∧ F32.isnan (last_updated_avg_power status) = true.

(** The power data of the rail of [info] is valid. *)
Definition rail_data_valid (info : BindedCdevInfo)
    (power_status_map : gmap string PowerStatus) : Prop :=
  power_rail info ≠ ""
  ∧ ∃ status, power_status_map !! power_rail info = Some status
              ∧ F32.isnan (last_updated_avg_power status) = false.

(** The requests that the sensors have recorded for [cdev]: the entries of
    [cdev] in the [cdev_status_map]s of all sensors. *)
Definition recorded_in (cdev : string) (statuses : gmap string Status.t) : list Z :=
  omap (λ st, Status.cdev_status_map st !! cdev) (map_to_list statuses).*2.

Definition recorded_votes (cdev : string) (this : ThermalThrottling) : list Z :=
  recorded_in cdev (thermal_throttling_status_map_ this).

(** [m] is the maximum of the list [votes]. *)
Definition is_max (m : Z) (votes : list Z) : Prop :=
  m ∈ votes ∧ ∀ v, v ∈ votes → v ≤ m.

(** The PID requests of a status are CDEV states: they are not negative. *)
Definition pid_requests_ok (st : Status.t) : Prop :=
  ∀ cdev v, Status.pid_cdev_request_map st !! cdev = Some v → 0 ≤ v.

(** The invariant of the registry.  The votes of a CDEV are kept in
    descending order; they are the recorded requests of the sensors, and
    zeros besides (a sensor that binds a CDEV for PID and for a hard limit
    inserts 0 twice at its registration); the CDEVs of the registry are those
    with a recorded request; no recorded request and no PID request is
    negative. *)
Definition registry_inv (this : ThermalThrottling) : Prop :=
  (∀ cdev votes, cdev_all_request_map_ this !! cdev = Some votes →
     StronglySorted (λ a b, b ≤ a) votes
     ∧ ∃ k, votes ≡ₚ recorded_votes cdev this ++ replicate k 0)
  ∧ (∀ cdev, is_Some (cdev_all_request_map_ this !! cdev) ↔ recorded_votes cdev this ≠ [])
  ∧ (∀ cdev v, v ∈ recorded_votes cdev this → 0 ≤ v)
  ∧ (∀ sensor_name st, thermal_throttling_status_map_ this !! sensor_name = Some st →
       pid_requests_ok st).

(** During its registration the recorded requests of a sensor are all 0. *)
Definition zero_votes (sensor_name : string) (this : ThermalThrottling) : Prop :=
  ∀ cdev v, Status.cdev_status_map (status_ref sensor_name this) !! cdev = Some v → v = 0.

(** What a control tick and a clearing leave as it was: the registry and the
    recorded requests; and they keep the PID requests non-negative. *)
Definition votes_kept (this this' : ThermalThrottling) : Prop :=
  cdev_all_request_map_ this' = cdev_all_request_map_ this
  ∧ (∀ cdev, recorded_votes cdev this' ≡ₚ recorded_votes cdev this)
  ∧ ((∀ sensor_name st, thermal_throttling_status_map_ this !! sensor_name = Some st →
        pid_requests_ok st) →
     ∀ sensor_name st, thermal_throttling_status_map_ this' !! sensor_name = Some st →
       pid_requests_ok st).

(** Every ceiling of the bindings of a sensor is a CDEV state: it is not
    negative. *)
Definition ceilings_ok (sensor_info : SensorInfo) : Prop :=
  ∀ ti profile cdev info severity,
    throttling_info sensor_info = Some ti →
    assoc cdev (active_binding ti profile) = Some info →
    0 ≤ iat (cdev_ceiling info) (severity_index severity).

(** The calls that the controller offers to its callers, as steps from one
    state of the controller to the next.  [admitted] tells which sensor
    configurations [computeCoolingDevicesRequest] is called with. *)
Inductive step (admitted : SensorInfo → Prop) : ThermalThrottling → ThermalThrottling → Prop :=
  | step_register sensor_name throttling_info cooling_device_info_map this :
      step admitted this
        (snd (registerThermalThrottling sensor_name throttling_info
                cooling_device_info_map this))
  | step_clear sensor_name this :
      step admitted this (clearThrottlingData sensor_name this)
  | step_update property temp sensor_info curr_severity time_elapsed_ms power_status_map
      cooling_device_info_map max_throttling sensor_predictions this this' :
      thermalThrottlingUpdate property temp sensor_info curr_severity time_elapsed_ms
        power_status_map cooling_device_info_map max_throttling sensor_predictions this
      = Some this' →
      step admitted this this'
  | step_compute sensor_name sensor_info curr_severity cooling_devices_to_update
      updated this this' :
      admitted sensor_info →
      computeCoolingDevicesRequest sensor_name sensor_info curr_severity
        cooling_devices_to_update this = Some (updated, this') →
      step admitted this this'.

(** The states that the controller reaches from its initial state when
    [computeCoolingDevicesRequest] is called with admitted configurations
    only, and the states that it reaches with any configuration. *)
Definition reachable_with (admitted : SensorInfo → Prop) (this : ThermalThrottling) : Prop :=
  rtc (step admitted) initial this.

Definition reachable (this : ThermalThrottling) : Prop := reachable_with (λ _, True) this.

(** The final request that [computeCoolingDevicesRequest] computes for
    [cdev_name] from the status [st] of the sensor and the binding of the
    CDEV in [binded_cdev_info_map]; none when the CDEV is not bound. *)
Definition combined_request (binded_cdev_info_map : BindedCdevInfoMap)
    (curr_severity : ThrottlingSeverity) (st : Status.t) (cdev_name : string) : option Z :=
  binded_cdev_info ← assoc cdev_name binded_cdev_info_map;
  Some (final_request
          (default 0 (Status.pid_cdev_request_map st !! cdev_name))
          (default 0 (Status.hardlimit_cdev_request_map st !! cdev_name))
          (default 0 (Status.throttling_release_map st !! cdev_name))
          (iat (cdev_floor_with_power_link binded_cdev_info) (severity_index curr_severity))
          (iat (cdev_ceiling binded_cdev_info) (severity_index curr_severity))).

(** The inputs of one call of [updatePowerBudget] for a given sensor. *)
Record Tick := mkTick {
  tick_temp : Temperature;
  tick_elapsed_ms : Z;
  tick_severity : ThrottlingSeverity;
  tick_max_throttling : bool;
  tick_predictions : list float
}.

(** The tick returns at "if (max_throttling && err <= 0)". *)
Definition takes_shortcut (sensor_info : SensorInfo) (target_state : nat) (x : Tick) : bool :=
  tick_max_throttling x
  && F32.leb (F32.sub (fat (hot_thresholds sensor_info) target_state) (value (tick_temp x)))
             F32.zero.

(** The value of [power_budget] after the [std::clamp] of a tick that starts
    in [this]: the budget before the transient is blended in. *)
Definition clamped_power_budget (sensor_info : SensorInfo)
    (cooling_device_info_map : gmap string CdevInfo) (x : Tick) (this : ThermalThrottling)
    : option float :=
  throttling_status ← thermal_throttling_status_map_ this !! name (tick_temp x);
  ti ← throttling_info sensor_info;
  '(is_fully_throttle, is_fully_release) ←
    throttle_status_loop (active_binding ti (Status.profile throttling_status))
      (Status.pid_cdev_request_map throttling_status) (tick_severity x) (true, true);
  target_state ← getTargetStateOfPID sensor_info (tick_severity x);
  fst <$> pid_clamped_budget (tick_temp x) sensor_info ti cooling_device_info_map
            (tick_elapsed_ms x) (tick_predictions x) target_state
            is_fully_throttle is_fully_release this
            (snd (detect_target_change ti target_state throttling_status)).

Definition run_tick (sensor_info : SensorInfo)
    (cooling_device_info_map : gmap string CdevInfo) (x : Tick) (this : ThermalThrottling)
    : option (float * ThermalThrottling) :=
  updatePowerBudget (tick_temp x) sensor_info cooling_device_info_map (tick_elapsed_ms x)
    (tick_severity x) (tick_max_throttling x) (tick_predictions x) this.

(** Consecutive calls of [updatePowerBudget]; for each tick the returned
    budget and the clamped budget of that tick. *)
Fixpoint run_ticks (sensor_info : SensorInfo)
    (cooling_device_info_map : gmap string CdevInfo) (xs : list Tick)
    (this : ThermalThrottling) : option (list (float * float) * ThermalThrottling) :=
  match xs with
  | [] => Some ([], this)
  | x :: xs' =>
      clamped ← clamped_power_budget sensor_info cooling_device_info_map x this;
      '(budget, this) ← run_tick sensor_info cooling_device_info_map x this;
      '(rest, this) ← run_ticks sensor_info cooling_device_info_map xs' this;
      Some ((budget, clamped) :: rest, this)
  end.

(** What a tick adds to its clamped budget when [cycles] transient cycles
    are pending, out of [n] configured ones, for the transient [delta]. *)
Definition blended (n cycles : Z) (delta clamped : float) : float :=
  if 0 <? cycles
  then F32.add clamped (F32.mul delta (F32.div (F32.of_int cycles) (F32.of_int n)))
  else clamped.

(** Two statuses that differ at most in the memory of the PID terms,
    [i_budget] and [prev_err]. *)
Definition pid_memory_only (st st' : Status.t) : Prop :=
  Status.pid_power_budget_map st' = Status.pid_power_budget_map st
  ∧ Status.pid_cdev_request_map st' = Status.pid_cdev_request_map st
  ∧ Status.hardlimit_cdev_request_map st' = Status.hardlimit_cdev_request_map st
  ∧ Status.throttling_release_map st' = Status.throttling_release_map st
  ∧ Status.cdev_status_map st' = Status.cdev_status_map st
  ∧ Status.prev_target st' = Status.prev_target st
  ∧ Status.prev_power_budget st' = Status.prev_power_budget st
  ∧ Status.budget_transient st' = Status.budget_transient st
  ∧ Status.tran_cycle st' = Status.tran_cycle st
  ∧ Status.profile st' = Status.profile st.

(** A tick of the sensor [sensor_name] that has the target state [t], is not
    at NONE and does not take the max-throttling shortcut. *)
Definition regular_tick (sensor_info : SensorInfo) (sensor_name : string) (t : nat)
    (x : Tick) : Prop :=
  name (tick_temp x) = sensor_name
  ∧ severity_eqb (tick_severity x) NONE = false
  ∧ getTargetStateOfPID sensor_info (tick_severity x) = Some t
  ∧ takes_shortcut sensor_info t x = false.

(** ** Vocabulary of the further properties *)

(** The status of a sensor after [clearThrottlingData]. *)
Definition cleared_status (s : Status.t) : Status.t :=
  Status.set_tran_cycle 0
    (Status.set_prev_power_budget F32.NAN
       (Status.set_prev_target (severity_index NONE)
          (Status.set_i_budget F32.NAN
             (Status.set_prev_err F32.NAN
                (Status.set_throttling_release_map (fmap (λ _, 0))
                   (Status.set_hardlimit_cdev_request_map (fmap (λ _, 0))
                      (Status.set_pid_cdev_request_map (fmap (λ _, 0))
                         (Status.set_pid_power_budget_map
                            (fmap (λ _, F32.INT_MAX)) s)))))))).

(** The binding map [binded] has an entry for [cdev] that satisfies [P]. *)
Definition bound_with (P : BindedCdevInfo → Prop) (binded : BindedCdevInfoMap)
    (cdev : string) : Prop :=
  ∃ info, (cdev, info) ∈ binded ∧ P info.

(** The condition of the third registration block: a power rail is named,
    and a power threshold is not NaN at some severity. *)
Definition has_release_threshold (info : BindedCdevInfo) : Prop :=
  power_rail info ≠ "" ∧ has_power_threshold info.

(** The map [m'] holds [v] under the CDEVs that [binded] binds with [P], and
    what [m] holds under the other CDEVs. *)
Definition filled {V} (P : BindedCdevInfo → Prop) (binded : BindedCdevInfoMap) (v : V)
    (m m' : gmap string V) : Prop :=
  ∀ c, (bound_with P binded c → m' !! c = Some v)
       ∧ (¬ bound_with P binded c → m' !! c = m !! c).

(** The votes of [cdev] in the registry; none when the registry has no entry
    for [cdev]. *)
Definition votes_of (cdev : string) (this : ThermalThrottling) : list Z :=
  default [] (cdev_all_request_map_ this !! cdev).

(** What a registration leaves as it was: the statuses of the other sensors
    and the votes of the registry, to which it only adds votes of 0. *)
Definition registration_frame (sensor_name : string) (this this' : ThermalThrottling) : Prop :=
  (∀ other, other ≠ sensor_name →
     thermal_throttling_status_map_ this' !! other
     = thermal_throttling_status_map_ this !! other)
  ∧ (∀ cdev, ∃ k, votes_of cdev this' ≡ₚ votes_of cdev this ++ replicate k 0)
  ∧ (∀ cdev, is_Some (cdev_all_request_map_ this !! cdev) →
             is_Some (cdev_all_request_map_ this' !! cdev)).

(** Every release step of the status is, in absolute value, at most the
    maximum state of its CDEV. *)
Definition release_steps_within (cooling_device_info_map : gmap string CdevInfo)
    (st : Status.t) : Prop :=
  ∀ cdev release_step cdev_info,
    Status.throttling_release_map st !! cdev = Some release_step →
    cooling_device_info_map !! cdev = Some cdev_info →
    Z.abs release_step ≤ max_state cdev_info.

(** * Example configurations *)

Module Example.

Definition fl (z : Z) : float := F32.of_int z.

Definition all (x : float) : ThrottlingArray := replicate kThrottlingSeverityCount x.
Definition alli (x : Z) : CdevArray := replicate kThrottlingSeverityCount x.
Definition undefined : ThrottlingArray := all F32.NAN.

(** A sensor whose PID tables are defined at every severity. *)
Definition every_level : ThrottlingInfo :=
  mkThrottlingInfo (all (fl 0)) (all (fl 0)) (all (fl 0)) (all (fl 0)) (all (fl 0))
    (all (fl 1000)) (all (fl 5000)) (all (fl 0)) (all (fl 1000)) (all (fl 0))
    (fl 0) F32.NAN 0 [] [] [].

Definition every_level_sensor : SensorInfo :=
  mkSensorInfo (all (fl 45)) (fl 1) None (Some every_level).

(** The sensor and the CDEV of the second scenario of the specification: one
    PID table, at MODERATE, and one CDEV without a power rail. *)
Definition at_moderate (x : float) : ThrottlingArray :=
  [F32.NAN; F32.NAN; x; F32.NAN; F32.NAN; F32.NAN; F32.NAN].

Definition cpu_binding : BindedCdevInfo :=
  mkBindedCdevInfo (alli 0) undefined ReleaseLogic.NONE (at_moderate (fl 1)) (alli 4)
    F32.INT_MAX F32.INT_MAX (alli 0) "" false false true.

Definition skin_info : ThrottlingInfo :=
  mkThrottlingInfo (at_moderate (fl (-100))) (at_moderate (fl 0)) (at_moderate (fl 0))
    (at_moderate (fl 0)) (at_moderate (fl 0)) (at_moderate (fl 1000))
    (at_moderate (fl 5000)) (at_moderate (fl 0)) (at_moderate (fl 1000))
    (at_moderate (fl 0)) (fl 0) F32.NAN 0 [] [("cpu", cpu_binding)] [].

Definition skin : SensorInfo := mkSensorInfo (at_moderate (fl 45)) (fl 1) None (Some skin_info).

Definition cooling_devices : gmap string CdevInfo :=
  {[ "cpu" := mkCdevInfo [fl 2000; fl 1500; fl 1000; fl 500; fl 0] 4 ]}.

Definition skin_50 : Temperature := mkTemperature "skin" (fl 50).

(** The controller after the registration of [skin], after one tick at 50
    degrees and MODERATE, and after the requests of that tick are combined. *)
Definition registered : ThermalThrottling :=
  snd (registerThermalThrottling "skin" (Some skin_info) cooling_devices initial).

Definition ticked : ThermalThrottling :=
  default initial
    (thermalThrottlingUpdate "" skin_50 skin MODERATE 1000 ∅ cooling_devices false []
       registered).

Definition voted : ThermalThrottling :=
  default initial (snd <$> computeCoolingDevicesRequest "skin" skin MODERATE [] ticked).

(** Two sensors bound to [cpu].  The first one, [battery], is given a budget
    of 500 mW and so votes for state 3; the second one, [board], takes its
    default I budget from [i_default_pct = 50]. *)
Definition battery_info : ThrottlingInfo :=
  mkThrottlingInfo (at_moderate (fl 0)) (at_moderate (fl 0)) (at_moderate (fl 0))
    (at_moderate (fl 0)) (at_moderate (fl 0)) (at_moderate (fl 1000))
    (at_moderate (fl 5000)) (at_moderate (fl 0)) (at_moderate (fl 500))
    (at_moderate (fl 0)) (fl 0) F32.NAN 0 [] [("cpu", cpu_binding)] [].

Definition battery : SensorInfo :=
  mkSensorInfo (at_moderate (fl 45)) (fl 1) None (Some battery_info).

Definition board_info : ThrottlingInfo :=
  mkThrottlingInfo (at_moderate (fl 0)) (at_moderate (fl 0)) (at_moderate (fl 0))
    (at_moderate (fl 0)) (at_moderate (fl 0)) (at_moderate (fl 1000))
    (at_moderate (fl 5000)) (at_moderate (fl 0)) (at_moderate (fl 1000))
    (at_moderate (fl 0)) (fl 0) (fl 50) 0 [] [("cpu", cpu_binding)] [].

Definition board : SensorInfo :=
  mkSensorInfo (at_moderate (fl 45)) (fl 1) None (Some board_info).

Definition two_sensors : ThermalThrottling :=
  let this := snd (registerThermalThrottling "battery" (Some battery_info) cooling_devices
                     initial) in
  let this := snd (registerThermalThrottling "board" (Some board_info) cooling_devices this) in
  let this :=
    default initial
      (thermalThrottlingUpdate "" (mkTemperature "battery" (fl 50)) battery MODERATE 1000 ∅
         cooling_devices false [] this) in
  default initial (snd <$> computeCoolingDevicesRequest "battery" battery MODERATE [] this).

(** A sensor whose CDEV has a power rail and [throttling_with_power_link]
    set, with the power data of the rail once unavailable and once valid. *)
Definition linked_binding : BindedCdevInfo :=
  mkBindedCdevInfo (alli 0) undefined ReleaseLogic.NONE (at_moderate (fl 1)) (alli 4)
    F32.INT_MAX F32.INT_MAX (alli 0) "cpu_rail" false true true.

Definition modem_info : ThrottlingInfo :=
  mkThrottlingInfo (at_moderate (fl (-100))) (at_moderate (fl 0)) (at_moderate (fl 0))
    (at_moderate (fl 0)) (at_moderate (fl 0)) (at_moderate (fl 1000))
    (at_moderate (fl 5000)) (at_moderate (fl 0)) (at_moderate (fl 1000))
    (at_moderate (fl 0)) (fl 0) F32.NAN 0 [] [("cpu", linked_binding)] [].

Definition modem : SensorInfo :=
  mkSensorInfo (at_moderate (fl 45)) (fl 1) None (Some modem_info).

Definition modem_50 : Temperature := mkTemperature "modem" (fl 50).

Definition modem_registered : ThermalThrottling :=
  snd (registerThermalThrottling "modem" (Some modem_info) cooling_devices initial).

Definition rail_collecting : gmap string PowerStatus :=
  {[ "cpu_rail" := mkPowerStatus F32.NAN ]}.

Definition rail_valid : gmap string PowerStatus :=
  {[ "cpu_rail" := mkPowerStatus (fl 300) ]}.

(** A sensor with PID tables at MODERATE and CRITICAL and a transient of four
    cycles: 3000 mW at MODERATE, 500 mW (at most 1000 mW) at CRITICAL. *)
Definition levels (a b : float) : ThrottlingArray :=
  [F32.NAN; F32.NAN; a; F32.NAN; b; F32.NAN; F32.NAN].

Definition shell_binding : BindedCdevInfo :=
  mkBindedCdevInfo (alli 0) undefined ReleaseLogic.NONE (levels (fl 1) (fl 1)) (alli 4)
    F32.INT_MAX F32.INT_MAX (alli 0) "" false false true.

Definition shell_info : ThrottlingInfo :=
  mkThrottlingInfo (levels (fl 0) (fl 0)) (levels (fl 0) (fl 0)) (levels (fl 0) (fl 0))
    (levels (fl 0) (fl 0)) (levels (fl 0) (fl 0)) (levels (fl 1000) (fl 1000))
    (levels (fl 5000) (fl 1000)) (levels (fl 0) (fl 0)) (levels (fl 3000) (fl 500))
    (levels (fl 0) (fl 0)) (fl 0) F32.NAN 4 [] [("cpu", shell_binding)] [].

Definition shell : SensorInfo :=
  mkSensorInfo (levels (fl 45) (fl 55)) (fl 1) None (Some shell_info).

Definition shell_tick (severity : ThrottlingSeverity) : Tick :=
  mkTick (mkTemperature "shell" (fl 50)) 1000 severity false [].

(** [shell] after its registration and a first tick at LIGHT, whose target
    state is MODERATE. *)
Definition shell_light : ThermalThrottling :=
  default initial
    (snd <$> run_tick shell cooling_devices (shell_tick LIGHT)
               (snd (registerThermalThrottling "shell" (Some shell_info) cooling_devices
                       initial))).

(** A sensor that binds [cpu] both for PID and for hard limits, and the same
    sensor with a ceiling that is not a CDEV state. *)
Definition pid_and_limit_binding (ceiling : Z) : BindedCdevInfo :=
  mkBindedCdevInfo [0; 0; 0; 1; 2; 3; 4] undefined ReleaseLogic.NONE (at_moderate (fl 1))
    (alli ceiling) F32.INT_MAX F32.INT_MAX (alli 0) "" false false true.

Definition frame_info (ceiling : Z) : ThrottlingInfo :=
  mkThrottlingInfo (at_moderate (fl 0)) (at_moderate (fl 0)) (at_moderate (fl 0))
    (at_moderate (fl 0)) (at_moderate (fl 0)) (at_moderate (fl 1000))
    (at_moderate (fl 5000)) (at_moderate (fl 0)) (at_moderate (fl 3000))
    (at_moderate (fl 0)) (fl 0) F32.NAN 0 [] [("cpu", pid_and_limit_binding ceiling)] [].

Definition frame (ceiling : Z) : SensorInfo :=
  mkSensorInfo (at_moderate (fl 45)) (fl 1) None (Some (frame_info ceiling)).

Definition frame_registered (ceiling : Z) : ThermalThrottling :=
  snd (registerThermalThrottling "frame" (Some (frame_info ceiling)) cooling_devices initial).

Definition frame_voted (ceiling : Z) : ThermalThrottling :=
  default initial
    (snd <$> computeCoolingDevicesRequest "frame" (frame ceiling) MODERATE []
               (frame_registered ceiling)).

(** A CDEV bound with a power threshold only: no PID weight, no hard limit. *)
Definition gpu_binding : BindedCdevInfo :=
  mkBindedCdevInfo (alli 0) (at_moderate (fl 100)) ReleaseLogic.DECREASE undefined (alli 4)
    F32.INT_MAX F32.INT_MAX (alli 0) "gpu_rail" false false true.

Definition threshold_only_info : ThrottlingInfo :=
  mkThrottlingInfo undefined undefined undefined undefined undefined undefined undefined
    undefined undefined undefined (fl 0) F32.NAN 0 [] [("gpu", gpu_binding)] [].

Definition gpu_devices : gmap string CdevInfo :=
  {[ "gpu" := mkCdevInfo [fl 2000; fl 1000; fl 0] 2 ]}.

(** A sensor that binds two CDEVs for the release logic; the power rail of
    the second one is not among the power rails that are read. *)
Definition npu_binding : BindedCdevInfo :=
  mkBindedCdevInfo (alli 0) (at_moderate (fl 100)) ReleaseLogic.DECREASE undefined (alli 4)
    F32.INT_MAX F32.INT_MAX (alli 0) "npu_rail" false false true.

Definition release_info : ThrottlingInfo :=
  mkThrottlingInfo undefined undefined undefined undefined undefined undefined undefined
    undefined undefined undefined (fl 0) F32.NAN 0 []
    [("gpu", gpu_binding); ("npu", npu_binding)] [].

Definition release_sensor : SensorInfo :=
  mkSensorInfo undefined (fl 1) None (Some release_info).

Definition release_devices : gmap string CdevInfo :=
  {[ "gpu" := mkCdevInfo [fl 2000; fl 1000; fl 0] 2;
     "npu" := mkCdevInfo [fl 2000; fl 1000; fl 0] 2 ]}.

Definition gpu_power : gmap string PowerStatus := {[ "gpu_rail" := mkPowerStatus (fl 50) ]}.

Definition release_registered : ThermalThrottling :=
  snd (registerThermalThrottling "soc" (Some release_info) release_devices initial).

End Example.

(** * Properties *)

(** ** The PID target state *)

Section TargetState.

Variable sp : ThrottlingArray.
Variable curr : ThrottlingSeverity.

Let defined (s : ThrottlingSeverity) : Prop :=
  F32.isnan (fat sp (severity_index s)) = false.

(** The loop over an ascending list of severities: it stops at the first
    defined severity above [curr]; without one it ends on the last defined
    severity of the list; without any it keeps [acc]. *)
Lemma target_state_loop_spec (sevs : list ThrottlingSeverity) (acc : nat) :
  StronglySorted sev_lt sevs →
  let r := target_state_loop sp curr sevs acc in
  ((∃ s, s ∈ sevs ∧ defined s ∧ sev_lt curr s) →
     ∃ s, r = severity_index s ∧ s ∈ sevs ∧ defined s ∧ sev_lt curr s ∧
          ∀ s', s' ∈ sevs → defined s' → sev_lt curr s' → sev_le s s') ∧
  ((∀ s, s ∈ sevs → defined s → sev_le s curr) → (∃ s, s ∈ sevs ∧ defined s) →
     ∃ s, r = severity_index s ∧ s ∈ sevs ∧ defined s ∧
          ∀ s', s' ∈ sevs → defined s' → sev_le s' s) ∧
  ((∀ s, s ∈ sevs → ¬ defined s) → r = acc).
Proof.
  intros Hsorted. revert acc.
  induction Hsorted as [|a sevs Hsorted IH Ha]; intros acc; simpl.
  - split_and!.
    + intros (s & Hs & _). by apply elem_of_nil in Hs.
    + intros _ (s & Hs & _). by apply elem_of_nil in Hs.
    + done.
  - rewrite Forall_forall in Ha.
    destruct (F32.isnan (fat sp (severity_index a))) eqn:Hnan.
    + (* [a] is skipped *)
      destruct (IH acc) as (IH1 & IH2 & IH3).
      assert (Hna : ¬ defined a) by (unfold defined; congruence).
      split_and!.
      * intros (s & Hs & Hd & Hlt). apply elem_of_cons in Hs as [->|Hs]; [done|].
        destruct IH1 as (s0 & -> & Hs0 & Hd0 & Hlt0 & Hmin); [by eauto|].
        exists s0. split_and!; auto using list_elem_of_further.
        intros s' Hs' Hd' Hlt'. apply elem_of_cons in Hs' as [->|Hs']; [done|eauto].
      * intros Hall (s & Hs & Hd). apply elem_of_cons in Hs as [->|Hs]; [done|].
        destruct IH2 as (s0 & -> & Hs0 & Hd0 & Hmax);
          [by eauto using list_elem_of_further | by eauto |].
        exists s0. split_and!; auto using list_elem_of_further.
        intros s' Hs' Hd'. apply elem_of_cons in Hs' as [->|Hs']; [done|eauto].
      * intros Hnone. apply IH3. eauto using list_elem_of_further.
    + assert (Hda : defined a) by done.
      destruct (severity_index curr <? severity_index a)%nat eqn:Hlt.
      * (* [break] on [a] *)
        apply Nat.ltb_lt in Hlt.
        split_and!.
        -- intros _. exists a. split_and!; auto using list_elem_of_here.
           intros s' Hs' _ _. apply elem_of_cons in Hs' as [->|Hs'].
           ++ unfold sev_le. lia.
           ++ specialize (Ha _ Hs'). unfold sev_lt, sev_le in *. lia.
        -- intros Hall _. specialize (Hall a (list_elem_of_here _ _) Hda).
           unfold sev_le in Hall. lia.
        -- intros Hnone. by destruct (Hnone a (list_elem_of_here _ _)).
      * apply Nat.ltb_ge in Hlt.
        destruct (IH (severity_index a)) as (IH1 & IH2 & IH3).
        split_and!.
        -- intros (s & Hs & Hd & Hlts). apply elem_of_cons in Hs as [->|Hs].
           { unfold sev_lt in Hlts. lia. }
           destruct IH1 as (s0 & -> & Hs0 & Hd0 & Hlt0 & Hmin); [by eauto|].
           exists s0. split_and!; auto using list_elem_of_further.
           intros s' Hs' Hd' Hlt'. apply elem_of_cons in Hs' as [->|Hs']; [|eauto].
           unfold sev_lt in Hlt'. lia.
        -- intros Hall _.
           assert (Hdec : (∃ s, s ∈ sevs ∧ defined s) ∨ ¬ (∃ s, s ∈ sevs ∧ defined s)).
           { destruct (decide (Exists (λ s, F32.isnan (fat sp (severity_index s)) = false)
                                 sevs)) as [H|H]; rewrite Exists_exists in H; auto. }
           destruct Hdec as [Hex|Hnex].
           ++ destruct IH2 as (s0 & -> & Hs0 & Hd0 & Hmax);
                [by eauto using list_elem_of_further | done |].
              exists s0. split_and!; auto using list_elem_of_further.
              intros s' Hs' Hd'. apply elem_of_cons in Hs' as [->|Hs']; [|eauto].
              specialize (Ha _ Hs0). unfold sev_lt, sev_le in *. lia.
           ++ rewrite IH3 by (intros s Hs Hd; apply Hnex; eauto).
              exists a. split_and!; auto using list_elem_of_here.
              intros s' Hs' Hd'. apply elem_of_cons in Hs' as [->|Hs'].
              ** unfold sev_le. lia.
              ** destruct Hnex. eauto.
        -- intros Hnone. by destruct (Hnone a (list_elem_of_here _ _)).
Qed.

End TargetState.

Lemma enum_range_sorted : StronglySorted sev_lt enum_range.
Proof.
  unfold enum_range.
  repeat (constructor; [|repeat constructor; unfold sev_lt; simpl; lia]).
  constructor.
Qed.

Lemma elem_of_enum_range (s : ThrottlingSeverity) : s ∈ enum_range.
Proof. unfold enum_range. destruct s; set_solver. Qed.

(** C1, as amended.  [getTargetStateOfPID] returns the lowest severity with a
    non-NaN [s_power] strictly above [curr] whenever there is one; when there
    is none, it returns the highest severity with a non-NaN [s_power] (which
    is then at or below [curr]); when [s_power] is NaN everywhere, it
    returns 0. *)
Theorem getTargetStateOfPID_next_defined (sensor_info : SensorInfo) (ti : ThrottlingInfo)
    (curr : ThrottlingSeverity) :
  throttling_info sensor_info = Some ti →
  ∃ t, getTargetStateOfPID sensor_info curr = Some t ∧
    ((∃ s, has_s_power ti s ∧ sev_lt curr s) →
       ∃ s, t = severity_index s ∧ has_s_power ti s ∧ sev_lt curr s ∧
            ∀ s', has_s_power ti s' → sev_lt curr s' → sev_le s s') ∧
    ((∀ s, has_s_power ti s → sev_le s curr) → (∃ s, has_s_power ti s) →
       ∃ s, t = severity_index s ∧ has_s_power ti s ∧
            ∀ s', has_s_power ti s' → sev_le s' s) ∧
    ((∀ s, ¬ has_s_power ti s) → t = 0%nat).
Proof.
  intros Hti. exists (target_state_loop (s_power ti) curr enum_range 0).
  split; [unfold getTargetStateOfPID; rewrite Hti; reflexivity|].
  destruct (target_state_loop_spec (s_power ti) curr enum_range 0 enum_range_sorted)
    as (H1 & H2 & H3).
  unfold has_s_power. split_and!.
  - intros (s & Hd & Hlt).
    destruct H1 as (s0 & -> & _ & Hd0 & Hlt0 & Hmin);
      [by eauto using elem_of_enum_range|].
    exists s0. split_and!; auto. intros s' Hd' Hlt'.
    apply Hmin; auto using elem_of_enum_range.
  - intros Hall (s & Hd).
    destruct H2 as (s0 & -> & _ & Hd0 & Hmax); [by auto | by eauto using elem_of_enum_range |].
    exists s0. split_and!; auto. intros s' Hd'. apply Hmax; auto using elem_of_enum_range.
  - intros Hnone. apply H3. auto.
Qed.

Lemma getTargetStateOfPID_next_defined_witness :
  ∃ t, getTargetStateOfPID Example.every_level_sensor LIGHT = Some t ∧
    ((∃ s, has_s_power Example.every_level s ∧ sev_lt LIGHT s) →
       ∃ s, t = severity_index s ∧ has_s_power Example.every_level s ∧ sev_lt LIGHT s ∧
            ∀ s', has_s_power Example.every_level s' → sev_lt LIGHT s' → sev_le s s') ∧
    ((∀ s, has_s_power Example.every_level s → sev_le s LIGHT) →
       (∃ s, has_s_power Example.every_level s) →
       ∃ s, t = severity_index s ∧ has_s_power Example.every_level s ∧
            ∀ s', has_s_power Example.every_level s' → sev_le s' s) ∧
    ((∀ s, ¬ has_s_power Example.every_level s) → t = 0%nat).
Proof.
  apply (getTargetStateOfPID_next_defined Example.every_level_sensor Example.every_level
           LIGHT).
  reflexivity.
Defined.

(** With [s_power] defined at every severity and [curr = LIGHT] the target
    state is MODERATE. *)
Example getTargetStateOfPID_every_level :
  getTargetStateOfPID Example.every_level_sensor LIGHT = Some (severity_index MODERATE).
Proof. reflexivity. Qed.

(** C1, as stated, fails: a severity at or below [curr] with a non-NaN
    [s_power] exists, and yet the target state is not the last such severity;
    it exceeds [curr]. *)
Lemma getTargetStateOfPID_exceeds_curr :
  ¬ (∀ (sensor_info : SensorInfo) (ti : ThrottlingInfo) (curr : ThrottlingSeverity),
       throttling_info sensor_info = Some ti →
       (∃ s, has_s_power ti s ∧ sev_le s curr) →
       ∃ s, getTargetStateOfPID sensor_info curr = Some (severity_index s) ∧
            has_s_power ti s ∧ sev_le s curr ∧
            ∀ s', has_s_power ti s' → sev_le s' curr → sev_le s' s).
Proof.
  intros H.
  destruct (H Example.every_level_sensor Example.every_level LIGHT eq_refl)
    as (s & Hs & _ & Hle & _).
  - exists LIGHT. split; [reflexivity | unfold sev_le; lia].
  - rewrite getTargetStateOfPID_every_level in Hs.
    injection Hs as Hs. unfold sev_le in Hle. simpl in *. lia.
Qed.

(** ** Reading and writing the status of a sensor *)

Lemma status_ref_with_status (name : string) (f : Status.t → Status.t)
    (this : ThermalThrottling) :
  status_ref name (with_status name f this) = f (status_ref name this).
Proof. unfold status_ref, with_status. simpl. by rewrite lookup_insert_eq. Qed.

Lemma status_ref_with_status_ne (name other : string) (f : Status.t → Status.t)
    (this : ThermalThrottling) :
  name ≠ other →
  status_ref other (with_status name f this) = status_ref other this.
Proof. intros. unfold status_ref, with_status. simpl. by rewrite lookup_insert_ne. Qed.

Lemma status_ref_vote_insert (name cdev : string) (x : Z) (this : ThermalThrottling) :
  status_ref name (vote_insert cdev x this) = status_ref name this.
Proof. reflexivity. Qed.

Lemma status_ref_lookup (name : string) (this : ThermalThrottling) (st : Status.t) :
  thermal_throttling_status_map_ this !! name = Some st → status_ref name this = st.
Proof. intros H. unfold status_ref. by rewrite H. Qed.

Lemma lookup_with_status (name : string) (f : Status.t → Status.t)
    (this : ThermalThrottling) :
  thermal_throttling_status_map_ (with_status name f this) !! name
  = Some (f (status_ref name this)).
Proof. unfold with_status. simpl. by rewrite lookup_insert_eq. Qed.

Lemma lookup_with_status_ne (name other : string) (f : Status.t → Status.t)
    (this : ThermalThrottling) :
  name ≠ other →
  thermal_throttling_status_map_ (with_status name f this) !! other
  = thermal_throttling_status_map_ this !! other.
Proof. intros. unfold with_status. simpl. by rewrite lookup_insert_ne. Qed.

Lemma with_status_id (name : string) (this : ThermalThrottling) :
  is_Some (thermal_throttling_status_map_ this !! name) →
  with_status name (λ s, s) this = this.
Proof.
  intros [st Hst]. unfold with_status. rewrite (status_ref_lookup _ _ _ Hst).
  rewrite insert_id by done. by destruct this.
Qed.

(** ** Clearing *)

(** C3, as amended.  After [clearThrottlingData(s)] on a registered sensor
    [s]: [prev_err], [i_budget] and [prev_power_budget] are NaN, [prev_target]
    is NONE and [tran_cycle] is 0; every PID request, hard-limit request and
    release step is 0 and every PID power budget is [INT_MAX], under the keys
    they had; [cdev_status_map], that is the votes of the sensor, the
    registry of votes and the status of every other sensor are as they
    were. *)
Theorem clearThrottlingData_resets (name : string) (this : ThermalThrottling)
    (st : Status.t) :
  thermal_throttling_status_map_ this !! name = Some st →
  ∃ st', thermal_throttling_status_map_ (clearThrottlingData name this) !! name = Some st' ∧
    Status.prev_err st' = F32.NAN ∧
    Status.i_budget st' = F32.NAN ∧
    Status.prev_power_budget st' = F32.NAN ∧
    Status.prev_target st' = severity_index NONE ∧
    Status.tran_cycle st' = 0 ∧
    (∀ cdev, Status.pid_cdev_request_map st' !! cdev
             = (λ _, 0) <$> Status.pid_cdev_request_map st !! cdev) ∧
    (∀ cdev, Status.hardlimit_cdev_request_map st' !! cdev
             = (λ _, 0) <$> Status.hardlimit_cdev_request_map st !! cdev) ∧
    (∀ cdev, Status.throttling_release_map st' !! cdev
             = (λ _, 0) <$> Status.throttling_release_map st !! cdev) ∧
    (∀ cdev, Status.pid_power_budget_map st' !! cdev
             = (λ _, F32.INT_MAX) <$> Status.pid_power_budget_map st !! cdev) ∧
    Status.cdev_status_map st' = Status.cdev_status_map st ∧
    cdev_all_request_map_ (clearThrottlingData name this) = cdev_all_request_map_ this ∧
    (∀ other, other ≠ name →
       thermal_throttling_status_map_ (clearThrottlingData name this) !! other
       = thermal_throttling_status_map_ this !! other).
Proof.
  intros Hst. unfold clearThrottlingData. rewrite Hst.
  eexists. split; [apply lookup_with_status|].
  rewrite (status_ref_lookup _ _ _ Hst). simpl.
  split_and!; try reflexivity.
  - intros cdev. apply lookup_fmap.
  - intros cdev. apply lookup_fmap.
  - intros cdev. apply lookup_fmap.
  - intros cdev. apply lookup_fmap.
  - intros other Hne. by rewrite lookup_insert_ne.
Qed.

Example voted_status :
  map_to_list (Status.cdev_status_map (status_ref "skin" Example.voted)) = [("cpu", 1)]
  ∧ map_to_list (cdev_all_request_map_ Example.voted) = [("cpu", [1])].
Proof. vm_compute. done. Qed.

Lemma clearThrottlingData_resets_witness :
  ∃ st', thermal_throttling_status_map_ (clearThrottlingData "skin" Example.voted) !! "skin"
         = Some st' ∧
    Status.prev_err st' = F32.NAN ∧
    Status.i_budget st' = F32.NAN ∧
    Status.prev_power_budget st' = F32.NAN ∧
    Status.prev_target st' = severity_index NONE ∧
    Status.tran_cycle st' = 0 ∧
    (∀ cdev, Status.pid_cdev_request_map st' !! cdev
             = (λ _, 0) <$> Status.pid_cdev_request_map (status_ref "skin" Example.voted)
                              !! cdev) ∧
    (∀ cdev, Status.hardlimit_cdev_request_map st' !! cdev
             = (λ _, 0) <$> Status.hardlimit_cdev_request_map
                              (status_ref "skin" Example.voted) !! cdev) ∧
    (∀ cdev, Status.throttling_release_map st' !! cdev
             = (λ _, 0) <$> Status.throttling_release_map
                              (status_ref "skin" Example.voted) !! cdev) ∧
    (∀ cdev, Status.pid_power_budget_map st' !! cdev
             = (λ _, F32.INT_MAX) <$> Status.pid_power_budget_map
                                        (status_ref "skin" Example.voted) !! cdev) ∧
    Status.cdev_status_map st' = Status.cdev_status_map (status_ref "skin" Example.voted) ∧
    cdev_all_request_map_ (clearThrottlingData "skin" Example.voted)
    = cdev_all_request_map_ Example.voted ∧
    (∀ other, other ≠ "skin" →
       thermal_throttling_status_map_ (clearThrottlingData "skin" Example.voted) !! other
       = thermal_throttling_status_map_ Example.voted !! other).
Proof.
  apply (clearThrottlingData_resets "skin" Example.voted (status_ref "skin" Example.voted)).
  vm_compute. reflexivity.
Defined.

(** C3, as stated, fails in its last part: [clearThrottlingData] leaves the
    vote of the sensor where it was.  After one tick the sensor [skin] votes
    1 for [cpu]; after the clearing its recorded vote is still 1, and the
    maximum of the registry is 1, not 0. *)
Lemma clearThrottlingData_keeps_vote :
  ¬ (∀ (name : string) (this : ThermalThrottling) (st : Status.t),
       thermal_throttling_status_map_ this !! name = Some st →
       ∀ cdev vote, Status.cdev_status_map st !! cdev = Some vote →
         Status.cdev_status_map (status_ref name (clearThrottlingData name this)) !! cdev
         = Some 0
         ∧ cdev_all_request_map_ (clearThrottlingData name this) !! cdev
           = (votes ← cdev_all_request_map_ this !! cdev;
              VoteSet.insert 0 <$> VoteSet.erase_found vote votes)).
Proof.
  intros H.
  assert (Hst : thermal_throttling_status_map_ Example.voted !! "skin"
                = Some (status_ref "skin" Example.voted)) by (vm_compute; reflexivity).
  assert (Hcpu : Status.cdev_status_map (status_ref "skin" Example.voted) !! "cpu" = Some 1)
    by (vm_compute; reflexivity).
  destruct (H _ _ _ Hst _ _ Hcpu) as [Hvote _].
  vm_compute in Hvote. discriminate.
Qed.

(** ** Registration *)

Lemma existsb_elem_of {A} (f : A → bool) (l : list A) :
  existsb f l = true ↔ ∃ x, x ∈ l ∧ f x = true.
Proof.
  rewrite existsb_exists. split; intros (x & Hx & Hf); exists x; split; auto;
    by apply list_elem_of_In.
Qed.

Lemma existsb_pid_weight (info : BindedCdevInfo) :
  existsb (λ cdev_weight, negb (F32.isnan cdev_weight)) (cdev_weight_for_pid info) = true
  ↔ has_pid_weight info.
Proof.
  rewrite existsb_elem_of. unfold has_pid_weight.
  split; intros (w & Hw & Hn); exists w; split; auto.
  - by apply negb_true_iff.
  - by apply negb_true_iff.
Qed.

Lemma existsb_hard_limit (info : BindedCdevInfo) :
  existsb (λ limit, 0 <? limit) (limit_info info) = true ↔ has_hard_limit info.
Proof.
  rewrite existsb_elem_of. unfold has_hard_limit.
  split; intros (w & Hw & Hn); exists w; split; auto; lia.
Qed.

(** The keys of [cdev_status_map] after the three registration blocks of one
    binding. *)
Lemma register_blocks_cdev_status (name cdev : string) (info : BindedCdevInfo)
    (this : ThermalThrottling) (c : string) :
  in_cdev_status_map name c
    (register_release name cdev info
       (register_hardlimit name cdev info (register_pid name cdev info this)))
  ↔ in_cdev_status_map name c this ∨ (c = cdev ∧ (has_pid_weight info ∨ has_hard_limit info)).
Proof.
  unfold in_cdev_status_map.
  assert (Hrel : ∀ that, Status.cdev_status_map (status_ref name (register_release name cdev info that))
                         = Status.cdev_status_map (status_ref name that)).
  { intros that. unfold register_release.
    repeat case_match; try done. by rewrite status_ref_with_status. }
  rewrite Hrel. clear Hrel.
  rewrite <- existsb_pid_weight, <- existsb_hard_limit.
  unfold register_hardlimit, register_pid.
  destruct (existsb _ (limit_info info)), (existsb _ (cdev_weight_for_pid info));
    rewrite ?status_ref_vote_insert, ?status_ref_with_status; simpl;
    rewrite ?status_ref_vote_insert, ?status_ref_with_status; simpl;
    rewrite ?status_ref_with_status; simpl;
    rewrite ?lookup_insert_is_Some; destruct (decide (cdev = c)); naive_solver.
Qed.

Lemma register_loop_cdev_status (name : string) (cmap : gmap string CdevInfo)
    (binded : BindedCdevInfoMap) (this this' : ThermalThrottling) :
  register_loop name cmap binded this = (true, this') →
  ∀ c, in_cdev_status_map name c this'
       ↔ in_cdev_status_map name c this
         ∨ ∃ info, (c, info) ∈ binded ∧ (has_pid_weight info ∨ has_hard_limit info).
Proof.
  revert this. induction binded as [|[cdev info] binded IH]; intros this Hloop c; simpl in *.
  - injection Hloop as <-. split; [auto|]. intros [?|(? & H & _)]; [done|].
    by apply elem_of_nil in H.
  - destruct (cmap !! cdev); [|done].
    rewrite (IH _ Hloop c), register_blocks_cdev_status.
    split.
    + intros [[?|[-> ?]]|(i & Hi & ?)]; eauto using list_elem_of_here, list_elem_of_further.
    + intros [?|(i & Hi & ?)]; [auto|].
      apply elem_of_cons in Hi as [[= -> ->]|Hi]; eauto.
Qed.

(** C9, as amended.  After a successful registration of a new sensor, a CDEV
    is a key of the sensor's [cdev_status_map] if and only if the default
    binding has, for that CDEV, a PID weight that is not NaN at some severity
    or a positive hard limit at some severity.  A power threshold alone does
    not enter the CDEV. *)
Theorem registered_cdev_status_map (name : string) (ti : ThrottlingInfo)
    (cmap : gmap string CdevInfo) (this this' : ThermalThrottling) :
  thermal_throttling_status_map_ this !! name = None →
  registerThermalThrottling name (Some ti) cmap this = (true, this') →
  ∀ cdev, in_cdev_status_map name cdev this'
          ↔ ∃ info, (cdev, info) ∈ binded_cdev_info_map ti
                    ∧ (has_pid_weight info ∨ has_hard_limit info).
Proof.
  intros Hnew Hreg cdev. unfold registerThermalThrottling in Hreg. rewrite Hnew in Hreg.
  rewrite (register_loop_cdev_status _ _ _ _ _ Hreg cdev).
  unfold in_cdev_status_map at 1. rewrite status_ref_with_status.
  unfold status_ref. rewrite Hnew. simpl. rewrite lookup_empty.
  split; [intros [[? [=]]|?]; done | auto].
Qed.

Lemma registered_cdev_status_map_witness :
  in_cdev_status_map "skin" "cpu" Example.registered
  ↔ ∃ info, ("cpu", info) ∈ binded_cdev_info_map Example.skin_info
            ∧ (has_pid_weight info ∨ has_hard_limit info).
Proof.
  apply (registered_cdev_status_map "skin" Example.skin_info Example.cooling_devices
           initial Example.registered).
  - reflexivity.
  - vm_compute. reflexivity.
Defined.

(** C9, as stated, fails: the sensor below binds [gpu] with a power threshold
    (and a power rail) only; its registration succeeds and [gpu] is not a key
    of [cdev_status_map]. *)
Lemma power_threshold_not_in_cdev_status_map :
  ¬ (∀ (name : string) (ti : ThrottlingInfo) (cmap : gmap string CdevInfo)
       (this this' : ThermalThrottling),
       thermal_throttling_status_map_ this !! name = None →
       registerThermalThrottling name (Some ti) cmap this = (true, this') →
       ∀ cdev, in_cdev_status_map name cdev this'
               ↔ ∃ info, (cdev, info) ∈ binded_cdev_info_map ti
                         ∧ (has_nonzero_pid_weight info ∨ has_nonzero_hard_limit info
                            ∨ has_power_threshold info)).
Proof.
  intros H.
  pose (this' := snd (registerThermalThrottling "gpu_sensor" (Some Example.threshold_only_info)
                        Example.gpu_devices initial)).
  assert (Hreg : registerThermalThrottling "gpu_sensor" (Some Example.threshold_only_info)
                   Example.gpu_devices initial = (true, this'))
    by (vm_compute; reflexivity).
  destruct (H "gpu_sensor" _ _ initial this' eq_refl Hreg "gpu") as [_ Hin].
  destruct Hin as [v Hv].
  - exists Example.gpu_binding. split; [set_solver|].
    right. right. exists (Example.fl 100). split; [|reflexivity].
    unfold Example.gpu_binding, Example.at_moderate. simpl. set_solver.
  - vm_compute in Hv. discriminate.
Qed.

Lemma register_loop_unknown_cdev (name : string) (cmap : gmap string CdevInfo)
    (binded : BindedCdevInfoMap) (this : ThermalThrottling) :
  (∃ cdev info, (cdev, info) ∈ binded ∧ cmap !! cdev = None) →
  fst (register_loop name cmap binded this) = false.
Proof.
  revert this. induction binded as [|[c i] binded IH]; intros this (cdev & info & Hin & Hno).
  - by apply elem_of_nil in Hin.
  - simpl. destruct (cmap !! c) eqn:Hc; [|done].
    apply IH. apply elem_of_cons in Hin as [[= -> ->]|Hin]; [congruence|eauto].
Qed.

(** C8, as amended.  [registerThermalThrottling] returns false when the
    sensor is already registered, and then leaves the controller as it was,
    and when a CDEV of [binded_cdev_info_map] is absent from the
    cooling-device map; [thermalThrottlingUpdate] changes nothing for a
    sensor that has no entry in [thermal_throttling_status_map_]. *)
Theorem registerThermalThrottling_failure (sensor_name : string)
    (throttling_info : option ThrottlingInfo) (cmap : gmap string CdevInfo)
    (this : ThermalThrottling) :
  is_Some (thermal_throttling_status_map_ this !! sensor_name)
  ∨ (∃ ti cdev info, throttling_info = Some ti
                     ∧ (cdev, info) ∈ binded_cdev_info_map ti ∧ cmap !! cdev = None) →
  fst (registerThermalThrottling sensor_name throttling_info cmap this) = false
  ∧ (is_Some (thermal_throttling_status_map_ this !! sensor_name) →
       snd (registerThermalThrottling sensor_name throttling_info cmap this) = this)
  ∧ (∀ that property temp sensor_info curr time_elapsed_ms power_status_map
       max_throttling sensor_predictions,
       thermal_throttling_status_map_ that !! name temp = None →
       thermalThrottlingUpdate property temp sensor_info curr time_elapsed_ms
         power_status_map cmap max_throttling sensor_predictions that = Some that).
Proof.
  intros Hfail. split_and!.
  - unfold registerThermalThrottling.
    destruct Hfail as [[st Hst]|(ti & cdev & info & -> & Hin & Hno)].
    + by rewrite Hst.
    + destruct (thermal_throttling_status_map_ this !! sensor_name); [done|].
      apply register_loop_unknown_cdev. eauto.
  - intros [st Hst]. unfold registerThermalThrottling. by rewrite Hst.
  - intros that property temp sensor_info curr dt psm mt preds Hnone.
    unfold thermalThrottlingUpdate. by rewrite Hnone.
Qed.

Lemma registerThermalThrottling_failure_witness :
  fst (registerThermalThrottling "skin" (Some Example.skin_info) Example.cooling_devices
         Example.registered) = false
  ∧ (is_Some (thermal_throttling_status_map_ Example.registered !! "skin") →
       snd (registerThermalThrottling "skin" (Some Example.skin_info)
              Example.cooling_devices Example.registered) = Example.registered)
  ∧ (∀ that property temp sensor_info curr time_elapsed_ms power_status_map
       max_throttling sensor_predictions,
       thermal_throttling_status_map_ that !! name temp = None →
       thermalThrottlingUpdate property temp sensor_info curr time_elapsed_ms
         power_status_map Example.cooling_devices max_throttling sensor_predictions that
       = Some that).
Proof.
  apply (registerThermalThrottling_failure "skin" (Some Example.skin_info)
           Example.cooling_devices Example.registered).
  left. vm_compute. eauto.
Defined.

(** The tick of the second scenario of the specification changes the status
    of [skin]: the budget of [cpu] becomes 1500 and its PID request 1. *)
Example ticked_status :
  thermalThrottlingUpdate "" Example.skin_50 Example.skin MODERATE 1000 ∅
    Example.cooling_devices false [] Example.registered = Some Example.ticked
  ∧ map_to_list (Status.pid_power_budget_map (status_ref "skin" Example.registered))
    = [("cpu", F32.INT_MAX)]
  ∧ map_to_list (Status.pid_power_budget_map (status_ref "skin" Example.ticked))
    = [("cpu", 1500)]
  ∧ map_to_list (Status.pid_cdev_request_map (status_ref "skin" Example.ticked))
    = [("cpu", 1)].
Proof. vm_compute. done. Qed.

(** C8, as stated, fails in its last part: a second registration of [skin]
    fails, and a control tick for [skin] still runs and changes its status. *)
Lemma tick_after_failed_registration :
  ¬ (∀ (sensor_name : string) (throttling_info : option ThrottlingInfo)
       (cmap : gmap string CdevInfo) (this : ThermalThrottling),
       is_Some (thermal_throttling_status_map_ this !! sensor_name)
       ∨ (∃ ti cdev info, throttling_info = Some ti
                          ∧ (cdev, info) ∈ binded_cdev_info_map ti ∧ cmap !! cdev = None) →
       fst (registerThermalThrottling sensor_name throttling_info cmap this) = false
       ∧ ∀ property temp sensor_info curr time_elapsed_ms power_status_map
           max_throttling sensor_predictions this',
           name temp = sensor_name →
           thermalThrottlingUpdate property temp sensor_info curr time_elapsed_ms
             power_status_map cmap max_throttling sensor_predictions
             (snd (registerThermalThrottling sensor_name throttling_info cmap this)) = Some this' →
           this' = snd (registerThermalThrottling sensor_name throttling_info cmap this)).
Proof.
  intros H.
  destruct (H "skin" (Some Example.skin_info) Example.cooling_devices Example.registered)
    as [_ Hsame].
  { left. vm_compute. eauto. }
  assert (Hdup : snd (registerThermalThrottling "skin" (Some Example.skin_info)
                        Example.cooling_devices Example.registered) = Example.registered)
    by (vm_compute; reflexivity).
  rewrite Hdup in Hsame.
  pose proof (Hsame "" Example.skin_50 Example.skin MODERATE 1000 ∅ false [] Example.ticked
                eq_refl (proj1 ticked_status)) as Heq.
  pose proof ticked_status as (_ & Hbefore & Hafter & _).
  rewrite Heq, Hbefore in Hafter. discriminate.
Qed.

(** ** Release logic *)

Lemma release_loop_aborts (sensor_name : string) (cmap : gmap string CdevInfo)
    (psm : gmap string PowerStatus) (severity : ThrottlingSeverity)
    (pre post : BindedCdevInfoMap) (cdev : string) (info : BindedCdevInfo)
    (this : ThermalThrottling) (st : Status.t) :
  thermal_throttling_status_map_ this !! sensor_name = Some st →
  (∀ c i, (c, i) ∈ pre →
     is_Some (Status.throttling_release_map st !! c)
     ∧ is_Some (psm !! power_rail i) ∧ is_Some (cmap !! c)) →
  Status.throttling_release_map st !! cdev = None ∨ psm !! power_rail info = None →
  ∃ this',
    release_loop sensor_name cmap psm severity (pre ++ (cdev, info) :: post) this
    = Some (false, this')
    ∧ ∀ c, c ∉ pre.*1 →
        Status.throttling_release_map (status_ref sensor_name this') !! c
        = Status.throttling_release_map st !! c.
Proof.
  revert this st. induction pre as [|[c i] pre IH]; intros this st Hst Hpre Hfail.
  - exists this. simpl. rewrite Hst. simpl. split.
    + destruct Hfail as [-> | ->]; [done|]. by destruct (_ !! cdev).
    + intros c _. by rewrite (status_ref_lookup _ _ _ Hst).
  - destruct (Hpre c i (list_elem_of_here _ _)) as ([r Hr] & [ps Hps] & [ci Hci]).
    simpl. rewrite Hst. simpl. rewrite Hr, Hps, Hci. simpl.
    match goal with
    | |- ∃ _, release_loop _ _ _ _ _ (with_status _ ?f _) = _ ∧ _ =>
        destruct (IH (with_status sensor_name f this) (f st)) as (this' & Hloop & Hkeep)
    end.
    + rewrite lookup_with_status. by rewrite (status_ref_lookup _ _ _ Hst).
    + intros c' i' Hin. destruct (Hpre c' i' (list_elem_of_further _ _ _ Hin))
        as (Hr' & ? & ?).
      split_and!; auto. simpl. rewrite lookup_insert_is_Some.
      destruct (decide (c = c')); auto.
    + destruct Hfail as [Hno|Hno]; [left|by right].
      simpl. rewrite lookup_insert_ne; [done|]. intros ->. congruence.
    + exists this'. split; [done|].
      intros c0 Hc0. rewrite Hkeep by set_solver. simpl.
      apply lookup_insert_ne. set_solver.
Qed.

(** C10.  When a CDEV of [binded_cdev_info_map] has no entry in
    [throttling_release_map], or its power rail is absent from
    [power_status_map], and the CDEVs before it in iteration order pass that
    check (and are known cooling devices), [throttlingReleaseUpdate] returns
    false on reaching it, and the release step of every CDEV that it has not
    visited, the failing one and those after it, is as it was. *)
Theorem throttlingReleaseUpdate_aborts (sensor_name : string)
    (cmap : gmap string CdevInfo) (psm : gmap string PowerStatus)
    (severity : ThrottlingSeverity) (sensor_info : SensorInfo) (ti : ThrottlingInfo)
    (pre post : BindedCdevInfoMap) (cdev : string) (info : BindedCdevInfo)
    (this : ThermalThrottling) (st : Status.t) :
  thermal_throttling_status_map_ this !! sensor_name = Some st →
  throttling_info sensor_info = Some ti →
  binded_cdev_info_map ti = pre ++ (cdev, info) :: post →
  (∀ c i, (c, i) ∈ pre →
     is_Some (Status.throttling_release_map st !! c)
     ∧ is_Some (psm !! power_rail i) ∧ is_Some (cmap !! c)) →
  Status.throttling_release_map st !! cdev = None ∨ psm !! power_rail info = None →
  ∃ this',
    throttlingReleaseUpdate sensor_name cmap psm severity sensor_info this
    = Some (false, this')
    ∧ ∀ c, c ∉ pre.*1 →
        Status.throttling_release_map (status_ref sensor_name this') !! c
        = Status.throttling_release_map st !! c.
Proof.
  intros Hst Hti Hsplit Hpre Hfail.
  unfold throttlingReleaseUpdate. rewrite Hst, Hti. simpl. rewrite Hsplit.
  by apply release_loop_aborts.
Qed.

Example release_registered_status :
  map_to_list (Status.throttling_release_map (status_ref "soc" Example.release_registered))
  = [("gpu", 0); ("npu", 0)].
Proof. vm_compute. reflexivity. Qed.

(** The call visits [gpu], whose release step becomes 1, and stops at [npu]. *)
Example release_update_stops :
  (λ r, (r.1, map_to_list (Status.throttling_release_map (status_ref "soc" r.2))))
    <$> throttlingReleaseUpdate "soc" Example.release_devices Example.gpu_power MODERATE
          Example.release_sensor Example.release_registered
  = Some (false, [("gpu", 1); ("npu", 0)]).
Proof. vm_compute. reflexivity. Qed.

Lemma throttlingReleaseUpdate_aborts_witness :
  ∃ this',
    throttlingReleaseUpdate "soc" Example.release_devices Example.gpu_power MODERATE
      Example.release_sensor Example.release_registered = Some (false, this')
    ∧ ∀ c, c ∉ [("gpu", Example.gpu_binding)].*1 →
        Status.throttling_release_map (status_ref "soc" this') !! c
        = Status.throttling_release_map (status_ref "soc" Example.release_registered) !! c.
Proof.
  apply (throttlingReleaseUpdate_aborts "soc" Example.release_devices Example.gpu_power
           MODERATE Example.release_sensor Example.release_info
           [("gpu", Example.gpu_binding)] [] "npu" Example.npu_binding
           Example.release_registered (status_ref "soc" Example.release_registered)).
  - vm_compute. reflexivity.
  - reflexivity.
  - reflexivity.
  - intros c i Hin. apply list_elem_of_singleton in Hin. injection Hin as -> ->.
    split_and!; vm_compute; eexists; reflexivity.
  - right. vm_compute. reflexivity.
Defined.

(** ** The default I budget *)

(** On the first tick with [i_default_pct] NaN the I budget starts from
    [i_default]. *)
Lemma init_i_budget_default (ti : ThrottlingInfo) (cmap : gmap string CdevInfo)
    (this : ThermalThrottling) (st : Status.t) :
  F32.isnan (Status.i_budget st) = true →
  F32.isnan (i_default_pct ti) = true →
  init_i_budget ti cmap this st = Some (Status.set_i_budget (i_default ti) st).
Proof. intros H1 H2. unfold init_i_budget. by rewrite H1, H2. Qed.

(** C6: what the code does.  For a bound CDEV that the registry knows, the
    default I budget adds [state2power[1]], whatever the maximum vote [vote]
    of the CDEV is: [max_cdev_vote] receives the flag that
    [getCdevMaxRequest] returns, not the maximum it has stored. *)
Theorem default_i_budget_reads_state_1 (cdev : string) (info : BindedCdevInfo)
    (cdev_info : CdevInfo) (cmap : gmap string CdevInfo) (this : ThermalThrottling)
    (vote : Z) (votes : list Z) (acc : float) :
  cmap !! cdev = Some cdev_info →
  cdev_all_request_map_ this !! cdev = Some (vote :: votes) →
  getCdevMaxRequest cdev 0 this = Some (true, vote)
  ∧ default_i_budget_loop [(cdev, info)] cmap this acc
    = (power ← vat (state2power cdev_info) 1; Some (F32.add acc power)).
Proof.
  intros Hcmap Hvotes.
  assert (Hmax : getCdevMaxRequest cdev 0 this = Some (true, vote)).
  { unfold getCdevMaxRequest. by rewrite Hvotes. }
  split; [done|].
  unfold default_i_budget_loop. rewrite Hcmap, Hmax. cbn [mbind option_bind].
  by destruct (vat _ 1).
Qed.

Lemma default_i_budget_reads_state_1_witness :
  getCdevMaxRequest "cpu" 0 Example.two_sensors = Some (true, 3)
  ∧ default_i_budget_loop [("cpu", Example.cpu_binding)] Example.cooling_devices
      Example.two_sensors F32.zero
    = (power ← vat [Example.fl 2000; Example.fl 1500; Example.fl 1000; Example.fl 500;
                    Example.fl 0] 1;
       Some (F32.add F32.zero power)).
Proof.
  apply (default_i_budget_reads_state_1 "cpu" Example.cpu_binding
           (mkCdevInfo [Example.fl 2000; Example.fl 1500; Example.fl 1000; Example.fl 500;
                        Example.fl 0] 4)
           Example.cooling_devices Example.two_sensors 3 [0] F32.zero).
  - vm_compute. reflexivity.
  - vm_compute. reflexivity.
Defined.

(** The first tick of [board] while [battery] votes 3 for [cpu]: the I budget
    is [state2power[1] * 50 / 100 = 750], where indexing by the maximum vote
    would give [state2power[3] * 50 / 100 = 250]. *)
Example first_tick_i_budget :
  getCdevMaxRequest "cpu" 0 Example.two_sensors = Some (true, 3)
  ∧ F32.isnan (Status.i_budget (status_ref "board" Example.two_sensors)) = true
  ∧ (Status.i_budget ∘ status_ref "board" ∘ snd)
      <$> updatePowerBudget (mkTemperature "board" (Example.fl 50)) Example.board
            Example.cooling_devices 1000 MODERATE false [] Example.two_sensors
    = Some (Example.fl 750)
  ∧ F32.div (F32.mul (Example.fl 1500) (Example.fl 50)) (F32.of_int 100) = Example.fl 750
  ∧ F32.div (F32.mul (Example.fl 500) (Example.fl 50)) (F32.of_int 100) = Example.fl 250.
Proof. vm_compute. done. Qed.

(** ** Allocation and the power link *)

Lemma string_eqb_empty (s : string) : String.eqb s "" = false ↔ s ≠ "".
Proof. by rewrite String.eqb_neq. Qed.

(** The first pass over CDEVs that are skipped or that have valid power data
    and no power link, followed by a CDEV that has valid power data and the
    power link: the pass returns false.  The first pass never writes to the
    controller. *)
Lemma allocate_pass_power_link (sensor_name : string) (curr : ThrottlingSeverity)
    (psm : gmap string PowerStatus) (cmap : gmap string CdevInfo) (max_throttling : bool)
    (total_power_budget total_weight : float) (pre post : BindedCdevInfoMap)
    (cdev : string) (info : BindedCdevInfo) (this : ThermalThrottling) (l : Alloc.t) :
  Alloc.power_data_invalid l = false →
  cdev ∉ Alloc.allocated_cdev l →
  cdev ∉ pre.*1 →
  (∀ c i, (c, i) ∈ pre →
     c ∈ Alloc.allocated_cdev l
     ∨ (rail_data_valid i psm ∧ throttling_with_power_link i = false
        ∧ is_Some (Status.pid_cdev_request_map (status_ref sensor_name this) !! c))) →
  rail_data_valid info psm →
  throttling_with_power_link info = true →
  ∃ l', allocate_pass sensor_name curr psm cmap max_throttling true total_power_budget
          total_weight (pre ++ (cdev, info) :: post) l this = Some (Some false, l', this).
Proof.
  intros Hvalid Hcdev Hpre Hall (Hrail & ps & Hps & Hnan) Hlink.
  revert l Hvalid Hcdev Hall.
  induction pre as [|[c i] pre IH]; intros l Hvalid Hcdev Hall.
  - simpl. unfold allocate_cdev.
    rewrite bool_decide_eq_false_2 by done.
    unfold get_power_data. rewrite Hvalid. simpl.
    apply string_eqb_empty in Hrail. rewrite Hrail. simpl.
    rewrite Hps. simpl. rewrite Hnan, Hlink. simpl. eauto.
  - assert (Hne : cdev ≠ c) by set_solver.
    assert (Hpre' : cdev ∉ pre.*1) by set_solver.
    cbn [app allocate_pass].
    destruct (decide (c ∈ Alloc.allocated_cdev l)) as [Hin|Hnin].
    + unfold allocate_cdev at 1. rewrite bool_decide_eq_true_2 by done.
      cbn [mbind option_bind].
      apply IH; auto. intros c' i' Hin'. apply Hall. by apply list_elem_of_further.
    + destruct (Hall c i (list_elem_of_here _ _)) as [?|((Hrail' & ps' & Hps' & Hnan') & Hlink' & [r Hr])];
        [done|].
      unfold allocate_cdev at 1. rewrite bool_decide_eq_false_2 by done.
      unfold get_power_data. rewrite Hvalid. cbn [negb].
      apply string_eqb_empty in Hrail'. rewrite Hrail'. cbn [negb].
      rewrite Hps'. cbn [mbind option_bind]. rewrite Hnan', Hlink'.
      cbn [mbind option_bind Alloc.last_updated_avg_power Alloc.power_data_invalid
             Alloc.allocated_power Alloc.allocated_weight Alloc.allocated_cdev].
      match goal with
      | |- context [F32.gtb ?a ?b] => destruct (F32.gtb a b)
      end.
      * rewrite Hr. cbn [mbind option_bind].
        destruct (r =? 0); cbn [mbind option_bind].
        -- apply IH; simpl; auto; [set_solver|].
           intros c' i' Hin'.
           destruct (Hall c' i' (list_elem_of_further _ _ _ Hin')) as [?|?];
             [left; set_solver | by right].
        -- apply IH; simpl; auto.
           intros c' i' Hin'. apply Hall. by apply list_elem_of_further.
      * cbn [mbind option_bind].
        apply IH; simpl; auto.
        intros c' i' Hin'. apply Hall. by apply list_elem_of_further.
Qed.

(** C7, as amended.  Among the CDEVs of the active binding let those before
    [cdev] in iteration order be left out of the allocation or have valid
    power data and no power link.  If [cdev] takes part in the allocation, has
    [throttling_with_power_link] set and the power data of its rail is valid
    (not unavailable), then [allocatePowerToCdev] returns false; the
    controller is then as [updatePowerBudget] has left it. *)
Theorem allocatePowerToCdev_power_link (temp : Temperature) (sensor_info : SensorInfo)
    (ti : ThrottlingInfo) (curr : ThrottlingSeverity) (time_elapsed_ms : Z)
    (psm : gmap string PowerStatus) (cmap : gmap string CdevInfo) (max_throttling : bool)
    (sensor_predictions : list float) (this this1 : ThermalThrottling) (budget : float)
    (pre post : BindedCdevInfoMap) (cdev : string) (info : BindedCdevInfo) :
  updatePowerBudget temp sensor_info cmap time_elapsed_ms curr max_throttling
    sensor_predictions this = Some (budget, this1) →
  throttling_info sensor_info = Some ti →
  is_Some (computeExcludedPower sensor_info curr psm) →
  let binded := active_binding ti (Status.profile (status_ref (name temp) this1)) in
  let left_out := snd (total_weight_loop binded curr F32.zero ∅) in
  binded = pre ++ (cdev, info) :: post →
  cdev ∉ left_out →
  cdev ∉ pre.*1 →
  (∀ c i, (c, i) ∈ pre →
     c ∈ left_out
     ∨ (rail_data_valid i psm ∧ throttling_with_power_link i = false
        ∧ is_Some (Status.pid_cdev_request_map (status_ref (name temp) this1) !! c))) →
  rail_data_valid info psm →
  throttling_with_power_link info = true →
  allocatePowerToCdev temp sensor_info curr time_elapsed_ms psm cmap max_throttling
    sensor_predictions this = Some (false, this1).
Proof.
  intros Hbudget Hti [excluded Hexcl] binded left_out Hsplit Hcdev Hpre Hall Hrail Hlink.
  unfold allocatePowerToCdev. rewrite Hbudget. cbn [mbind option_bind].
  rewrite Hti. cbn [mbind option_bind]. rewrite Hexcl.
  fold binded.
  destruct (total_weight_loop binded curr F32.zero ∅) as [total_weight allocated] eqn:Hw.
  subst left_out. cbn [snd] in *.
  destruct (excluded_power_info_map ti); cbn [mbind option_bind];
    match goal with
    | |- context [allocate_pass ?n ?c ?p ?m ?mt true ?tb ?tw binded ?l this1] =>
        destruct (allocate_pass_power_link n c p m mt tb tw pre post cdev info this1 l)
          as [l' Hpass]; auto;
        rewrite Hsplit, Hpass; reflexivity
    end.
Qed.

Example modem_registered_status :
  map_to_list (Status.pid_cdev_request_map (status_ref "modem" Example.modem_registered))
  = [("cpu", 0)].
Proof. vm_compute. reflexivity. Qed.

Lemma allocatePowerToCdev_power_link_witness :
  ∃ this1,
    allocatePowerToCdev Example.modem_50 Example.modem MODERATE 1000 Example.rail_valid
      Example.cooling_devices false [] Example.modem_registered = Some (false, this1).
Proof.
  pose (r := updatePowerBudget Example.modem_50 Example.modem Example.cooling_devices 1000
               MODERATE false [] Example.modem_registered).
  pose (this1 := default initial (snd <$> r)).
  exists this1.
  apply (allocatePowerToCdev_power_link Example.modem_50 Example.modem Example.modem_info
           MODERATE 1000 Example.rail_valid Example.cooling_devices false []
           Example.modem_registered this1 (Example.fl 1500)
           [] [] "cpu" Example.linked_binding).
  - vm_compute. reflexivity.
  - reflexivity.
  - vm_compute. eauto.
  - vm_compute. reflexivity.
  - vm_compute. set_solver.
  - simpl. set_solver.
  - intros c i Hin. by apply elem_of_nil in Hin.
  - split; [done|]. eexists. split; vm_compute; reflexivity.
  - reflexivity.
Defined.

(** With the power data of the rail unavailable the same sensor is served:
    the budget of 1500 mW goes to [cpu] by weight. *)
Example allocate_without_power_data :
  (λ r, (r.1, map_to_list (Status.pid_power_budget_map (status_ref "modem" r.2))))
    <$> allocatePowerToCdev Example.modem_50 Example.modem MODERATE 1000
          Example.rail_collecting Example.cooling_devices false [] Example.modem_registered
  = Some (true, [("cpu", 1500)]).
Proof. vm_compute. reflexivity. Qed.

(** C7, as stated, fails: [throttling_with_power_link] is set and the power
    data of the rail is unavailable, and [allocatePowerToCdev] returns
    true. *)
Lemma allocatePowerToCdev_power_link_unavailable :
  ¬ (∀ temp sensor_info ti curr time_elapsed_ms psm cmap max_throttling sensor_predictions
       this cdev info,
       throttling_info sensor_info = Some ti →
       (cdev, info) ∈ binded_cdev_info_map ti →
       throttling_with_power_link info = true →
       rail_data_unavailable info psm →
       ∀ result this',
         allocatePowerToCdev temp sensor_info curr time_elapsed_ms psm cmap max_throttling
           sensor_predictions this = Some (result, this') →
         result = false).
Proof.
  intros H.
  pose (this' := default initial
                   (snd <$> allocatePowerToCdev Example.modem_50 Example.modem MODERATE 1000
                              Example.rail_collecting Example.cooling_devices false []
                              Example.modem_registered)).
  assert (Hrun : allocatePowerToCdev Example.modem_50 Example.modem MODERATE 1000
                   Example.rail_collecting Example.cooling_devices false []
                   Example.modem_registered = Some (true, this'))
    by (vm_compute; reflexivity).
  enough (true = false) by done.
  eapply (H Example.modem_50 Example.modem Example.modem_info MODERATE 1000
            Example.rail_collecting Example.cooling_devices false []
            Example.modem_registered "cpu" Example.linked_binding); [| | | |exact Hrun].
  - reflexivity.
  - apply list_elem_of_here.
  - reflexivity.
  - right. eexists. split; vm_compute; reflexivity.
Qed.

(** ** Comparisons of floats *)

Lemma compare_cont_opp (p q : positive) :
  PosDef.Pos.compare_cont Eq q p = CompOpp (PosDef.Pos.compare_cont Eq p q).
Proof. exact (eq_sym (Pos.compare_cont_antisym p q Eq)). Qed.

Lemma SFcompare_antisym (x y : float) (c : comparison) :
  SFcompare x y = Some c → SFcompare y x = Some (CompOpp c).
Proof.
  destruct x as [[]|[]| |[] mx ex], y as [[]|[]| |[] my ey]; simpl; intros [= <-]; try done.
  - rewrite (Z.compare_antisym ex ey).
    destruct (ex ?= ey); simpl; try done.
    by rewrite (compare_cont_opp mx my).
  - rewrite (Z.compare_antisym ex ey).
    destruct (ex ?= ey); simpl; try done.
    by rewrite (compare_cont_opp mx my).
Qed.

Lemma SFcompare_refl (x : float) : F32.isnan x = false → SFcompare x x = Some Eq.
Proof.
  destruct x as [[]|[]| |[] m e]; simpl; try done; intros _;
    rewrite Z.compare_refl; by rewrite (Pos.compare_cont_refl m Eq).
Qed.

Lemma SFcompare_is_Some (x y : float) :
  F32.isnan x = false → F32.isnan y = false → is_Some (SFcompare x y).
Proof. destruct x as [[]|[]| |[] ? ?], y as [[]|[]| |[] ? ?]; simpl; try done; eauto. Qed.

Lemma leb_not_nan (x y : float) :
  F32.leb x y = true → F32.isnan x = false ∧ F32.isnan y = false.
Proof. destruct x as [[]|[]| |[] ? ?], y as [[]|[]| |[] ? ?]; simpl; done. Qed.

Lemma leb_refl (x : float) : F32.isnan x = false → F32.leb x x = true.
Proof. intros H. unfold F32.leb, SFleb. by rewrite SFcompare_refl. Qed.

(** [!(x < y)] for numbers gives [y <= x]. *)
Lemma not_ltb_leb (x y : float) :
  F32.isnan x = false → F32.isnan y = false → F32.ltb x y = false → F32.leb y x = true.
Proof.
  intros Hx Hy. unfold F32.ltb, F32.leb, SFltb, SFleb.
  destruct (SFcompare_is_Some x y Hx Hy) as [c Hc].
  rewrite Hc, (SFcompare_antisym _ _ _ Hc). by destruct c.
Qed.

(** [std::clamp] between bounds in order returns a value within the bounds,
    unless the value is NaN, which it returns as is. *)
Lemma clamp_bounds (v lo hi : float) :
  F32.leb lo hi = true →
  F32.isnan (F32.clamp v lo hi) = false →
  F32.leb lo (F32.clamp v lo hi) = true ∧ F32.leb (F32.clamp v lo hi) hi = true.
Proof.
  intros Hle. destruct (leb_not_nan _ _ Hle) as [Hlo Hhi]. unfold F32.clamp.
  destruct (F32.ltb v lo) eqn:H1; [auto using leb_refl|].
  destruct (F32.ltb hi v) eqn:H2; [auto using leb_refl|].
  intros Hv. split; by apply not_ltb_leb.
Qed.

(** ** One call of [updatePowerBudget] *)

Lemma pid_memory_only_refl (st : Status.t) : pid_memory_only st st.
Proof. unfold pid_memory_only. done. Qed.

Lemma pid_memory_only_set_i_budget (v : float) (st st' : Status.t) :
  pid_memory_only st st' → pid_memory_only st (Status.set_i_budget v st').
Proof. unfold pid_memory_only. simpl. done. Qed.

Lemma pid_memory_only_set_prev_err (v : float) (st st' : Status.t) :
  pid_memory_only st st' → pid_memory_only st (Status.set_prev_err v st').
Proof. unfold pid_memory_only. simpl. done. Qed.

Lemma init_i_budget_memory (ti : ThrottlingInfo) (cmap : gmap string CdevInfo)
    (this : ThermalThrottling) (st st' : Status.t) :
  init_i_budget ti cmap this st = Some st' → pid_memory_only st st'.
Proof.
  unfold init_i_budget. intros H.
  destruct (F32.isnan (Status.i_budget st)); [|injection H as <-; apply pid_memory_only_refl].
  destruct (F32.isnan (i_default_pct ti)).
  - injection H as <-. apply pid_memory_only_set_i_budget, pid_memory_only_refl.
  - destruct (default_i_budget_loop _ _ _ _); [|done].
    injection H as <-. apply pid_memory_only_set_i_budget, pid_memory_only_refl.
Qed.

Lemma accumulate_i_budget_memory (ti : ThrottlingInfo) (t : nat) (err : float)
    (is_fully_throttle is_fully_release : bool) (st st' : Status.t) :
  pid_memory_only st st' →
  pid_memory_only st
    (accumulate_i_budget ti t err is_fully_throttle is_fully_release st').
Proof.
  intros H. unfold accumulate_i_budget.
  repeat case_match; auto using pid_memory_only_set_i_budget.
Qed.

(** The clamped budget is a [std::clamp] between the allocation bounds of the
    target state, and computing it changes the PID memory only. *)
Lemma pid_clamped_budget_spec (temp : Temperature) (sensor_info : SensorInfo)
    (ti : ThrottlingInfo) (cmap : gmap string CdevInfo) (time_elapsed_ms : Z)
    (sensor_predictions : list float) (t : nat) (is_fully_throttle is_fully_release : bool)
    (this : ThermalThrottling) (st st' : Status.t) (clamped : float) :
  pid_clamped_budget temp sensor_info ti cmap time_elapsed_ms sensor_predictions t
    is_fully_throttle is_fully_release this st = Some (clamped, st') →
  pid_memory_only st st'
  ∧ ∃ raw, clamped = F32.clamp raw (fat (min_alloc_power ti) t) (fat (max_alloc_power ti) t).
Proof.
  unfold pid_clamped_budget. intros H.
  destruct (init_i_budget ti cmap this st) as [st1|] eqn:Hinit; [|done].
  apply init_i_budget_memory in Hinit.
  cbn [mbind option_bind] in H.
  match type of H with
  | (?c ≫= _) = _ => destruct c as [compensation|]; [|done]
  end.
  cbn [mbind option_bind] in H. injection H as <- <-.
  split; [|eauto].
  by apply pid_memory_only_set_prev_err, accumulate_i_budget_memory.
Qed.

Lemma transient_blend_spec (ti : ThrottlingInfo) (changed : bool) (clamped : float)
    (st : Status.t) :
  let delta := if changed then F32.sub (Status.prev_power_budget st) clamped
               else Status.budget_transient st in
  let budget := fst (transient_blend ti changed clamped st) in
  let st' := snd (transient_blend ti changed clamped st) in
  budget = (if Status.tran_cycle st =? 0 then clamped
            else F32.add clamped
                   (F32.mul delta (F32.div (F32.of_int (Status.tran_cycle st))
                                            (F32.of_int (tran_cycle ti)))))
  ∧ Status.prev_power_budget st' = budget
  ∧ Status.budget_transient st' = delta
  ∧ Status.tran_cycle st'
    = (if Status.tran_cycle st =? 0 then 0 else Status.tran_cycle st - 1)
  ∧ Status.prev_target st' = Status.prev_target st.
Proof.
  unfold transient_blend.
  destruct changed; simpl; destruct (Status.tran_cycle st =? 0) eqn:Hc; simpl;
    split_and!; try reflexivity; by apply Z.eqb_eq in Hc.
Qed.

Lemma detect_target_change_spec (ti : ThrottlingInfo) (t : nat) (st : Status.t) :
  let changed := fst (detect_target_change ti t st) in
  let st' := snd (detect_target_change ti t st) in
  Status.prev_target st' = t
  ∧ Status.prev_power_budget st' = Status.prev_power_budget st
  ∧ Status.budget_transient st' = Status.budget_transient st
  ∧ Status.tran_cycle st' = (if changed then tran_cycle ti - 1 else Status.tran_cycle st)
  ∧ (changed = true
     ↔ Status.prev_target st ≠ severity_index NONE ∧ t ≠ Status.prev_target st
       ∧ 0 < tran_cycle ti).
Proof.
  unfold detect_target_change.
  destruct (Nat.eqb_spec (Status.prev_target st) (severity_index NONE)) as [H1|H1];
    destruct (Nat.eqb_spec t (Status.prev_target st)) as [H2|H2];
    destruct (Z.ltb_spec 0 (tran_cycle ti)) as [H3|H3]; simpl;
    split_and!; try reflexivity; naive_solver lia.
Qed.

(** A tick that is not at NONE and does not take the max-throttling shortcut
    returns the blend of its clamped budget and stores it. *)
Lemma run_tick_spec (sensor_info : SensorInfo) (ti : ThrottlingInfo)
    (cmap : gmap string CdevInfo) (x : Tick) (this this' : ThermalThrottling)
    (st : Status.t) (t : nat) (budget : float) :
  thermal_throttling_status_map_ this !! name (tick_temp x) = Some st →
  throttling_info sensor_info = Some ti →
  severity_eqb (tick_severity x) NONE = false →
  getTargetStateOfPID sensor_info (tick_severity x) = Some t →
  takes_shortcut sensor_info t x = false →
  run_tick sensor_info cmap x this = Some (budget, this') →
  ∃ clamped st2,
    clamped_power_budget sensor_info cmap x this = Some clamped
    ∧ (∃ raw, clamped = F32.clamp raw (fat (min_alloc_power ti) t)
                          (fat (max_alloc_power ti) t))
    ∧ pid_memory_only (snd (detect_target_change ti t st)) st2
    ∧ budget = fst (transient_blend ti (fst (detect_target_change ti t st)) clamped st2)
    ∧ thermal_throttling_status_map_ this' !! name (tick_temp x)
      = Some (snd (transient_blend ti (fst (detect_target_change ti t st)) clamped st2))
    ∧ cdev_all_request_map_ this' = cdev_all_request_map_ this.
Proof.
  intros Hst Hti Hnone Ht Hshort Hrun.
  unfold run_tick, updatePowerBudget in Hrun. unfold clamped_power_budget.
  rewrite Hst in *. cbn [mbind option_bind] in *.
  rewrite Hnone, Hti in Hrun. rewrite Hti. cbn [mbind option_bind] in *.
  destruct (throttle_status_loop _ _ _ _) as [[ft fr]|]; [|done].
  cbn [mbind option_bind] in *. rewrite Ht in *. cbn [mbind option_bind] in *.
  destruct (detect_target_change ti t st) as [changed st1] eqn:Hdet.
  unfold takes_shortcut in Hshort. rewrite Hshort in Hrun.
  cbn [snd fst].
  destruct (pid_clamped_budget _ _ _ _ _ _ _ _ _ _ st1) as [[clamped st2]|] eqn:Hpid;
    [|done].
  cbn [mbind option_bind fmap option_fmap option_map] in *.
  destruct (pid_clamped_budget_spec _ _ _ _ _ _ _ _ _ _ _ _ _ Hpid) as [Hmem Hraw].
  destruct (transient_blend ti changed clamped st2) as [b st3] eqn:Hblend.
  injection Hrun as <- <-.
  exists clamped, st2. rewrite Hblend. simpl.
  split_and!; auto. by rewrite lookup_insert_eq.
Qed.

(** ** Bounds of the power budget *)

(** C4, as amended.  On a control tick of a registered sensor at a severity
    other than NONE, with [min_alloc_power[s] <= max_alloc_power[s]] for the
    target state [s] of the tick: the budget before the transient blending,
    that is the clamped PID sum, lies within
    [[min_alloc_power[s], max_alloc_power[s]]] unless it is NaN; the budget
    that [updatePowerBudget] returns and stores as [prev_power_budget] is
    this clamped budget when no transient cycle is pending, and the clamped
    budget plus [budget_transient * tran_cycle / throttling_info.tran_cycle]
    otherwise; on the max-throttling shortcut the call returns
    [min_alloc_power[s]]. *)
Theorem power_budget_bounds (sensor_info : SensorInfo) (ti : ThrottlingInfo)
    (cmap : gmap string CdevInfo) (x : Tick) (this this' : ThermalThrottling)
    (st : Status.t) (t : nat) (budget : float) :
  thermal_throttling_status_map_ this !! name (tick_temp x) = Some st →
  throttling_info sensor_info = Some ti →
  severity_eqb (tick_severity x) NONE = false →
  getTargetStateOfPID sensor_info (tick_severity x) = Some t →
  F32.leb (fat (min_alloc_power ti) t) (fat (max_alloc_power ti) t) = true →
  run_tick sensor_info cmap x this = Some (budget, this') →
  let pending := Status.tran_cycle (snd (detect_target_change ti t st)) in
  if takes_shortcut sensor_info t x then
    budget = fat (min_alloc_power ti) t
    ∧ F32.leb (fat (min_alloc_power ti) t) budget = true
    ∧ F32.leb budget (fat (max_alloc_power ti) t) = true
  else
    ∃ clamped,
      clamped_power_budget sensor_info cmap x this = Some clamped
      ∧ (F32.isnan clamped = false →
           F32.leb (fat (min_alloc_power ti) t) clamped = true
           ∧ F32.leb clamped (fat (max_alloc_power ti) t) = true)
      ∧ budget
        = (if pending =? 0 then clamped
           else F32.add clamped
                  (F32.mul
                     (if fst (detect_target_change ti t st)
                      then F32.sub (Status.prev_power_budget st) clamped
                      else Status.budget_transient st)
                     (F32.div (F32.of_int pending) (F32.of_int (tran_cycle ti)))))
      ∧ Status.prev_power_budget (status_ref (name (tick_temp x)) this') = budget.
Proof.
  intros Hst Hti Hnone Ht Hle Hrun pending.
  destruct (takes_shortcut sensor_info t x) eqn:Hshort.
  - unfold run_tick, updatePowerBudget in Hrun.
    rewrite Hst in Hrun. cbn [mbind option_bind] in Hrun.
    rewrite Hnone, Hti in Hrun. cbn [mbind option_bind] in Hrun.
    destruct (throttle_status_loop _ _ _ _) as [[ft fr]|]; [|done].
    cbn [mbind option_bind] in Hrun. rewrite Ht in Hrun. cbn [mbind option_bind] in Hrun.
    destruct (detect_target_change ti t st) as [changed st1].
    unfold takes_shortcut in Hshort. rewrite Hshort in Hrun.
    injection Hrun as <- <-.
    destruct (leb_not_nan _ _ Hle). auto using leb_refl.
  - destruct (run_tick_spec _ _ _ _ _ _ _ _ _ Hst Hti Hnone Ht Hshort Hrun)
      as (clamped & st2 & Hclamped & [raw ->] & Hmem & -> & Hst' & _).
    exists (F32.clamp raw (fat (min_alloc_power ti) t) (fat (max_alloc_power ti) t)).
    destruct Hmem as (_ & _ & _ & _ & _ & _ & Hppb & Hbt & Htc & _).
    destruct (detect_target_change_spec ti t st) as (_ & Hppb1 & Hbt1 & _).
    match goal with
    | |- context [transient_blend ?a ?b ?c ?d] =>
        destruct (transient_blend_spec a b c d) as (Hb & Hstored & _)
    end.
    split_and!; [done | by apply clamp_bounds | |].
    + rewrite Hb, Htc, Hppb, Hbt, Hppb1, Hbt1. reflexivity.
    + by rewrite (status_ref_lookup _ _ _ Hst').
Qed.

(** The tick of [shell] that moves its target state from MODERATE to
    CRITICAL: the clamped budget is 500 mW, within the bounds of 0 and 1000
    mW, and the budget returned is 2375 mW. *)
Example shell_target_change :
  thermal_throttling_status_map_ Example.shell_light !! "shell"
  = Some (status_ref "shell" Example.shell_light)
  ∧ Status.prev_target (status_ref "shell" Example.shell_light) = severity_index MODERATE
  ∧ Status.prev_power_budget (status_ref "shell" Example.shell_light) = Example.fl 3000
  ∧ getTargetStateOfPID Example.shell SEVERE = Some (severity_index CRITICAL)
  ∧ clamped_power_budget Example.shell Example.cooling_devices (Example.shell_tick SEVERE)
      Example.shell_light = Some (Example.fl 500)
  ∧ fst <$> run_tick Example.shell Example.cooling_devices (Example.shell_tick SEVERE)
              Example.shell_light = Some (Example.fl 2375)
  ∧ F32.leb (Example.fl 2375) (Example.fl 1000) = false.
Proof. vm_compute. done. Qed.

Lemma power_budget_bounds_witness :
  ∃ clamped,
    clamped_power_budget Example.shell Example.cooling_devices (Example.shell_tick SEVERE)
      Example.shell_light = Some clamped
    ∧ (F32.isnan clamped = false →
         F32.leb (Example.fl 0) clamped = true ∧ F32.leb clamped (Example.fl 1000) = true)
    ∧ Example.fl 2375
      = F32.add clamped
          (F32.mul (F32.sub (Example.fl 3000) clamped)
             (F32.div (F32.of_int 3) (F32.of_int 4)))
    ∧ Status.prev_power_budget
        (status_ref "shell"
           (default initial
              (snd <$> run_tick Example.shell Example.cooling_devices
                         (Example.shell_tick SEVERE) Example.shell_light)))
      = Example.fl 2375.
Proof.
  apply (power_budget_bounds Example.shell Example.shell_info Example.cooling_devices
           (Example.shell_tick SEVERE) Example.shell_light
           (default initial
              (snd <$> run_tick Example.shell Example.cooling_devices
                         (Example.shell_tick SEVERE) Example.shell_light))
           (status_ref "shell" Example.shell_light) (severity_index CRITICAL)
           (Example.fl 2375)).
  - vm_compute. reflexivity.
  - reflexivity.
  - reflexivity.
  - reflexivity.
  - vm_compute. reflexivity.
  - vm_compute. reflexivity.
Defined.

(** C4, as stated, fails: on the tick after a change of the target state the
    budget that is returned and stored exceeds [max_alloc_power] of the
    target state. *)
Lemma power_budget_exceeds_max :
  ¬ (∀ (sensor_info : SensorInfo) (ti : ThrottlingInfo) (cmap : gmap string CdevInfo)
       (x : Tick) (this this' : ThermalThrottling) (st : Status.t) (t : nat)
       (budget : float),
       thermal_throttling_status_map_ this !! name (tick_temp x) = Some st →
       throttling_info sensor_info = Some ti →
       severity_eqb (tick_severity x) NONE = false →
       getTargetStateOfPID sensor_info (tick_severity x) = Some t →
       F32.leb (fat (min_alloc_power ti) t) (fat (max_alloc_power ti) t) = true →
       run_tick sensor_info cmap x this = Some (budget, this') →
       F32.leb (fat (min_alloc_power ti) t) budget = true
       ∧ F32.leb budget (fat (max_alloc_power ti) t) = true).
Proof.
  intros H.
  pose (this' := default initial
                   (snd <$> run_tick Example.shell Example.cooling_devices
                              (Example.shell_tick SEVERE) Example.shell_light)).
  assert (Hrun : run_tick Example.shell Example.cooling_devices (Example.shell_tick SEVERE)
                   Example.shell_light = Some (Example.fl 2375, this'))
    by (vm_compute; reflexivity).
  pose proof shell_target_change as (Hst & _ & _ & Ht & _).
  assert (Hle : F32.leb (fat (min_alloc_power Example.shell_info) (severity_index CRITICAL))
                  (fat (max_alloc_power Example.shell_info) (severity_index CRITICAL))
                = true) by (vm_compute; reflexivity).
  destruct (H Example.shell Example.shell_info Example.cooling_devices
              (Example.shell_tick SEVERE) Example.shell_light this'
              (status_ref "shell" Example.shell_light) (severity_index CRITICAL)
              (Example.fl 2375) Hst eq_refl eq_refl Ht Hle Hrun) as [_ Hmax].
  vm_compute in Hmax. discriminate.
Qed.

(** ** The transient after a change of the target state *)

Section Transient.

Variable sensor_info : SensorInfo.
Variable ti : ThrottlingInfo.
Variable cmap : gmap string CdevInfo.
Variable sensor_name : string.
Variable t : nat.
Hypothesis Hti : throttling_info sensor_info = Some ti.

(** One regular tick of a status with [cycles] pending cycles of the
    transient [delta]. *)
Lemma regular_tick_blended (x : Tick) (this this' : ThermalThrottling) (st : Status.t)
    (changed : bool) (budget clamped : float) :
  thermal_throttling_status_map_ this !! sensor_name = Some st →
  regular_tick sensor_info sensor_name t x →
  fst (detect_target_change ti t st) = changed →
  clamped_power_budget sensor_info cmap x this = Some clamped →
  run_tick sensor_info cmap x this = Some (budget, this') →
  let cycles := if changed then tran_cycle ti - 1 else Status.tran_cycle st in
  let delta := if changed then F32.sub (Status.prev_power_budget st) clamped
               else Status.budget_transient st in
  0 ≤ cycles →
  budget = blended (tran_cycle ti) cycles delta clamped
  ∧ ∃ st', thermal_throttling_status_map_ this' !! sensor_name = Some st'
           ∧ Status.prev_target st' = t
           ∧ Status.budget_transient st' = delta
           ∧ Status.tran_cycle st' = (if cycles =? 0 then 0 else cycles - 1).
Proof.
  intros Hst (Hname & Hnone & Ht & Hshort) Hchanged Hclamped Hrun cycles delta Hcycles.
  subst sensor_name.
  destruct (run_tick_spec _ _ _ _ _ _ _ _ _ Hst Hti Hnone Ht Hshort Hrun)
    as (clamped' & st2 & Hclamped' & _ & Hmem & -> & Hst' & _).
  assert (clamped' = clamped) as -> by congruence.
  destruct Hmem as (_ & _ & _ & _ & _ & Hpt & Hppb & Hbt & Htc & _).
  destruct (detect_target_change_spec ti t st) as (Hpt1 & Hppb1 & Hbt1 & Htc1 & _).
  rewrite Hchanged in *.
  match goal with
  | |- context [transient_blend ?a ?b ?c ?d] =>
      destruct (transient_blend_spec a b c d) as (Hb & _ & Hbt' & Htc' & Hpt')
  end.
  assert (Hc2 : Status.tran_cycle st2 = cycles) by (rewrite Htc, Htc1; done).
  assert (Hd2 : (if changed then F32.sub (Status.prev_power_budget st2) clamped
                 else Status.budget_transient st2) = delta).
  { subst delta. by rewrite Hppb, Hppb1, Hbt, Hbt1. }
  rewrite Hd2 in Hb, Hbt'. rewrite Hc2 in Hb, Htc'.
  split.
  - rewrite Hb. unfold blended.
    destruct (Z.eqb_spec cycles 0) as [->|Hne]; [done|].
    rewrite (proj2 (Z.ltb_lt 0 cycles)) by lia. done.
  - eexists. split; [exact Hst'|]. split_and!; [congruence|done|done].
Qed.

(** The ticks that follow a change: with [cycles] cycles pending at the start,
    the tick number [k] blends in [cycles - k] parts of the transient. *)
Lemma run_ticks_steady (delta : float) (xs : list Tick) :
  ∀ (this this' : ThermalThrottling) (st : Status.t) (cycles : Z)
    (results : list (float * float)),
    thermal_throttling_status_map_ this !! sensor_name = Some st →
    Status.prev_target st = t →
    Status.tran_cycle st = cycles →
    Status.budget_transient st = delta →
    0 ≤ cycles →
    Forall (regular_tick sensor_info sensor_name t) xs →
    run_ticks sensor_info cmap xs this = Some (results, this') →
    ∀ (k : nat) budget clamped,
      results !! k = Some (budget, clamped) →
      budget = blended (tran_cycle ti) (cycles - Z.of_nat k) delta clamped.
Proof.
  induction xs as [|x xs IH]; intros this this' st cycles results Hst Hpt Htc Hbt Hc Hall Hrun.
  - injection Hrun as <- <-. intros k ? ? Hk. by rewrite lookup_nil in Hk.
  - apply Forall_cons in Hall as [Hx Hall].
    cbn [run_ticks] in Hrun.
    destruct (clamped_power_budget sensor_info cmap x this) as [clamped0|] eqn:Hclamped;
      [|done].
    cbn [mbind option_bind] in Hrun.
    destruct (run_tick sensor_info cmap x this) as [[budget0 this1]|] eqn:Htick; [|done].
    cbn [mbind option_bind] in Hrun.
    destruct (run_ticks sensor_info cmap xs this1) as [[rest this2]|] eqn:Hrest; [|done].
    cbn [mbind option_bind] in Hrun. injection Hrun as <- <-.
    assert (Hsame : fst (detect_target_change ti t st) = false).
    { destruct (detect_target_change_spec ti t st) as (_ & _ & _ & _ & Hch).
      destruct (fst (detect_target_change ti t st)); [|done].
      destruct Hch as [Hch _]. destruct (Hch eq_refl) as (_ & ? & _). congruence. }
    destruct (regular_tick_blended x this this1 st false budget0 clamped0
                Hst Hx Hsame Hclamped Htick) as (Hb & st1 & Hst1 & Hpt1 & Hbt1 & Htc1);
      [lia|].
    rewrite Htc, Hbt in *.
    intros [|k] budget clamped Hk.
    + injection Hk as <- <-. by rewrite Z.sub_0_r.
    + cbn [lookup list_lookup] in Hk.
      rewrite (IH _ _ _ _ _ Hst1 Hpt1 Htc1 Hbt1 ltac:(case_match; lia) Hall Hrest
                 k budget clamped Hk).
      unfold blended.
      destruct (Z.eqb_spec cycles 0) as [->|Hne].
      * rewrite !(proj2 (Z.ltb_ge _ _)) by lia. done.
      * by replace (cycles - 1 - Z.of_nat k) with (cycles - Z.of_nat (S k)) by lia.
Qed.

(** C5, as amended.  When the target state of a tick differs from the
    previous target state (which is not NONE) and the configured
    [tran_cycle] is [n > 0], that tick sets the transient to
    [prev_power_budget] minus its clamped budget and, like every regular
    tick that follows with the same target state, returns its clamped budget
    plus the pending share of the transient: tick number [k], counted from 0
    at the tick of the change, adds the transient times [(n - 1 - k) / n]
    while [n - 1 - k > 0] and nothing after that.  With [n = 4] the shares
    are 3/4, 2/4, 1/4 and then 0. *)
Theorem transient_schedule (x : Tick) (xs : list Tick) (this this' : ThermalThrottling)
    (st : Status.t) (results : list (float * float)) :
  thermal_throttling_status_map_ this !! sensor_name = Some st →
  Status.prev_target st ≠ severity_index NONE →
  t ≠ Status.prev_target st →
  0 < tran_cycle ti →
  Forall (regular_tick sensor_info sensor_name t) (x :: xs) →
  run_ticks sensor_info cmap (x :: xs) this = Some (results, this') →
  ∃ clamped0,
    clamped_power_budget sensor_info cmap x this = Some clamped0
    ∧ ∀ (k : nat) budget clamped,
        results !! k = Some (budget, clamped) →
        budget = blended (tran_cycle ti) (tran_cycle ti - 1 - Z.of_nat k)
                   (F32.sub (Status.prev_power_budget st) clamped0) clamped.
Proof.
  intros Hst Hprev Hdiff Hn Hall Hrun.
  apply Forall_cons in Hall as [Hx Hall].
  cbn [run_ticks] in Hrun.
  destruct (clamped_power_budget sensor_info cmap x this) as [clamped0|] eqn:Hclamped;
    [|done].
  cbn [mbind option_bind] in Hrun.
  destruct (run_tick sensor_info cmap x this) as [[budget0 this1]|] eqn:Htick; [|done].
  cbn [mbind option_bind] in Hrun.
  destruct (run_ticks sensor_info cmap xs this1) as [[rest this2]|] eqn:Hrest; [|done].
  cbn [mbind option_bind] in Hrun. injection Hrun as <- <-.
  exists clamped0. split; [done|].
  assert (Hchanged : fst (detect_target_change ti t st) = true).
  { destruct (detect_target_change_spec ti t st) as (_ & _ & _ & _ & Hch). by apply Hch. }
  destruct (regular_tick_blended x this this1 st true budget0 clamped0
              Hst Hx Hchanged Hclamped Htick) as (Hb & st1 & Hst1 & Hpt1 & Hbt1 & Htc1);
    [lia|].
  intros [|k] budget clamped Hk.
  - injection Hk as <- <-. by rewrite Z.sub_0_r.
  - cbn [lookup list_lookup] in Hk.
    rewrite (run_ticks_steady _ xs _ _ _ _ _ Hst1 Hpt1 Htc1 Hbt1 ltac:(case_match; lia)
               Hall Hrest k budget clamped Hk).
    unfold blended.
    destruct (Z.eqb_spec (tran_cycle ti - 1) 0) as [Hz|Hne].
    + rewrite !(proj2 (Z.ltb_ge _ _)) by lia. done.
    + by replace (tran_cycle ti - 1 - 1 - Z.of_nat k) with (tran_cycle ti - 1 - Z.of_nat (S k)) by lia.
Qed.

End Transient.

(** Five ticks of [shell] at SEVERE after its tick at LIGHT, with
    [tran_cycle = 4]: the clamped budget is 500 mW throughout, the transient
    is 3000 - 500 = 2500 mW, and the ticks return 500 mW plus 3/4, 2/4, 1/4, 0
    and 0 of it. *)
Example shell_transient :
  fst <$> run_ticks Example.shell Example.cooling_devices
            (replicate 5 (Example.shell_tick SEVERE)) Example.shell_light
  = Some [(Example.fl 2375, Example.fl 500); (Example.fl 1750, Example.fl 500);
          (Example.fl 1125, Example.fl 500); (Example.fl 500, Example.fl 500);
          (Example.fl 500, Example.fl 500)]
  ∧ F32.sub (Example.fl 3000) (Example.fl 500) = Example.fl 2500
  ∧ F32.mul (Example.fl 2500) (F32.div (F32.of_int 3) (F32.of_int 4)) = Example.fl 1875
  ∧ F32.mul (Example.fl 2500) (F32.div (F32.of_int 2) (F32.of_int 4)) = Example.fl 1250
  ∧ F32.mul (Example.fl 2500) (F32.div (F32.of_int 1) (F32.of_int 4)) = Example.fl 625
  ∧ F32.mul (Example.fl 2500) (F32.div (F32.of_int 4) (F32.of_int 4)) = Example.fl 2500.
Proof. vm_compute. done. Qed.

Lemma regular_shell_tick :
  regular_tick Example.shell "shell" (severity_index CRITICAL) (Example.shell_tick SEVERE).
Proof. unfold regular_tick. vm_compute. done. Qed.

Lemma transient_schedule_witness :
  ∃ clamped0,
    clamped_power_budget Example.shell Example.cooling_devices (Example.shell_tick SEVERE)
      Example.shell_light = Some clamped0
    ∧ ∀ (k : nat) budget clamped,
        [(Example.fl 2375, Example.fl 500); (Example.fl 1750, Example.fl 500);
         (Example.fl 1125, Example.fl 500); (Example.fl 500, Example.fl 500);
         (Example.fl 500, Example.fl 500)] !! k = Some (budget, clamped) →
        budget = blended (tran_cycle Example.shell_info)
                   (tran_cycle Example.shell_info - 1 - Z.of_nat k)
                   (F32.sub (Status.prev_power_budget (status_ref "shell" Example.shell_light))
                      clamped0) clamped.
Proof.
  apply (transient_schedule Example.shell Example.shell_info Example.cooling_devices "shell"
           (severity_index CRITICAL) eq_refl (Example.shell_tick SEVERE)
           (replicate 4 (Example.shell_tick SEVERE)) Example.shell_light
           (default initial
              (snd <$> run_ticks Example.shell Example.cooling_devices
                         (replicate 5 (Example.shell_tick SEVERE)) Example.shell_light))
           (status_ref "shell" Example.shell_light)).
  - vm_compute. reflexivity.
  - vm_compute. lia.
  - vm_compute. lia.
  - reflexivity.
  - cbn [replicate].
    repeat (apply Forall_cons; split; [exact regular_shell_tick|]). by apply Forall_nil.
  - vm_compute. reflexivity.
Defined.

(** C5, as stated, fails: with [tran_cycle = 4] the tick of the change does not
    add 4/4 of the initial delta (it adds 3/4). *)
Lemma transient_starts_below_full_delta :
  ¬ (∀ (sensor_info : SensorInfo) (ti : ThrottlingInfo) (cmap : gmap string CdevInfo)
       (sensor_name : string) (t : nat) (x : Tick) (xs : list Tick)
       (this this' : ThermalThrottling) (st : Status.t) (results : list (float * float)),
       throttling_info sensor_info = Some ti →
       thermal_throttling_status_map_ this !! sensor_name = Some st →
       Status.prev_target st ≠ severity_index NONE →
       t ≠ Status.prev_target st →
       tran_cycle ti = 4 →
       Forall (regular_tick sensor_info sensor_name t) (x :: xs) →
       run_ticks sensor_info cmap (x :: xs) this = Some (results, this') →
       ∃ clamped0,
         clamped_power_budget sensor_info cmap x this = Some clamped0
         ∧ ∀ (k : nat) budget clamped,
             results !! k = Some (budget, clamped) →
             budget = blended 4 (4 - Z.of_nat k)
                        (F32.sub (Status.prev_power_budget st) clamped0) clamped).
Proof.
  intros H.
  pose (this' := default initial
                   (snd <$> run_ticks Example.shell Example.cooling_devices
                              (replicate 5 (Example.shell_tick SEVERE)) Example.shell_light)).
  pose (results := [(Example.fl 2375, Example.fl 500); (Example.fl 1750, Example.fl 500);
                    (Example.fl 1125, Example.fl 500); (Example.fl 500, Example.fl 500);
                    (Example.fl 500, Example.fl 500)]).
  assert (Hrun : run_ticks Example.shell Example.cooling_devices
                   (Example.shell_tick SEVERE :: replicate 4 (Example.shell_tick SEVERE))
                   Example.shell_light = Some (results, this'))
    by (vm_compute; reflexivity).
  pose proof shell_target_change as (Hst & Hprev & Hppb & _ & Hclamped & _).
  assert (Hall : Forall (regular_tick Example.shell "shell" (severity_index CRITICAL))
                   (Example.shell_tick SEVERE :: replicate 4 (Example.shell_tick SEVERE))).
  { cbn [replicate].
    repeat (apply Forall_cons; split; [exact regular_shell_tick|]). by apply Forall_nil. }
  assert (Hnone : Status.prev_target (status_ref "shell" Example.shell_light)
                  ≠ severity_index NONE) by (rewrite Hprev; discriminate).
  assert (Hdiff : severity_index CRITICAL
                  ≠ Status.prev_target (status_ref "shell" Example.shell_light))
    by (rewrite Hprev; discriminate).
  destruct (H Example.shell Example.shell_info Example.cooling_devices "shell"
              (severity_index CRITICAL) (Example.shell_tick SEVERE)
              (replicate 4 (Example.shell_tick SEVERE)) Example.shell_light this'
              (status_ref "shell" Example.shell_light) results
              eq_refl Hst Hnone Hdiff eq_refl Hall Hrun) as (clamped0 & Hc0 & Hk).
  rewrite Hclamped in Hc0. injection Hc0 as <-.
  specialize (Hk 0%nat _ _ eq_refl). rewrite Hppb in Hk.
  vm_compute in Hk. discriminate.
Qed.

(** ** The registry of votes *)

Lemma VoteSet_insert_perm (x : Z) (s : list Z) : VoteSet.insert x s ≡ₚ x :: s.
Proof.
  induction s as [|y s IH]; simpl; [done|].
  destruct (x <=? y); [|done]. rewrite IH. apply Permutation_swap.
Qed.

Lemma VoteSet_insert_sorted (x : Z) (s : list Z) :
  StronglySorted (λ a b, b ≤ a) s → StronglySorted (λ a b, b ≤ a) (VoteSet.insert x s).
Proof.
  induction 1 as [|y s Hs IH Hy]; simpl.
  - repeat constructor.
  - destruct (Z.leb_spec x y).
    + constructor; [done|]. rewrite VoteSet_insert_perm. by constructor.
    + constructor; [by constructor|]. constructor; [lia|].
      eapply Forall_impl; [exact Hy|]. simpl. lia.
Qed.

Lemma VoteSet_erase_found_perm (x : Z) (s s' : list Z) :
  VoteSet.erase_found x s = Some s' → s ≡ₚ x :: s'.
Proof.
  revert s'. induction s as [|y s IH]; intros s'; simpl; [done|].
  destruct (Z.eqb_spec x y) as [->|Hne].
  - by intros [= ->].
  - destruct (VoteSet.erase_found x s) as [s0|]; [|done].
    simpl. intros [= <-]. rewrite (IH s0 eq_refl). apply Permutation_swap.
Qed.

Lemma VoteSet_erase_found_sorted (x : Z) (s s' : list Z) :
  StronglySorted (λ a b, b ≤ a) s → VoteSet.erase_found x s = Some s' →
  StronglySorted (λ a b, b ≤ a) s'.
Proof.
  intros Hs. revert s'. induction Hs as [|y s Hs IH Hy]; intros s'; simpl; [done|].
  destruct (x =? y); [by intros [= <-]|].
  destruct (VoteSet.erase_found x s) as [s0|] eqn:He; [|done].
  simpl. intros [= <-]. constructor; [by apply IH|].
  apply VoteSet_erase_found_perm in He. rewrite He in Hy.
  by apply Forall_cons in Hy as [_ ?].
Qed.

Lemma VoteSet_erase_found_is_Some (x : Z) (s : list Z) :
  x ∈ s → is_Some (VoteSet.erase_found x s).
Proof.
  induction s as [|y s IH]; simpl; [by intros ?%elem_of_nil|].
  intros Hin. destruct (Z.eqb_spec x y); [eauto|].
  apply elem_of_cons in Hin as [?|Hin]; [done|].
  destruct (IH Hin) as [s' ->]. simpl. eauto.
Qed.

(** The first vote of a set in descending order is its maximum. *)
Lemma VoteSet_first_max (s : list Z) (m : Z) :
  StronglySorted (λ a b, b ≤ a) s → VoteSet.first s = Some m → is_max m s.
Proof.
  intros Hs Hm. destruct s as [|y s]; [done|]. injection Hm as ->.
  apply StronglySorted_inv in Hs as [_ Hy]. split; [left|].
  intros v Hv. apply elem_of_cons in Hv as [->|Hv]; [lia|].
  rewrite Forall_forall in Hy. auto.
Qed.

(** ** The recorded requests *)

(** The recorded requests of a CDEV: that of the sensor [sensor_name], if it
    has one, and those of the other sensors. *)
Lemma recorded_in_split (cdev sensor_name : string) (statuses : gmap string Status.t) :
  recorded_in cdev statuses
  ≡ₚ option_list (statuses !! sensor_name ≫= λ st, Status.cdev_status_map st !! cdev)
     ++ recorded_in cdev (delete sensor_name statuses).
Proof.
  unfold recorded_in.
  destruct (statuses !! sensor_name) as [st|] eqn:Hst.
  - rewrite <- (insert_delete_id statuses sensor_name st Hst) at 1.
    rewrite map_to_list_insert by apply lookup_delete_eq.
    simpl. by destruct (Status.cdev_status_map st !! cdev).
  - simpl. by rewrite delete_id.
Qed.

Lemma recorded_votes_with_status (cdev sensor_name : string) (f : Status.t → Status.t)
    (this : ThermalThrottling) :
  recorded_votes cdev (with_status sensor_name f this)
  ≡ₚ option_list (Status.cdev_status_map (f (status_ref sensor_name this)) !! cdev)
     ++ recorded_in cdev (delete sensor_name (thermal_throttling_status_map_ this)).
Proof.
  unfold recorded_votes. rewrite (recorded_in_split cdev sensor_name).
  unfold with_status. simpl. rewrite lookup_insert_eq. simpl.
  by rewrite delete_insert_eq.
Qed.

Lemma recorded_votes_split (cdev sensor_name : string) (this : ThermalThrottling) :
  recorded_votes cdev this
  ≡ₚ option_list (Status.cdev_status_map (status_ref sensor_name this) !! cdev)
     ++ recorded_in cdev (delete sensor_name (thermal_throttling_status_map_ this)).
Proof.
  unfold recorded_votes. rewrite (recorded_in_split cdev sensor_name).
  unfold status_ref. by destruct (thermal_throttling_status_map_ this !! sensor_name).
Qed.

(** ** What ticks and clearings keep *)

Lemma votes_kept_refl (this : ThermalThrottling) : votes_kept this this.
Proof. unfold votes_kept. auto. Qed.

Lemma votes_kept_trans (this1 this2 this3 : ThermalThrottling) :
  votes_kept this1 this2 → votes_kept this2 this3 → votes_kept this1 this3.
Proof.
  intros (Hr1 & Hv1 & Hp1) (Hr2 & Hv2 & Hp2). split_and!.
  - congruence.
  - intros cdev. by rewrite Hv2.
  - intros H. by apply Hp2, Hp1.
Qed.

Lemma pid_requests_ok_empty : pid_requests_ok Status.empty.
Proof. intros cdev v. simpl. by rewrite lookup_empty. Qed.

Lemma pid_requests_ok_status_ref (sensor_name : string) (this : ThermalThrottling) :
  (∀ name st, thermal_throttling_status_map_ this !! name = Some st → pid_requests_ok st) →
  pid_requests_ok (status_ref sensor_name this).
Proof.
  intros H. unfold status_ref.
  destruct (thermal_throttling_status_map_ this !! sensor_name) eqn:E; simpl;
    eauto using pid_requests_ok_empty.
Qed.

(** An update of the status of one sensor that leaves its [cdev_status_map]
    as it was and its PID requests non-negative. *)
Lemma votes_kept_with_status (sensor_name : string) (f : Status.t → Status.t)
    (this : ThermalThrottling) :
  Status.cdev_status_map (f (status_ref sensor_name this))
  = Status.cdev_status_map (status_ref sensor_name this) →
  (pid_requests_ok (status_ref sensor_name this) →
   pid_requests_ok (f (status_ref sensor_name this))) →
  votes_kept this (with_status sensor_name f this).
Proof.
  intros Hmap Hpid. split_and!.
  - reflexivity.
  - intros cdev.
    rewrite recorded_votes_with_status, (recorded_votes_split cdev sensor_name this).
    by rewrite Hmap.
  - intros Hall name st. unfold with_status. simpl.
    destruct (decide (sensor_name = name)) as [->|Hne].
    + rewrite lookup_insert_eq. intros [= <-].
      by apply Hpid, pid_requests_ok_status_ref.
    + rewrite lookup_insert_ne by done. apply Hall.
Qed.

Lemma votes_kept_store_status (sensor_name : string) (st st' : Status.t)
    (this : ThermalThrottling) :
  thermal_throttling_status_map_ this !! sensor_name = Some st →
  Status.cdev_status_map st' = Status.cdev_status_map st →
  Status.pid_cdev_request_map st' = Status.pid_cdev_request_map st →
  votes_kept this (store_status sensor_name st' this).
Proof.
  intros Hst Hmap Hpid.
  change (store_status sensor_name st' this) with (with_status sensor_name (λ _, st') this).
  apply votes_kept_with_status; rewrite (status_ref_lookup _ _ _ Hst); [done|].
  unfold pid_requests_ok. by rewrite Hpid.
Qed.

Lemma votes_kept_parseProfileProperty (property sensor_name : string)
    (sensor_info : SensorInfo) (this : ThermalThrottling) :
  votes_kept this (parseProfileProperty property sensor_name sensor_info this).
Proof.
  unfold parseProfileProperty.
  repeat case_match; auto using votes_kept_refl; by apply votes_kept_with_status.
Qed.

Lemma votes_kept_clearThrottlingData (sensor_name : string) (this : ThermalThrottling) :
  votes_kept this (clearThrottlingData sensor_name this).
Proof.
  unfold clearThrottlingData. case_match; [|apply votes_kept_refl].
  apply votes_kept_with_status; [done|].
  intros _ cdev v. simpl. rewrite lookup_fmap.
  destruct (_ !! cdev); simpl; [|done]. by intros [= <-].
Qed.

Lemma detect_target_change_maps (ti : ThrottlingInfo) (t : nat) (st : Status.t) :
  Status.cdev_status_map (snd (detect_target_change ti t st)) = Status.cdev_status_map st
  ∧ Status.pid_cdev_request_map (snd (detect_target_change ti t st))
    = Status.pid_cdev_request_map st.
Proof. unfold detect_target_change. by case_match. Qed.

Lemma transient_blend_maps (ti : ThrottlingInfo) (changed : bool) (clamped : float)
    (st : Status.t) :
  Status.cdev_status_map (snd (transient_blend ti changed clamped st))
  = Status.cdev_status_map st
  ∧ Status.pid_cdev_request_map (snd (transient_blend ti changed clamped st))
    = Status.pid_cdev_request_map st.
Proof.
  unfold transient_blend.
  destruct changed, (negb (Status.tran_cycle _ =? 0)) eqn:E; simpl; try done;
    by rewrite E.
Qed.

Lemma votes_kept_updatePowerBudget (temp : Temperature) (sensor_info : SensorInfo)
    (cmap : gmap string CdevInfo) (time_elapsed_ms : Z) (curr : ThrottlingSeverity)
    (max_throttling : bool) (sensor_predictions : list float)
    (this this' : ThermalThrottling) (budget : float) :
  updatePowerBudget temp sensor_info cmap time_elapsed_ms curr max_throttling
    sensor_predictions this = Some (budget, this') →
  votes_kept this this'.
Proof.
  unfold updatePowerBudget. intros H.
  destruct (thermal_throttling_status_map_ this !! name temp) as [st|] eqn:Hst; [|done].
  cbn [mbind option_bind] in H.
  destruct (severity_eqb curr NONE); [injection H as <- <-; apply votes_kept_refl|].
  destruct (throttling_info sensor_info) as [ti|]; [|done].
  cbn [mbind option_bind] in H.
  destruct (throttle_status_loop _ _ _ _) as [[ft fr]|]; [|done].
  cbn [mbind option_bind] in H.
  destruct (getTargetStateOfPID sensor_info curr) as [t|]; [|done].
  cbn [mbind option_bind] in H.
  pose proof (detect_target_change_maps ti t st) as [Hm1 Hp1].
  destruct (detect_target_change ti t st) as [changed st1]. cbn [snd] in *.
  destruct (max_throttling && _).
  - injection H as <- <-. by eapply votes_kept_store_status.
  - destruct (pid_clamped_budget _ _ _ _ _ _ _ _ _ _ st1) as [[clamped st2]|] eqn:Hpid;
      [|done].
    cbn [mbind option_bind] in H.
    apply pid_clamped_budget_spec in Hpid as [(_ & Hp2 & _ & _ & Hm2 & _) _].
    pose proof (transient_blend_maps ti changed clamped st2) as [Hm3 Hp3].
    destruct (transient_blend ti changed clamped st2) as [b st3]. cbn [snd] in *.
    injection H as <- <-. eapply votes_kept_store_status; [done|congruence|congruence].
Qed.

Lemma votes_kept_allocate_cdev (sensor_name : string) (curr : ThrottlingSeverity)
    (psm : gmap string PowerStatus) (cmap : gmap string CdevInfo)
    (max_throttling low_power_device_check : bool) (total_power_budget total_weight : float)
    (cdev : string) (info : BindedCdevInfo) (l l' : Alloc.t) (c : control)
    (this this' : ThermalThrottling) :
  allocate_cdev sensor_name curr psm cmap max_throttling low_power_device_check
    total_power_budget total_weight cdev info l this = Some (c, l', this') →
  votes_kept this this'.
Proof.
  unfold allocate_cdev. intros H.
  destruct (bool_decide _); [injection H as <- <- <-; apply votes_kept_refl|].
  destruct (get_power_data info psm l) as [[c0 l0]|]; [|done].
  cbn [mbind option_bind] in H.
  destruct c0; try (injection H as <- <- <-; apply votes_kept_refl).
  destruct low_power_device_check.
  - destruct (F32.gtb _ _); [|injection H as <- <- <-; apply votes_kept_refl].
    match type of H with (?m ≫= _) = _ => destruct m; [|done] end.
    cbn [mbind option_bind] in H.
    destruct (_ =? 0); injection H as <- <- <-; apply votes_kept_refl.
  - destruct (cmap !! cdev) as [cdev_info|]; [|done].
    cbn [mbind option_bind] in H.
    match type of H with (?m ≫= _) = _ => destruct m as [[]|]; [| |done] end;
      cbn [mbind option_bind] in H; [injection H as <- <- <-; apply votes_kept_refl|].
    match type of H with (?m ≫= _) = _ => destruct m as [budget1|]; [|done] end.
    cbn [mbind option_bind] in H.
    destruct (vat (state2power cdev_info) 0) as [power0|]; [|done].
    cbn [mbind option_bind] in H.
    destruct (getCdevMaxRequest cdev 0 this) as [[found max_cdev_vote]|]; [|done].
    cbn [mbind option_bind] in H.
    destruct found; cbn [negb] in H; [|injection H as <- <- <-; apply votes_kept_refl].
    match type of H with (?m ≫= _) = _ => destruct m as [curr_cdev_vote|]; [|done] end.
    cbn [mbind option_bind] in H.
    match type of H with (?m ≫= _) = _ => destruct m as [budget2|]; [|done] end.
    cbn [mbind option_bind] in H.
    match type of H with (?m ≫= _) = _ => destruct m as [?|]; [|done] end.
    cbn [mbind option_bind] in H.
    match type of H with (?m ≫= _) = _ => destruct m as [stored|]; [|done] end.
    cbn [mbind option_bind] in H.
    injection H as <- <- <-. by apply votes_kept_with_status.
Qed.

Lemma votes_kept_allocate_pass (sensor_name : string) (curr : ThrottlingSeverity)
    (psm : gmap string PowerStatus) (cmap : gmap string CdevInfo)
    (max_throttling low_power_device_check : bool) (total_power_budget total_weight : float)
    (binded : BindedCdevInfoMap) :
  ∀ (l l' : Alloc.t) (returned : option bool) (this this' : ThermalThrottling),
    allocate_pass sensor_name curr psm cmap max_throttling low_power_device_check
      total_power_budget total_weight binded l this = Some (returned, l', this') →
    votes_kept this this'.
Proof.
  induction binded as [|[cdev info] binded IH]; intros l l' returned this this' H.
  - injection H as <- <- <-. apply votes_kept_refl.
  - cbn [allocate_pass] in H.
    destruct (allocate_cdev _ _ _ _ _ _ _ _ cdev info l this) as [[[c l1] this1]|] eqn:Hc;
      [|done].
    cbn [mbind option_bind] in H.
    apply votes_kept_allocate_cdev in Hc.
    destruct c; try (injection H as <- <- <-; done);
      eapply votes_kept_trans; eauto.
Qed.

Lemma votes_kept_allocatePowerToCdev (temp : Temperature) (sensor_info : SensorInfo)
    (curr : ThrottlingSeverity) (time_elapsed_ms : Z) (psm : gmap string PowerStatus)
    (cmap : gmap string CdevInfo) (max_throttling : bool) (sensor_predictions : list float)
    (this this' : ThermalThrottling) (result : bool) :
  allocatePowerToCdev temp sensor_info curr time_elapsed_ms psm cmap max_throttling
    sensor_predictions this = Some (result, this') →
  votes_kept this this'.
Proof.
  unfold allocatePowerToCdev. intros H.
  destruct (updatePowerBudget _ _ _ _ _ _ _ this) as [[budget this1]|] eqn:Hb; [|done].
  apply votes_kept_updatePowerBudget in Hb.
  cbn [mbind option_bind] in H.
  destruct (throttling_info sensor_info) as [ti|]; [|done].
  cbn [mbind option_bind] in H.
  match type of H with (?m ≫= _) = _ => destruct m as [total|]; [|done] end.
  cbn [mbind option_bind] in H.
  destruct (total_weight_loop _ _ _ _) as [total_weight allocated].
  match type of H with
  | (?m ≫= _) = _ => destruct m as [[[returned l1] this2]|] eqn:Hp1; [|done]
  end.
  apply votes_kept_allocate_pass in Hp1.
  cbn [mbind option_bind] in H.
  destruct returned; [injection H as <- <-; by eapply votes_kept_trans|].
  match type of H with
  | (?m ≫= _) = _ => destruct m as [[[returned l2] this3]|] eqn:Hp2; [|done]
  end.
  apply votes_kept_allocate_pass in Hp2.
  cbn [mbind option_bind] in H.
  destruct returned; injection H as <- <-; eauto using votes_kept_trans.
Qed.

Lemma votes_kept_pid_request_stage (temp : Temperature) (sensor_info : SensorInfo)
    (curr : ThrottlingSeverity) (time_elapsed_ms : Z) (psm : gmap string PowerStatus)
    (cmap : gmap string CdevInfo) (max_throttling : bool) (sensor_predictions : list float)
    (this this' : ThermalThrottling) (result : bool) :
  pid_request_stage temp sensor_info curr time_elapsed_ms psm cmap max_throttling
    sensor_predictions this = Some (result, this') →
  votes_kept this this'.
Proof.
  unfold pid_request_stage. intros H.
  destruct (allocatePowerToCdev _ _ _ _ _ _ _ _ this) as [[allocated this1]|] eqn:Ha;
    [|done].
  apply votes_kept_allocatePowerToCdev in Ha.
  cbn [mbind option_bind] in H.
  destruct allocated; cbn [negb] in H; injection H as <- <-; [done|].
  eapply votes_kept_trans; [exact Ha|].
  apply votes_kept_with_status; [done|].
  intros _ cdev v. simpl. rewrite lookup_fmap.
  destruct (_ !! cdev); simpl; [|done]. by intros [= <-].
Qed.

Lemma power_to_state_loop_nonneg (budget : float) (state2power : list float) (i : Z) :
  0 ≤ i → 0 ≤ power_to_state_loop budget state2power i.
Proof.
  revert i. induction state2power as [|power rest IH]; intros i Hi; simpl; [done|].
  destruct rest; [done|]. case_match; [done|]. apply IH. lia.
Qed.

Lemma power_to_state_nonneg (state2power : list float) (budget i : Z) :
  power_to_state state2power budget = Some i → 0 ≤ i.
Proof.
  unfold power_to_state. intros H. destruct state2power as [|power rest]; [done|].
  assert (i = power_to_state_loop (F32.of_int budget) (power :: rest) 0) as ->
    by congruence.
  by apply power_to_state_loop_nonneg.
Qed.

Lemma votes_kept_request_by_power_loop (sensor_name : string) (cmap : gmap string CdevInfo)
    (budgets : list (string * Z)) :
  ∀ this this',
    request_by_power_loop sensor_name cmap budgets this = Some this' →
    votes_kept this this'.
Proof.
  induction budgets as [|[cdev budget] budgets IH]; intros this this' H.
  - injection H as <-. apply votes_kept_refl.
  - cbn [request_by_power_loop] in H.
    destruct (cmap !! cdev) as [cdev_info|]; [|done].
    cbn [mbind option_bind] in H.
    destruct (power_to_state _ budget) as [i|] eqn:Hi; [|done].
    apply power_to_state_nonneg in Hi.
    cbn [mbind option_bind] in H.
    match type of H with (?m ≫= _) = _ => destruct m; [|done] end.
    cbn [mbind option_bind] in H.
    eapply votes_kept_trans; [|by apply IH].
    apply votes_kept_with_status; [done|].
    intros Hok c v. simpl. destruct (decide (cdev = c)) as [->|Hne].
    + rewrite lookup_insert_eq. by intros [= <-].
    + rewrite lookup_insert_ne by done. apply Hok.
Qed.

Lemma votes_kept_with_status_id (sensor_name : string) (this : ThermalThrottling) :
  votes_kept this (with_status sensor_name (λ s, s) this).
Proof. by apply votes_kept_with_status. Qed.

Lemma votes_kept_updateCdevRequestByPower (sensor_name : string)
    (cmap : gmap string CdevInfo) (this this' : ThermalThrottling) :
  updateCdevRequestByPower sensor_name cmap this = Some this' → votes_kept this this'.
Proof.
  unfold updateCdevRequestByPower. intros H.
  apply votes_kept_request_by_power_loop in H.
  eapply votes_kept_trans; [apply votes_kept_with_status_id | exact H].
Qed.

Lemma votes_kept_request_by_severity_loop (sensor_name : string)
    (curr : ThrottlingSeverity) (binded : BindedCdevInfoMap) :
  ∀ this, votes_kept this (request_by_severity_loop sensor_name curr binded this).
Proof.
  induction binded as [|[cdev info] binded IH]; intros this; simpl.
  - apply votes_kept_refl.
  - case_match.
    + eapply votes_kept_trans; [|apply IH].
      eapply votes_kept_trans; [apply votes_kept_with_status_id|].
      by apply votes_kept_with_status.
    + eapply votes_kept_trans; [apply votes_kept_with_status_id | apply IH].
Qed.

Lemma votes_kept_updateCdevRequestBySeverity (sensor_name : string)
    (sensor_info : SensorInfo) (curr : ThrottlingSeverity) (this this' : ThermalThrottling) :
  updateCdevRequestBySeverity sensor_name sensor_info curr this = Some this' →
  votes_kept this this'.
Proof.
  unfold updateCdevRequestBySeverity. intros H.
  destruct (throttling_info sensor_info); [|done].
  cbn [mbind option_bind] in H. injection H as <-.
  eapply votes_kept_trans;
    [apply votes_kept_with_status_id | apply votes_kept_request_by_severity_loop].
Qed.

Lemma votes_kept_release_loop (sensor_name : string) (cmap : gmap string CdevInfo)
    (psm : gmap string PowerStatus) (severity : ThrottlingSeverity)
    (binded : BindedCdevInfoMap) :
  ∀ this this' result,
    release_loop sensor_name cmap psm severity binded this = Some (result, this') →
    votes_kept this this'.
Proof.
  induction binded as [|[cdev info] binded IH]; intros this this' result H.
  - injection H as <- <-. apply votes_kept_refl.
  - cbn [release_loop] in H.
    destruct (thermal_throttling_status_map_ this !! sensor_name) as [st|]; [|done].
    cbn [mbind option_bind] in H.
    destruct (Status.throttling_release_map st !! cdev);
      [|injection H as <- <-; apply votes_kept_refl].
    destruct (psm !! power_rail info); [|injection H as <- <-; apply votes_kept_refl].
    destruct (cmap !! cdev); [|done].
    cbn [mbind option_bind] in H.
    eapply votes_kept_trans; [|by eapply IH].
    by apply votes_kept_with_status.
Qed.

Lemma votes_kept_throttlingReleaseUpdate (sensor_name : string)
    (cmap : gmap string CdevInfo) (psm : gmap string PowerStatus)
    (severity : ThrottlingSeverity) (sensor_info : SensorInfo)
    (this this' : ThermalThrottling) (result : bool) :
  throttlingReleaseUpdate sensor_name cmap psm severity sensor_info this
  = Some (result, this') →
  votes_kept this this'.
Proof.
  unfold throttlingReleaseUpdate. intros H.
  destruct (thermal_throttling_status_map_ this !! sensor_name);
    [|injection H as <- <-; apply votes_kept_refl].
  destruct (throttling_info sensor_info); [|done].
  cbn [mbind option_bind] in H. by eapply votes_kept_release_loop.
Qed.

(** A control tick keeps the registry and the recorded requests. *)
Lemma votes_kept_thermalThrottlingUpdate (property : string) (temp : Temperature)
    (sensor_info : SensorInfo) (curr : ThrottlingSeverity) (time_elapsed_ms : Z)
    (psm : gmap string PowerStatus) (cmap : gmap string CdevInfo) (max_throttling : bool)
    (sensor_predictions : list float) (this this' : ThermalThrottling) :
  thermalThrottlingUpdate property temp sensor_info curr time_elapsed_ms psm cmap
    max_throttling sensor_predictions this = Some this' →
  votes_kept this this'.
Proof.
  unfold thermalThrottlingUpdate. intros H.
  destruct (thermal_throttling_status_map_ this !! name temp);
    [|injection H as <-; apply votes_kept_refl].
  destruct (throttling_info sensor_info) as [ti|]; [|done].
  cbn [mbind option_bind] in H.
  match type of H with
  | context [bool_decide (Status.pid_power_budget_map (status_ref _ ?that) ≠ ∅)] =>
      assert (H0 : votes_kept this that)
        by (destruct (profile_map ti);
            [apply votes_kept_refl | apply votes_kept_parseProfileProperty]);
      generalize dependent that; intros this0 H H0
  end.
  match type of H with
  | (?m ≫= _) = _ => destruct m as [this1|] eqn:H1; [|done]
  end.
  cbn [mbind option_bind] in H.
  assert (H01 : votes_kept this0 this1).
  { match type of H1 with
    | context [bool_decide ?P] => destruct (bool_decide P)
    end; [|injection H1 as <-; apply votes_kept_refl].
    destruct (pid_request_stage _ _ _ _ _ _ _ _ this0) as [[r that]|] eqn:Hs; [|done].
    cbn [mbind option_bind] in H1.
    apply votes_kept_pid_request_stage in Hs.
    apply votes_kept_updateCdevRequestByPower in H1.
    by eapply votes_kept_trans. }
  match type of H with
  | (?m ≫= _) = _ => destruct m as [this2|] eqn:H2; [|done]
  end.
  cbn [mbind option_bind] in H.
  assert (H12 : votes_kept this1 this2).
  { match type of H2 with
    | context [bool_decide ?P] => destruct (bool_decide P)
    end; [|injection H2 as <-; apply votes_kept_refl].
    by apply votes_kept_updateCdevRequestBySeverity in H2. }
  assert (H23 : votes_kept this2 this').
  { match type of H with
    | context [bool_decide ?P] => destruct (bool_decide P)
    end; [|injection H as <-; apply votes_kept_refl].
    destruct (throttlingReleaseUpdate _ _ _ _ _ this2) as [[r that]|] eqn:Hr; [|done].
    cbn [mbind option_bind] in H. injection H as <-.
    by apply votes_kept_throttlingReleaseUpdate in Hr. }
  eauto using votes_kept_trans.
Qed.

(** ** The invariant of the registry *)

Lemma registry_inv_initial : registry_inv initial.
Proof.
  unfold registry_inv, initial, recorded_votes, recorded_in. simpl.
  rewrite map_to_list_empty. simpl. split_and!.
  - intros cdev votes. by rewrite lookup_empty.
  - intros cdev. rewrite lookup_empty. split; [by intros [? ?]|done].
  - intros cdev v Hv. by apply elem_of_nil in Hv.
  - intros name st. by rewrite lookup_empty.
Qed.

Lemma registry_inv_votes_kept (this this' : ThermalThrottling) :
  registry_inv this → votes_kept this this' → registry_inv this'.
Proof.
  intros (Hvotes & Hdom & Hpos & Hpid) (Hreg & Hrec & Hpid').
  split_and!.
  - intros cdev votes. rewrite Hreg. intros Hc.
    destruct (Hvotes cdev votes Hc) as (Hs & k & Hk).
    split; [done|]. exists k. by rewrite Hrec.
  - intros cdev. rewrite Hreg, Hdom. pose proof (Hrec cdev) as Hp.
    split; intros H Hnil; apply H; rewrite Hnil in Hp.
    + symmetry in Hp. by apply Permutation_nil_r in Hp.
    + by apply Permutation_nil_r in Hp.
  - intros cdev v. rewrite Hrec. apply Hpos.
  - by apply Hpid'.
Qed.

(** The maximum that the registry reports is the maximum of the recorded
    requests. *)
Lemma registry_inv_max (this : ThermalThrottling) (cdev : string) (m : Z) :
  registry_inv this →
  getCdevMaxRequest cdev 0 this = Some (true, m) →
  is_max m (recorded_votes cdev this).
Proof.
  intros (Hvotes & Hdom & Hpos & _). unfold getCdevMaxRequest.
  destruct (cdev_all_request_map_ this !! cdev) as [votes|] eqn:Hc; [|done].
  destruct (VoteSet.first votes) as [m'|] eqn:Hm; [|done].
  simpl. intros [= <-].
  destruct (Hvotes cdev votes Hc) as (Hsorted & k & Hk).
  destruct (VoteSet_first_max votes m' Hsorted Hm) as [Hin Hmax].
  assert (Hle : ∀ v, v ∈ recorded_votes cdev this → v ≤ m').
  { intros v Hv. apply Hmax. rewrite Hk. apply elem_of_app. by left. }
  split; [|done].
  rewrite Hk in Hin. apply elem_of_app in Hin as [?|Hzero]; [done|].
  apply elem_of_replicate in Hzero as [-> _].
  destruct (recorded_votes cdev this) as [|v vs] eqn:Hrec.
  - exfalso. apply (proj1 (Hdom cdev)); eauto.
  - assert (v = 0) as ->.
    { specialize (Hle v (list_elem_of_here _ _)).
      specialize (Hpos cdev v). rewrite Hrec in Hpos.
      specialize (Hpos (list_elem_of_here _ _)). lia. }
    left.
Qed.

Lemma registry_inv_queryable (this : ThermalThrottling) (cdev : string) :
  registry_inv this →
  is_Some (cdev_all_request_map_ this !! cdev) →
  ∃ m, getCdevMaxRequest cdev 0 this = Some (true, m).
Proof.
  intros (Hvotes & Hdom & _) [votes Hc]. unfold getCdevMaxRequest. rewrite Hc.
  destruct (Hvotes cdev votes Hc) as (_ & k & Hk).
  destruct votes as [|m votes]; [|simpl; eauto].
  exfalso. apply (proj1 (Hdom cdev)); [eauto|].
  symmetry in Hk. apply Permutation_nil_r in Hk. by apply app_eq_nil in Hk as [? _].
Qed.

(** The sensor [sensor_name] records the request [new] for [cdev], and the
    votes of [cdev] become [votes']: the invariant is kept when [votes'] are
    in descending order and consist of [new], the requests that the other
    sensors have recorded for [cdev], and zeros. *)
Lemma registry_inv_set_vote (sensor_name cdev : string) (new : Z) (votes' : list Z)
    (this : ThermalThrottling) :
  registry_inv this →
  0 ≤ new →
  StronglySorted (λ a b, b ≤ a) votes' →
  (∃ k, votes' ≡ₚ new :: recorded_in cdev
                          (delete sensor_name (thermal_throttling_status_map_ this))
                   ++ replicate k 0) →
  registry_inv
    (mkThermalThrottling
       (<[sensor_name := Status.set_cdev_status_map <[cdev := new]>
                           (status_ref sensor_name this)]>
          (thermal_throttling_status_map_ this))
       (<[cdev := votes']> (cdev_all_request_map_ this))).
Proof.
  intros (Hvotes & Hdom & Hpos & Hpid) Hnew Hsorted [k Hk].
  set (this' := mkThermalThrottling _ _).
  assert (Hrec : ∀ c, recorded_votes c this'
                      ≡ₚ option_list (<[cdev := new]>
                                        (Status.cdev_status_map (status_ref sensor_name this))
                                        !! c)
                         ++ recorded_in c (delete sensor_name
                                             (thermal_throttling_status_map_ this))).
  { intros c.
    change (recorded_votes c this')
      with (recorded_votes c
              (with_status sensor_name (Status.set_cdev_status_map <[cdev := new]>) this)).
    by rewrite recorded_votes_with_status. }
  assert (Hrec_ne : ∀ c, c ≠ cdev → recorded_votes c this' ≡ₚ recorded_votes c this).
  { intros c Hc. rewrite Hrec, (recorded_votes_split c sensor_name this).
    by rewrite lookup_insert_ne. }
  assert (Hrec_eq : recorded_votes cdev this'
                    ≡ₚ new :: recorded_in cdev (delete sensor_name
                                                  (thermal_throttling_status_map_ this))).
  { rewrite Hrec. by rewrite lookup_insert_eq. }
  split_and!.
  - intros c votes. subst this'. simpl. destruct (decide (cdev = c)) as [<-|Hne].
    + rewrite lookup_insert_eq. intros [= <-]. split; [done|].
      exists k. rewrite Hrec_eq. exact Hk.
    + rewrite lookup_insert_ne by done. intros Hc.
      destruct (Hvotes c votes Hc) as (Hs & k' & Hk').
      split; [done|]. exists k'. by rewrite Hrec_ne.
  - intros c. destruct (decide (cdev = c)) as [<-|Hne].
    + subst this'. simpl. rewrite lookup_insert_eq. split; [|eauto].
      intros _ Hnil. pose proof Hrec_eq as Hp. rewrite Hnil in Hp.
      by apply Permutation_nil_cons in Hp.
    + pose proof (Hrec_ne c ltac:(done)) as Hp.
      subst this'. simpl. rewrite lookup_insert_ne by done. rewrite Hdom.
      split; intros H Hnil; apply H; rewrite Hnil in Hp.
      * symmetry in Hp. by apply Permutation_nil_r in Hp.
      * by apply Permutation_nil_r in Hp.
  - intros c v. destruct (decide (cdev = c)) as [<-|Hne].
    + rewrite Hrec_eq. intros [->|Hin]%elem_of_cons; [done|].
      apply (Hpos cdev). rewrite (recorded_votes_split cdev sensor_name this).
      apply elem_of_app. by right.
    + rewrite Hrec_ne by done. apply Hpos.
  - intros name st. subst this'. simpl.
    destruct (decide (sensor_name = name)) as [<-|Hne].
    + rewrite lookup_insert_eq. intros [= <-].
      by apply (pid_requests_ok_status_ref sensor_name this).
    + rewrite lookup_insert_ne by done. apply Hpid.
Qed.

(** A registration block enters the CDEV in [cdev_status_map] with the
    request 0 and inserts the vote 0. *)
Lemma registry_inv_add_zero_vote (sensor_name cdev : string) (this : ThermalThrottling) :
  registry_inv this →
  zero_votes sensor_name this →
  registry_inv
    (vote_insert cdev 0
       (with_status sensor_name (Status.set_cdev_status_map <[cdev := 0]>) this))
  ∧ zero_votes sensor_name
      (vote_insert cdev 0
         (with_status sensor_name (Status.set_cdev_status_map <[cdev := 0]>) this)).
Proof.
  intros Hinv Hzero. split.
  - assert (Hsorted : StronglySorted (λ a b, b ≤ a)
                        (default [] (cdev_all_request_map_ this !! cdev))).
    { destruct Hinv as (Hvotes & _).
      destruct (cdev_all_request_map_ this !! cdev) as [old|] eqn:Hold; simpl.
      - by destruct (Hvotes cdev old Hold).
      - constructor. }
    assert (Hperm : ∃ k, VoteSet.insert 0 (default [] (cdev_all_request_map_ this !! cdev))
                         ≡ₚ 0 :: recorded_in cdev
                                   (delete sensor_name (thermal_throttling_status_map_ this))
                            ++ replicate k 0).
    { destruct Hinv as (Hvotes & Hdom & _).
      pose proof (recorded_votes_split cdev sensor_name this) as Hsplit.
      destruct (cdev_all_request_map_ this !! cdev) as [old|] eqn:Hold; simpl.
      - destruct (Hvotes cdev old Hold) as (_ & k & Hk).
        destruct (Status.cdev_status_map (status_ref sensor_name this) !! cdev)
          as [v|] eqn:Hv.
        + rewrite (Hzero cdev v Hv) in Hsplit. simpl in Hsplit.
          exists (S k). rewrite VoteSet_insert_perm, Hk, Hsplit. simpl.
          apply perm_skip. apply Permutation_middle.
        + exists k. rewrite VoteSet_insert_perm, Hk, Hsplit. done.
      - exists 0%nat. simpl.
        destruct (recorded_votes cdev this) as [|v vs] eqn:Hrec.
        + symmetry in Hsplit. apply Permutation_nil_r in Hsplit.
          apply app_eq_nil in Hsplit as [_ ->]. done.
        + exfalso. assert (Hsome : is_Some (cdev_all_request_map_ this !! cdev))
            by (apply Hdom; by rewrite Hrec).
          rewrite Hold in Hsome. by destruct Hsome. }
    apply (registry_inv_set_vote sensor_name cdev 0
             (VoteSet.insert 0 (default [] (cdev_all_request_map_ this !! cdev))) this Hinv);
      [done | by apply VoteSet_insert_sorted | exact Hperm].
  - intros c v. rewrite status_ref_vote_insert, status_ref_with_status. simpl.
    destruct (decide (cdev = c)) as [<-|Hne].
    + rewrite lookup_insert_eq. by intros [= <-].
    + rewrite lookup_insert_ne by done. apply Hzero.
Qed.

Lemma zero_votes_with_status (sensor_name : string) (f : Status.t → Status.t)
    (this : ThermalThrottling) :
  Status.cdev_status_map (f (status_ref sensor_name this))
  = Status.cdev_status_map (status_ref sensor_name this) →
  zero_votes sensor_name this → zero_votes sensor_name (with_status sensor_name f this).
Proof.
  intros Hmap Hzero cdev v. rewrite status_ref_with_status, Hmap. apply Hzero.
Qed.

Lemma registry_inv_with_status (sensor_name : string) (f : Status.t → Status.t)
    (this : ThermalThrottling) :
  Status.cdev_status_map (f (status_ref sensor_name this))
  = Status.cdev_status_map (status_ref sensor_name this) →
  (pid_requests_ok (status_ref sensor_name this) →
   pid_requests_ok (f (status_ref sensor_name this))) →
  registry_inv this → registry_inv (with_status sensor_name f this).
Proof.
  intros Hmap Hpid Hinv.
  eapply registry_inv_votes_kept; [exact Hinv|]. by apply votes_kept_with_status.
Qed.

Lemma pid_requests_ok_insert_zero (cdev : string) (st : Status.t) :
  pid_requests_ok st →
  pid_requests_ok (Status.set_pid_cdev_request_map <[cdev := 0]> st).
Proof.
  intros Hok c v. simpl. destruct (decide (cdev = c)) as [<-|Hne].
  - rewrite lookup_insert_eq. by intros [= <-].
  - rewrite lookup_insert_ne by done. apply Hok.
Qed.

Lemma register_pid_inv (sensor_name cdev : string) (info : BindedCdevInfo)
    (this : ThermalThrottling) :
  registry_inv this → zero_votes sensor_name this →
  registry_inv (register_pid sensor_name cdev info this)
  ∧ zero_votes sensor_name (register_pid sensor_name cdev info this).
Proof.
  intros Hinv Hzero. unfold register_pid. case_match; [|done].
  apply registry_inv_add_zero_vote.
  - apply registry_inv_with_status; [done|apply pid_requests_ok_insert_zero|].
    by apply registry_inv_with_status.
  - apply zero_votes_with_status; [done|]. by apply zero_votes_with_status.
Qed.

Lemma register_hardlimit_inv (sensor_name cdev : string) (info : BindedCdevInfo)
    (this : ThermalThrottling) :
  registry_inv this → zero_votes sensor_name this →
  registry_inv (register_hardlimit sensor_name cdev info this)
  ∧ zero_votes sensor_name (register_hardlimit sensor_name cdev info this).
Proof.
  intros Hinv Hzero. unfold register_hardlimit. case_match; [|done].
  apply registry_inv_add_zero_vote.
  - by apply registry_inv_with_status.
  - by apply zero_votes_with_status.
Qed.

Lemma register_release_inv (sensor_name cdev : string) (info : BindedCdevInfo)
    (this : ThermalThrottling) :
  registry_inv this → zero_votes sensor_name this →
  registry_inv (register_release sensor_name cdev info this)
  ∧ zero_votes sensor_name (register_release sensor_name cdev info this).
Proof.
  intros Hinv Hzero. unfold register_release. repeat case_match; try done.
  split; [by apply registry_inv_with_status | by apply zero_votes_with_status].
Qed.

Lemma register_loop_inv (sensor_name : string) (cmap : gmap string CdevInfo)
    (binded : BindedCdevInfoMap) :
  ∀ this, registry_inv this → zero_votes sensor_name this →
          registry_inv (snd (register_loop sensor_name cmap binded this)).
Proof.
  induction binded as [|[cdev info] binded IH]; intros this Hinv Hzero; simpl; [done|].
  case_match; [|done].
  destruct (register_pid_inv sensor_name cdev info this Hinv Hzero) as [H1 Z1].
  destruct (register_hardlimit_inv sensor_name cdev info _ H1 Z1) as [H2 Z2].
  destruct (register_release_inv sensor_name cdev info _ H2 Z2) as [H3 Z3].
  by apply IH.
Qed.

(** A registration, successful or not, keeps the invariant of the registry. *)
Lemma registerThermalThrottling_inv (sensor_name : string)
    (throttling_info : option ThrottlingInfo) (cmap : gmap string CdevInfo)
    (this : ThermalThrottling) :
  registry_inv this →
  registry_inv (snd (registerThermalThrottling sensor_name throttling_info cmap this)).
Proof.
  intros Hinv. unfold registerThermalThrottling.
  destruct (thermal_throttling_status_map_ this !! sensor_name) eqn:Hnew; [done|].
  destruct throttling_info as [ti|]; [|done].
  apply register_loop_inv.
  - by apply registry_inv_with_status.
  - intros cdev v. rewrite status_ref_with_status. simpl.
    unfold status_ref. rewrite Hnew. simpl. by rewrite lookup_empty.
Qed.

(** ** Combining the requests *)

Lemma final_request_nonneg (pid hard release_step floor ceiling : Z) :
  0 ≤ pid → 0 ≤ ceiling → 0 ≤ final_request pid hard release_step floor ceiling.
Proof.
  intros Hpid Hceiling. unfold final_request.
  destruct (release_step =? 0); simpl; [lia|].
  destruct (Z.leb_spec (Z.max pid hard) release_step); lia.
Qed.

Lemma getCdevMaxRequest_ext (cdev : string) (max_state : Z) (this that : ThermalThrottling) :
  cdev_all_request_map_ this !! cdev = cdev_all_request_map_ that !! cdev →
  getCdevMaxRequest cdev max_state this = getCdevMaxRequest cdev max_state that.
Proof. intros H. unfold getCdevMaxRequest. by rewrite H. Qed.

(** The vote [cur_request] of a CDEV is replaced by [new_request], and the
    flag returned tells whether the maximum of the registry has changed. *)
Lemma updateCdevMaxRequestAndNotifyIfChange_spec (cdev : string)
    (cur_request new_request : Z) (this this' : ThermalThrottling) (notify : bool) :
  updateCdevMaxRequestAndNotifyIfChange cdev cur_request new_request this
  = Some (notify, this') →
  ∃ votes erased,
    cdev_all_request_map_ this !! cdev = Some votes
    ∧ VoteSet.erase_found cur_request votes = Some erased
    ∧ this' = mkThermalThrottling (thermal_throttling_status_map_ this)
                (<[cdev := VoteSet.insert new_request erased]> (cdev_all_request_map_ this))
    ∧ (notify = true ↔ getCdevMaxRequest cdev 0 this' ≠ getCdevMaxRequest cdev 0 this).
Proof.
  unfold updateCdevMaxRequestAndNotifyIfChange. intros H.
  destruct (cdev_all_request_map_ this !! cdev) as [votes|] eqn:Hvotes; [|done].
  cbn [mbind option_bind] in H.
  destruct (VoteSet.first votes) as [cur_max|] eqn:Hcur; [|done].
  cbn [mbind option_bind] in H.
  destruct (VoteSet.erase_found cur_request votes) as [erased|] eqn:Herased; [|done].
  cbn [mbind option_bind] in H.
  destruct (VoteSet.first (VoteSet.insert new_request erased)) as [new_max|] eqn:Hnew;
    [|done].
  cbn [mbind option_bind] in H. injection H as <- <-.
  exists votes, erased. split_and!; try done.
  unfold getCdevMaxRequest. simpl. rewrite lookup_insert_eq, Hvotes, Hnew, Hcur. simpl.
  destruct (Z.eqb_spec new_max cur_max) as [->|Hne]; simpl.
  - split; [done|]. by intros [].
  - split; [|done]. intros _ [= ?]. done.
Qed.

(** The CDEVs that the loop appends are those whose maximum in the registry
    it has changed. *)
Lemma cooling_devices_request_loop_notify (sensor_name : string)
    (curr : ThrottlingSeverity) (binded : BindedCdevInfoMap)
    (requests : list (string * Z)) :
  ∀ (out out' : list string) (this this' : ThermalThrottling),
    NoDup requests.*1 →
    cooling_devices_request_loop sensor_name curr binded requests out this
    = Some (out', this') →
    ∃ added, out' = out ++ added
      ∧ (∀ c, c ∈ added
              ↔ c ∈ requests.*1
                ∧ getCdevMaxRequest c 0 this' ≠ getCdevMaxRequest c 0 this)
      ∧ (∀ c, c ∉ requests.*1 →
              cdev_all_request_map_ this' !! c = cdev_all_request_map_ this !! c).
Proof.
  induction requests as [|[c0 v0] requests IH]; intros out out' this this' Hnodup H.
  - injection H as <- <-. exists []. rewrite app_nil_r. split_and!; [done| |done].
    intros c. split; [by intros ?%elem_of_nil | by intros [?%elem_of_nil _]].
  - cbn [fmap list_fmap fst] in Hnodup. apply NoDup_cons in Hnodup as [Hc0 Hnodup].
    cbn [cooling_devices_request_loop] in H.
    destruct (assoc c0 binded) as [info|]; [|done].
    cbn [mbind option_bind] in H.
    match type of H with
    | (if negb (v0 =? ?r) then _ else _) = _ => set (req := r) in H
    end.
    destruct (v0 =? req); cbn [negb] in H.
    + (* no change of the request *)
      destruct (IH _ _ _ _ Hnodup H) as (added & -> & Hadded & Hother).
      exists added. split_and!; [done| |].
      * intros c. rewrite Hadded. cbn [fmap list_fmap fst]. rewrite elem_of_cons.
        split; [naive_solver|]. intros [[->|Hin] Hchanged]; [|done].
        exfalso. apply Hchanged. apply getCdevMaxRequest_ext. by apply Hother.
      * intros c Hc. apply Hother. cbn [fmap list_fmap fst] in Hc. set_solver.
    + destruct (updateCdevMaxRequestAndNotifyIfChange c0 v0 req this)
        as [[notify this1]|] eqn:Hupdate; [|done].
      cbn [mbind option_bind] in H.
      apply updateCdevMaxRequestAndNotifyIfChange_spec in Hupdate
        as (votes & erased & Hvotes & Herased & Hthis1 & Hnotify).
      destruct (IH _ _ _ _ Hnodup H) as (added & -> & Hadded & Hother).
      assert (Hreg0 : cdev_all_request_map_ this' !! c0
                      = cdev_all_request_map_ this1 !! c0) by (by rewrite Hother).
      assert (Hreg : ∀ c, c ≠ c0 → cdev_all_request_map_ this1 !! c
                                    = cdev_all_request_map_ this !! c).
      { intros c Hc. rewrite Hthis1. simpl. by rewrite lookup_insert_ne. }
      exists ((if notify then [c0] else []) ++ added).
      split_and!.
      * destruct notify; simpl; by rewrite <- ?app_assoc.
      * intros c. cbn [fmap list_fmap fst]. rewrite elem_of_app, Hadded, elem_of_cons.
        destruct (decide (c = c0)) as [->|Hne].
        -- rewrite (getCdevMaxRequest_ext c0 0 this' this1 Hreg0).
           change (getCdevMaxRequest c0 0
                     (with_status sensor_name
                        (Status.set_cdev_status_map <[c0 := req]>) this1))
             with (getCdevMaxRequest c0 0 this1).
           rewrite <- Hnotify. destruct notify; set_solver.
        -- change (getCdevMaxRequest c 0
                     (with_status sensor_name
                        (Status.set_cdev_status_map <[c0 := req]>) this1))
             with (getCdevMaxRequest c 0 this1).
           rewrite (getCdevMaxRequest_ext c 0 this1 this (Hreg c Hne)).
           destruct notify; set_solver.
      * intros c Hc. cbn [fmap list_fmap fst] in Hc.
        rewrite Hother by set_solver.
        change (cdev_all_request_map_
                  (with_status sensor_name (Status.set_cdev_status_map <[c0 := req]>) this1))
          with (cdev_all_request_map_ this1).
        apply Hreg. set_solver.
Qed.

(** The loop keeps the invariant of the registry. *)
Lemma cooling_devices_request_loop_inv (sensor_name : string)
    (curr : ThrottlingSeverity) (binded : BindedCdevInfoMap)
    (requests : list (string * Z)) :
  (∀ c info, assoc c binded = Some info →
             0 ≤ iat (cdev_ceiling info) (severity_index curr)) →
  ∀ (out out' : list string) (this this' : ThermalThrottling),
    registry_inv this →
    NoDup requests.*1 →
    (∀ c v, (c, v) ∈ requests →
            Status.cdev_status_map (status_ref sensor_name this) !! c = Some v) →
    cooling_devices_request_loop sensor_name curr binded requests out this
    = Some (out', this') →
    registry_inv this'.
Proof.
  intros Hceiling.
  induction requests as [|[c0 v0] requests IH];
    intros out out' this this' Hinv Hnodup Hrequests H.
  - by injection H as <- <-.
  - cbn [fmap list_fmap fst] in Hnodup. apply NoDup_cons in Hnodup as [Hc0 Hnodup].
    cbn [cooling_devices_request_loop] in H.
    destruct (assoc c0 binded) as [info|] eqn:Hinfo; [|done].
    cbn [mbind option_bind] in H.
    match type of H with
    | (if negb (v0 =? ?r) then _ else _) = _ => set (req := r) in H
    end.
    assert (Hreq : 0 ≤ req).
    { apply final_request_nonneg; [|by eapply Hceiling].
      destruct Hinv as (_ & _ & _ & Hpid).
      destruct (Status.pid_cdev_request_map (status_ref sensor_name this) !! c0)
        as [pid|] eqn:Hp; simpl; [|done].
      eapply (pid_requests_ok_status_ref sensor_name this Hpid). exact Hp. }
    destruct (v0 =? req); cbn [negb] in H.
    + eapply IH; eauto. intros c v Hin. apply Hrequests. by right.
    + destruct (updateCdevMaxRequestAndNotifyIfChange c0 v0 req this)
        as [[notify this1]|] eqn:Hupdate; [|done].
      cbn [mbind option_bind] in H.
      apply updateCdevMaxRequestAndNotifyIfChange_spec in Hupdate
        as (votes & erased & Hvotes & Herased & -> & _).
      eapply IH; [|exact Hnodup| |exact H].
      * pose proof Hinv as (Hall & _).
        destruct (Hall c0 votes Hvotes) as (Hsorted & k & Hk).
        apply (registry_inv_set_vote sensor_name c0 req (VoteSet.insert req erased) this
                 Hinv Hreq).
        -- apply VoteSet_insert_sorted. by eapply VoteSet_erase_found_sorted.
        -- exists k. rewrite VoteSet_insert_perm. apply perm_skip.
           apply (Permutation_cons_inv (a := v0)).
           rewrite <- (VoteSet_erase_found_perm _ _ _ Herased), Hk.
           rewrite (recorded_votes_split c0 sensor_name this).
           by rewrite (Hrequests c0 v0 (list_elem_of_here _ _)).
      * intros c v Hin.
        rewrite status_ref_with_status. simpl.
        rewrite lookup_insert_ne.
        -- apply (Hrequests c v). by right.
        -- intros ->. apply Hc0. apply list_elem_of_fmap. by exists (c, v).
Qed.

Lemma assoc_active_binding_ceiling (sensor_info : SensorInfo) (ti : ThrottlingInfo)
    (profile : string) (curr : ThrottlingSeverity) :
  ceilings_ok sensor_info →
  throttling_info sensor_info = Some ti →
  ∀ c info, assoc c (active_binding ti profile) = Some info →
            0 ≤ iat (cdev_ceiling info) (severity_index curr).
Proof. intros Hok Hti c info Hc. by eapply Hok. Qed.

(** [computeCoolingDevicesRequest] keeps the invariant of the registry. *)
Lemma computeCoolingDevicesRequest_inv (sensor_name : string) (sensor_info : SensorInfo)
    (curr : ThrottlingSeverity) (out out' : list string) (this this' : ThermalThrottling) :
  ceilings_ok sensor_info →
  registry_inv this →
  computeCoolingDevicesRequest sensor_name sensor_info curr out this = Some (out', this') →
  registry_inv this'.
Proof.
  intros Hok Hinv. unfold computeCoolingDevicesRequest.
  destruct (thermal_throttling_status_map_ this !! sensor_name) as [st|] eqn:Hst;
    [|by intros [= <- <-]].
  destruct (throttling_info sensor_info) as [ti|] eqn:Hti; [|done].
  cbn [mbind option_bind]. intros H.
  eapply cooling_devices_request_loop_inv; [|exact Hinv| | |exact H].
  - by eapply assoc_active_binding_ceiling.
  - apply NoDup_fst_map_to_list.
  - intros c v Hin. rewrite (status_ref_lookup _ _ _ Hst).
    by apply elem_of_map_to_list.
Qed.

(** Every state that the controller reaches while it combines bindings
    without negative ceilings satisfies the invariant. *)
Lemma reachable_registry_inv (this : ThermalThrottling) :
  reachable_with ceilings_ok this → registry_inv this.
Proof.
  unfold reachable_with. revert this.
  apply (rtc_ind_r (λ this, registry_inv this)).
  - apply registry_inv_initial.
  - intros this1 this2 _ Hstep IH. destruct Hstep.
    + by apply registerThermalThrottling_inv.
    + eapply registry_inv_votes_kept; [exact IH|]. apply votes_kept_clearThrottlingData.
    + eapply registry_inv_votes_kept; [exact IH|].
      by eapply votes_kept_thermalThrottlingUpdate.
    + by eapply computeCoolingDevicesRequest_inv.
Qed.

(** Under the invariant, a CDEV with a recorded request can be queried, and
    the maximum returned is the maximum of the recorded requests; a CDEV
    without a recorded request is not in the registry. *)
Lemma registry_inv_recorded_max (this : ThermalThrottling) (cdev : string) :
  registry_inv this →
  (recorded_votes cdev this ≠ [] →
   ∃ m, getCdevMaxRequest cdev 0 this = Some (true, m) ∧ is_max m (recorded_votes cdev this))
  ∧ (recorded_votes cdev this = [] →
     ∀ max_state, getCdevMaxRequest cdev max_state this = Some (false, max_state)).
Proof.
  intros Hinv. split.
  - intros Hrec.
    assert (Hsome : is_Some (cdev_all_request_map_ this !! cdev)).
    { destruct Hinv as (_ & Hdom & _). by apply Hdom. }
    destruct (registry_inv_queryable this cdev Hinv Hsome) as [m Hm].
    exists m. split; [done|]. by apply registry_inv_max.
  - intros Hrec max_state. unfold getCdevMaxRequest.
    destruct (cdev_all_request_map_ this !! cdev) as [votes|] eqn:Hc; [|done].
    exfalso. destruct Hinv as (_ & Hdom & _). apply (proj1 (Hdom cdev)); eauto.
Qed.

(** What the loop of [computeCoolingDevicesRequest] does with the recorded
    requests [requests] of the sensor: the request of each CDEV becomes the
    final request of that CDEV, in [cdev_status_map] and in the registry,
    where one vote equal to the previous request is replaced by the final
    request.  The other maps of the sensor, the other CDEVs and the other
    sensors are left as they were. *)
Lemma cooling_devices_request_loop_replaces (sensor_name : string)
    (curr : ThrottlingSeverity) (binded : BindedCdevInfoMap)
    (requests : list (string * Z)) :
  ∀ (out out' : list string) (this this' : ThermalThrottling) (st : Status.t),
    NoDup requests.*1 →
    thermal_throttling_status_map_ this !! sensor_name = Some st →
    (∀ c v, (c, v) ∈ requests → Status.cdev_status_map st !! c = Some v) →
    cooling_devices_request_loop sensor_name curr binded requests out this
    = Some (out', this') →
    ∃ st',
      thermal_throttling_status_map_ this' !! sensor_name = Some st'
      ∧ Status.pid_cdev_request_map st' = Status.pid_cdev_request_map st
      ∧ Status.hardlimit_cdev_request_map st' = Status.hardlimit_cdev_request_map st
      ∧ Status.throttling_release_map st' = Status.throttling_release_map st
      ∧ Status.profile st' = Status.profile st
      ∧ (∀ other, other ≠ sensor_name →
           thermal_throttling_status_map_ this' !! other
           = thermal_throttling_status_map_ this !! other)
      ∧ (∀ c, c ∉ requests.*1 →
           Status.cdev_status_map st' !! c = Status.cdev_status_map st !! c
           ∧ cdev_all_request_map_ this' !! c = cdev_all_request_map_ this !! c)
      ∧ (∀ c previous, (c, previous) ∈ requests →
           ∃ request,
             combined_request binded curr st c = Some request
             ∧ Status.cdev_status_map st' !! c = Some request
             ∧ (previous = request →
                cdev_all_request_map_ this' !! c = cdev_all_request_map_ this !! c)
             ∧ (previous ≠ request →
                ∃ votes votes',
                  cdev_all_request_map_ this !! c = Some votes
                  ∧ cdev_all_request_map_ this' !! c = Some votes'
                  ∧ previous :: votes' ≡ₚ request :: votes)).
Proof.
  induction requests as [|[c0 v0] requests IH];
    intros out out' this this' st Hnodup Hst Hrequests H.
  - injection H as <- <-. exists st. split_and!; try done.
    intros c previous Hin. by apply elem_of_nil in Hin.
  - cbn [fmap list_fmap fst] in Hnodup. apply NoDup_cons in Hnodup as [Hc0 Hnodup].
    cbn [cooling_devices_request_loop] in H.
    rewrite (status_ref_lookup _ _ _ Hst) in H.
    destruct (assoc c0 binded) as [info|] eqn:Hinfo; [|done].
    cbn [mbind option_bind] in H.
    match type of H with
    | (if negb (v0 =? ?r) then _ else _) = _ => set (req := r) in H
    end.
    assert (Hcombined : combined_request binded curr st c0 = Some req).
    { unfold combined_request. by rewrite Hinfo. }
    pose proof (Hrequests c0 v0 (list_elem_of_here _ _)) as Hv0.
    destruct (Z.eqb_spec v0 req) as [Heq|Hne]; cbn [negb] in H.
    + (* the request of [c0] stays as it is *)
      assert (Hrest : ∀ c v, (c, v) ∈ requests → Status.cdev_status_map st !! c = Some v).
      { intros c v Hc. apply Hrequests. by right. }
      destruct (IH out out' this this' st Hnodup Hst Hrest H)
        as (st' & Hst' & Hpid & Hhard & Hrel & Hprofile & Hothers & Hout & Hin).
      destruct (Hout c0 Hc0) as [Hmap0 Hreg0].
      exists st'. split_and!; try done.
      * intros c Hc. apply Hout. cbn [fmap list_fmap fst] in Hc. set_solver.
      * intros c previous [[= -> ->]|Hc]%elem_of_cons; [|by apply Hin].
        exists req. split_and!; [done|by rewrite Hmap0, Hv0, Heq|done|done].
    + (* the request of [c0] changes *)
      destruct (updateCdevMaxRequestAndNotifyIfChange c0 v0 req this)
        as [[notify this1]|] eqn:Hupdate; [|done].
      cbn [mbind option_bind] in H.
      apply updateCdevMaxRequestAndNotifyIfChange_spec in Hupdate
        as (votes & erased & Hvotes & Herased & Hthis1 & _).
      set (this2 := with_status sensor_name (Status.set_cdev_status_map <[c0 := req]>) this1)
        in H.
      assert (Href1 : status_ref sensor_name this1 = st).
      { rewrite Hthis1. unfold status_ref. simpl. by rewrite Hst. }
      assert (Hst2 : thermal_throttling_status_map_ this2 !! sensor_name
                     = Some (Status.set_cdev_status_map <[c0 := req]> st)).
      { unfold this2. by rewrite lookup_with_status, Href1. }
      assert (Hreg2 : cdev_all_request_map_ this2
                      = <[c0 := VoteSet.insert req erased]> (cdev_all_request_map_ this)).
      { unfold this2. by rewrite Hthis1. }
      assert (Hothers2 : ∀ other, other ≠ sensor_name →
                thermal_throttling_status_map_ this2 !! other
                = thermal_throttling_status_map_ this !! other).
      { intros other Hother. unfold this2.
        rewrite lookup_with_status_ne by done. by rewrite Hthis1. }
      assert (Hrest : ∀ c v, (c, v) ∈ requests →
                Status.cdev_status_map (Status.set_cdev_status_map <[c0 := req]> st) !! c
                = Some v).
      { intros c v Hc. simpl. rewrite lookup_insert_ne; [by apply Hrequests; right|].
        intros ->. apply Hc0. apply list_elem_of_fmap. by exists (c, v). }
      destruct (IH _ out' this2 this' _ Hnodup Hst2 Hrest H)
        as (st' & Hst' & Hpid & Hhard & Hrel & Hprofile & Hothers & Hout & Hin).
      destruct (Hout c0 Hc0) as [Hmap0 Hreg0].
      exists st'. split_and!; try done.
      * intros other Hother. by rewrite Hothers, Hothers2.
      * intros c Hc. cbn [fmap list_fmap fst] in Hc.
        destruct (Hout c ltac:(set_solver)) as [Hmap Hreg].
        rewrite Hmap, Hreg, Hreg2. simpl.
        rewrite !lookup_insert_ne by set_solver. done.
      * intros c previous [[= -> ->]|Hc]%elem_of_cons.
        -- exists req. split_and!; [done| |done|].
           ++ rewrite Hmap0. simpl. apply lookup_insert_eq.
           ++ intros _. exists votes, (VoteSet.insert req erased).
              split_and!; [done| |].
              ** rewrite Hreg0, Hreg2. apply lookup_insert_eq.
              ** rewrite VoteSet_insert_perm.
                 rewrite (VoteSet_erase_found_perm _ _ _ Herased). apply perm_swap.
        -- assert (Hcne : c ≠ c0).
           { intros ->. apply Hc0. apply list_elem_of_fmap. by exists (c0, previous). }
           destruct (Hin c previous Hc) as (request & Hreq & Hmap & Hsame & Hdiff).
           exists request. split_and!; [done|done| |].
           ++ intros Hp. rewrite (Hsame Hp), Hreg2. by apply lookup_insert_ne.
           ++ intros Hp. destruct (Hdiff Hp) as (vs & vs' & Hvs & Hvs' & Hperm).
              exists vs, vs'. split_and!; [|done|done].
              rewrite Hreg2 in Hvs. by rewrite lookup_insert_ne in Hvs.
Qed.

(** C2, as amended.  In every state that the controller reaches by
    registrations, clearings, control ticks and combinations of requests,
    the bindings that are combined having no negative ceiling
    ([ceilings_ok]): a CDEV for which a sensor has recorded a request can be
    queried, and its maximum is the maximum of the requests that the sensors
    have recorded for it; a CDEV without a recorded request is reported as
    absent.  A call of [computeCoolingDevicesRequest] for a registered sensor
    replaces the recorded request of each CDEV of the sensor by the final
    request of that CDEV, in [cdev_status_map] and as a vote of the registry,
    and leaves the other CDEVs and the other sensors as they were; it appends
    a CDEV to [cooling_devices_to_update] if and only if it has changed the
    maximum of that CDEV in the registry; and, the binding having no negative
    ceiling, the maximum of every CDEV is again the maximum of the recorded
    requests after the call. *)
Theorem registry_max_and_notification (this : ThermalThrottling) :
  reachable_with ceilings_ok this →
  (∀ cdev, recorded_votes cdev this ≠ [] →
           ∃ m, getCdevMaxRequest cdev 0 this = Some (true, m)
                ∧ is_max m (recorded_votes cdev this))
  ∧ (∀ cdev max_state, recorded_votes cdev this = [] →
                       getCdevMaxRequest cdev max_state this = Some (false, max_state))
  ∧ (∀ sensor_name sensor_info curr cooling_devices_to_update updated this',
       computeCoolingDevicesRequest sensor_name sensor_info curr
         cooling_devices_to_update this = Some (updated, this') →
       (∀ st, thermal_throttling_status_map_ this !! sensor_name = Some st →
          ∃ ti st',
            throttling_info sensor_info = Some ti
            ∧ thermal_throttling_status_map_ this' !! sensor_name = Some st'
            ∧ (∀ cdev previous, Status.cdev_status_map st !! cdev = Some previous →
                 ∃ request votes votes',
                   combined_request (active_binding ti (Status.profile st)) curr st cdev
                   = Some request
                   ∧ Status.cdev_status_map st' !! cdev = Some request
                   ∧ cdev_all_request_map_ this !! cdev = Some votes
                   ∧ cdev_all_request_map_ this' !! cdev = Some votes'
                   ∧ previous :: votes' ≡ₚ request :: votes)
            ∧ (∀ cdev, Status.cdev_status_map st !! cdev = None →
                 Status.cdev_status_map st' !! cdev = None
                 ∧ cdev_all_request_map_ this' !! cdev
                   = cdev_all_request_map_ this !! cdev)
            ∧ (∀ other, other ≠ sensor_name →
                 thermal_throttling_status_map_ this' !! other
                 = thermal_throttling_status_map_ this !! other))
       ∧ (∃ added, updated = cooling_devices_to_update ++ added
            ∧ ∀ cdev, cdev ∈ added
                      ↔ getCdevMaxRequest cdev 0 this' ≠ getCdevMaxRequest cdev 0 this)
       ∧ (ceilings_ok sensor_info →
          ∀ cdev, recorded_votes cdev this' ≠ [] →
                  ∃ m, getCdevMaxRequest cdev 0 this' = Some (true, m)
                       ∧ is_max m (recorded_votes cdev this'))).
Proof.
  intros Hreach. apply reachable_registry_inv in Hreach.
  split_and!.
  - intros cdev. by apply registry_inv_recorded_max.
  - intros cdev max_state Hrec. by apply registry_inv_recorded_max.
  - intros sensor_name sensor_info curr out out' this' Hcompute.
    split_and!.
    + intros st Hst.
      unfold computeCoolingDevicesRequest in Hcompute. rewrite Hst in Hcompute.
      destruct (throttling_info sensor_info) as [ti|]; [|done].
      cbn [mbind option_bind] in Hcompute.
      eapply cooling_devices_request_loop_replaces in Hcompute
        as (st' & Hst' & _ & _ & _ & _ & Hothers & Hout & Hin);
        [|apply NoDup_fst_map_to_list|exact Hst
         |by intros c v ?%elem_of_map_to_list].
      exists ti, st'. split_and!; try done.
      * intros cdev previous Hprevious.
        destruct (Hin cdev previous) as (request & Hreq & Hmap & Hsame & Hdiff);
          [by apply elem_of_map_to_list|].
        destruct (decide (previous = request)) as [Heq|Hne].
        -- assert (Hsome : is_Some (cdev_all_request_map_ this !! cdev)).
           { destruct Hreach as (_ & Hdom & _). apply Hdom. intros Hnil.
             pose proof (recorded_votes_split cdev sensor_name this) as Hp.
             rewrite Hnil, (status_ref_lookup _ _ _ Hst), Hprevious in Hp.
             simpl in Hp. by apply Permutation_nil_cons in Hp. }
           destruct Hsome as [votes Hvotes].
           exists request, votes, votes. split_and!; try done.
           ++ by rewrite (Hsame Heq).
           ++ by rewrite Heq.
        -- destruct (Hdiff Hne) as (votes & votes' & ? & ? & ?).
           by exists request, votes, votes'.
      * intros cdev Hnone. rewrite <- Hnone. apply Hout. intros Hc.
        apply list_elem_of_fmap in Hc as ([c v] & -> & Hcv).
        apply elem_of_map_to_list in Hcv. simpl in Hnone. congruence.
    + unfold computeCoolingDevicesRequest in Hcompute.
      destruct (thermal_throttling_status_map_ this !! sensor_name) as [st|].
      * destruct (throttling_info sensor_info) as [ti|]; [|done].
        cbn [mbind option_bind] in Hcompute.
        apply cooling_devices_request_loop_notify in Hcompute
          as (added & -> & Hadded & Hother); [|apply NoDup_fst_map_to_list].
        exists added. split; [done|].
        intros cdev. rewrite Hadded. split; [by intros [_ ?]|].
        intros Hchanged. split; [|done].
        destruct (decide (cdev ∈ (map_to_list (Status.cdev_status_map st)).*1)); [done|].
        exfalso. apply Hchanged. apply getCdevMaxRequest_ext. by apply Hother.
      * injection Hcompute as <- <-. exists []. rewrite app_nil_r. split; [done|].
        intros cdev. split; [by intros ?%elem_of_nil | done].
    + intros Hok cdev. apply registry_inv_recorded_max.
      by eapply computeCoolingDevicesRequest_inv.
Qed.

Lemma skin_ceilings_ok : ceilings_ok Example.skin.
Proof.
  intros ti profile cdev info severity [= <-] Hinfo.
  unfold active_binding in Hinfo. simpl in Hinfo.
  destruct (String.eqb cdev "cpu"); [|done]. injection Hinfo as <-.
  destruct severity; vm_compute; done.
Qed.

Lemma voted_reachable : reachable_with ceilings_ok Example.voted.
Proof.
  unfold reachable_with.
  eapply rtc_l; [apply (step_register ceilings_ok "skin" (Some Example.skin_info)
                          Example.cooling_devices initial)|].
  eapply rtc_l; [eapply (step_update ceilings_ok "" Example.skin_50 Example.skin MODERATE
                           1000 ∅ Example.cooling_devices false []); apply ticked_status|].
  eapply rtc_l; [|apply rtc_refl].
  eapply (step_compute ceilings_ok "skin" Example.skin MODERATE [] ["cpu"]);
    [apply skin_ceilings_ok|].
  vm_compute. reflexivity.
Qed.

Lemma registry_max_and_notification_witness :
  (∀ cdev, recorded_votes cdev Example.voted ≠ [] →
           ∃ m, getCdevMaxRequest cdev 0 Example.voted = Some (true, m)
                ∧ is_max m (recorded_votes cdev Example.voted))
  ∧ (∀ cdev max_state, recorded_votes cdev Example.voted = [] →
                       getCdevMaxRequest cdev max_state Example.voted
                       = Some (false, max_state))
  ∧ (∀ sensor_name sensor_info curr cooling_devices_to_update updated this',
       computeCoolingDevicesRequest sensor_name sensor_info curr
         cooling_devices_to_update Example.voted = Some (updated, this') →
       (∀ st, thermal_throttling_status_map_ Example.voted !! sensor_name = Some st →
          ∃ ti st',
            throttling_info sensor_info = Some ti
            ∧ thermal_throttling_status_map_ this' !! sensor_name = Some st'
            ∧ (∀ cdev previous, Status.cdev_status_map st !! cdev = Some previous →
                 ∃ request votes votes',
                   combined_request (active_binding ti (Status.profile st)) curr st cdev
                   = Some request
                   ∧ Status.cdev_status_map st' !! cdev = Some request
                   ∧ cdev_all_request_map_ Example.voted !! cdev = Some votes
                   ∧ cdev_all_request_map_ this' !! cdev = Some votes'
                   ∧ previous :: votes' ≡ₚ request :: votes)
            ∧ (∀ cdev, Status.cdev_status_map st !! cdev = None →
                 Status.cdev_status_map st' !! cdev = None
                 ∧ cdev_all_request_map_ this' !! cdev
                   = cdev_all_request_map_ Example.voted !! cdev)
            ∧ (∀ other, other ≠ sensor_name →
                 thermal_throttling_status_map_ this' !! other
                 = thermal_throttling_status_map_ Example.voted !! other))
       ∧ (∃ added, updated = cooling_devices_to_update ++ added
            ∧ ∀ cdev, cdev ∈ added
                      ↔ getCdevMaxRequest cdev 0 this'
                        ≠ getCdevMaxRequest cdev 0 Example.voted)
       ∧ (ceilings_ok sensor_info →
          ∀ cdev, recorded_votes cdev this' ≠ [] →
                  ∃ m, getCdevMaxRequest cdev 0 this' = Some (true, m)
                       ∧ is_max m (recorded_votes cdev this'))).
Proof.
  apply (registry_max_and_notification Example.voted).
  exact voted_reachable.
Defined.

(** The call that has led to [Example.voted] has replaced the request 0 that
    the registration had recorded for [cpu] by the final request 1, in
    [cdev_status_map] and in the registry, and has reported [cpu]. *)
Example voted_replaces_vote :
  map_to_list (Status.cdev_status_map (status_ref "skin" Example.ticked)) = [("cpu", 0)]
  ∧ map_to_list (cdev_all_request_map_ Example.ticked) = [("cpu", [0])]
  ∧ combined_request (binded_cdev_info_map Example.skin_info) MODERATE
      (status_ref "skin" Example.ticked) "cpu" = Some 1
  ∧ (λ r, (r.1, map_to_list (Status.cdev_status_map (status_ref "skin" r.2)),
           map_to_list (cdev_all_request_map_ r.2)))
      <$> computeCoolingDevicesRequest "skin" Example.skin MODERATE [] Example.ticked
    = Some (["cpu"], [("cpu", 1)], [("cpu", [1])]).
Proof. vm_compute. done. Qed.

(** C2, as stated, fails: without the condition on the ceilings the maximum
    of the registry is not always the maximum of the recorded requests.  The
    sensor [frame] binds [cpu] for PID and for a hard limit, so that its
    registration inserts the vote 0 twice, and the ceiling of the binding is
    -1; the request that [computeCoolingDevicesRequest] records is -1, the
    votes are 0 and -1, and the maximum that the registry reports is 0. *)
Lemma registry_max_negative_ceiling :
  ¬ (∀ this, reachable this →
       ∀ cdev m, getCdevMaxRequest cdev 0 this = Some (true, m) →
                 is_max m (recorded_votes cdev this)).
Proof.
  intros H.
  assert (Hreach : reachable (Example.frame_voted (-1))).
  { unfold reachable, reachable_with.
    eapply rtc_l; [apply (step_register (λ _, True) "frame" (Some (Example.frame_info (-1)))
                            Example.cooling_devices initial)|].
    eapply rtc_l; [|apply rtc_refl].
    eapply (step_compute (λ _, True) "frame" (Example.frame (-1)) MODERATE [] []); [done|].
    vm_compute. reflexivity. }
  assert (Hmax : getCdevMaxRequest "cpu" 0 (Example.frame_voted (-1)) = Some (true, 0))
    by (vm_compute; reflexivity).
  destruct (H _ Hreach "cpu" 0 Hmax) as [Hin _].
  assert (Hrec : recorded_votes "cpu" (Example.frame_voted (-1)) = [-1])
    by (vm_compute; reflexivity).
  rewrite Hrec in Hin. apply list_elem_of_singleton in Hin. clear -Hin. lia.
Qed.

(** The fifth scenario of the specification, on the two sensors of the
    examples: [battery] votes 3 for [cpu] and [board] votes 0; the maximum of
    the registry is 3, and the call that has raised it to 3 has reported
    [cpu]. *)
Example two_sensors_votes :
  recorded_votes "cpu" Example.two_sensors = [0; 3]
  ∧ map_to_list (cdev_all_request_map_ Example.two_sensors) = [("cpu", [3; 0])]
  ∧ getCdevMaxRequest "cpu" 0 Example.two_sensors = Some (true, 3).
Proof. vm_compute. done. Qed.

(** A sensor that binds a CDEV for PID and for hard limits has one recorded
    request and two votes of 0 after its registration. *)
Example registration_inserts_two_votes :
  recorded_votes "cpu" (Example.frame_registered 4) = [0]
  ∧ map_to_list (cdev_all_request_map_ (Example.frame_registered 4)) = [("cpu", [0; 0])].
Proof. vm_compute. done. Qed.

(** The condition on the ceilings is needed for the first part of C2: with a
    ceiling of -1, which is no CDEV state, the request that is recorded is -1
    and the second vote of 0 remains the maximum of the registry. *)
Example negative_ceiling :
  (λ r, (recorded_votes "cpu" r.2, map_to_list (cdev_all_request_map_ r.2),
         getCdevMaxRequest "cpu" 0 r.2))
    <$> computeCoolingDevicesRequest "frame" (Example.frame (-1)) MODERATE []
          (Example.frame_registered (-1))
  = Some ([-1], [("cpu", [0; -1])], Some (true, 0)).
Proof. vm_compute. reflexivity. Qed.

(** A tick of [modem] whose allocation fails, after a tick that has given
    [cpu] a budget of 1500 mW: the requests are cleared and then derived from
    the power budgets again, so that the request of [cpu] is 1 after the
    tick. *)
Example failed_allocation_tick :
  (this ← thermalThrottlingUpdate "" Example.modem_50 Example.modem MODERATE 1000
            Example.rail_collecting Example.cooling_devices false []
            Example.modem_registered;
   '(allocated, _) ← pid_request_stage Example.modem_50 Example.modem MODERATE 1000
                       Example.rail_valid Example.cooling_devices false [] this;
   this' ← thermalThrottlingUpdate "" Example.modem_50 Example.modem MODERATE 1000
             Example.rail_valid Example.cooling_devices false [] this;
   Some (allocated,
         map_to_list (Status.pid_cdev_request_map (status_ref "modem" this)),
         map_to_list (Status.pid_cdev_request_map (status_ref "modem" this'))))
  = Some (false, [("cpu", 1)], [("cpu", 1)]).
Proof. vm_compute. reflexivity. Qed.

(** * Further properties of the controller *)

(** ** The PID target state *)

Lemma target_state_loop_range (s_power : ThrottlingArray) (curr : ThrottlingSeverity)
    (sevs : list ThrottlingSeverity) :
  ∀ acc, target_state_loop s_power curr sevs acc = acc
         ∨ ∃ s, s ∈ sevs ∧ target_state_loop s_power curr sevs acc = severity_index s.
Proof.
  induction sevs as [|s sevs IH]; intros acc; simpl; [by left|].
  destruct (F32.isnan _).
  - destruct (IH acc) as [->|(s' & Hs' & ->)]; [by left|right].
    exists s'. split; [by apply list_elem_of_further|done].
  - destruct (_ <? _)%nat.
    + right. exists s. split; [apply list_elem_of_here|done].
    + right. destruct (IH (severity_index s)) as [->|(s' & Hs' & ->)].
      * exists s. split; [apply list_elem_of_here|done].
      * exists s'. split; [by apply list_elem_of_further|done].
Qed.

Lemma severity_index_range (s : ThrottlingSeverity) :
  (severity_index s < kThrottlingSeverityCount)%nat.
Proof. unfold kThrottlingSeverityCount. destruct s; simpl; lia. Qed.

(** X1.  With [throttling_info] present, [getTargetStateOfPID] returns the
    index of a severity: the target state is below [kThrottlingSeverityCount]
    and indexes the per-severity arrays in range. *)
Theorem getTargetStateOfPID_in_range (sensor_info : SensorInfo) (ti : ThrottlingInfo)
    (curr_severity : ThrottlingSeverity) :
  throttling_info sensor_info = Some ti →
  ∃ severity,
    getTargetStateOfPID sensor_info curr_severity = Some (severity_index severity)
    ∧ (severity_index severity < kThrottlingSeverityCount)%nat.
Proof.
  intros Hti. unfold getTargetStateOfPID. rewrite Hti.
  change (∃ severity,
    Some (target_state_loop (s_power ti) curr_severity enum_range 0%nat)
    = Some (severity_index severity)
    ∧ (severity_index severity < kThrottlingSeverityCount)%nat).
  destruct (target_state_loop_range (s_power ti) curr_severity enum_range 0%nat)
    as [->|(s & _ & ->)].
  - exists NONE. split; [done|apply severity_index_range].
  - exists s. split; [done|apply severity_index_range].
Qed.

Lemma getTargetStateOfPID_in_range_witness :
  ∃ severity,
    getTargetStateOfPID Example.every_level_sensor LIGHT = Some (severity_index severity)
    ∧ (severity_index severity < kThrottlingSeverityCount)%nat.
Proof.
  apply (getTargetStateOfPID_in_range Example.every_level_sensor Example.every_level LIGHT).
  reflexivity.
Defined.

(** X2.  [getTargetStateOfPID] is monotone in the current severity: a higher
    severity never gives a lower target state. *)
Theorem getTargetStateOfPID_monotone (sensor_info : SensorInfo) (ti : ThrottlingInfo)
    (curr curr' : ThrottlingSeverity) :
  throttling_info sensor_info = Some ti →
  sev_le curr curr' →
  ∃ t t', getTargetStateOfPID sensor_info curr = Some t
          ∧ getTargetStateOfPID sensor_info curr' = Some t'
          ∧ (t <= t')%nat.
Proof.
  intros Hti Hle. unfold getTargetStateOfPID. rewrite Hti.
  exists (target_state_loop (s_power ti) curr enum_range 0%nat),
         (target_state_loop (s_power ti) curr' enum_range 0%nat).
  split; [done|]. split; [done|].
  revert Hle. unfold sev_le, enum_range, target_state_loop.
  generalize (F32.isnan (fat (s_power ti) (severity_index NONE))).
  generalize (F32.isnan (fat (s_power ti) (severity_index LIGHT))).
  generalize (F32.isnan (fat (s_power ti) (severity_index MODERATE))).
  generalize (F32.isnan (fat (s_power ti) (severity_index SEVERE))).
  generalize (F32.isnan (fat (s_power ti) (severity_index CRITICAL))).
  generalize (F32.isnan (fat (s_power ti) (severity_index EMERGENCY))).
  generalize (F32.isnan (fat (s_power ti) (severity_index SHUTDOWN))).
  intros b6 b5 b4 b3 b2 b1 b0.
  destruct curr, curr'; simpl; try lia; intros _;
    destruct b0, b1, b2, b3, b4, b5, b6; simpl; lia.
Qed.

Lemma getTargetStateOfPID_monotone_witness :
  ∃ t t', getTargetStateOfPID Example.every_level_sensor LIGHT = Some t
          ∧ getTargetStateOfPID Example.every_level_sensor SEVERE = Some t'
          ∧ (t <= t')%nat.
Proof.
  apply (getTargetStateOfPID_monotone Example.every_level_sensor Example.every_level
           LIGHT SEVERE).
  - reflexivity.
  - unfold sev_le. simpl. lia.
Defined.

(** ** The registry *)

Lemma VoteSet_erase_found_elem_of (x : Z) (s : list Z) :
  is_Some (VoteSet.erase_found x s) ↔ x ∈ s.
Proof.
  split; [|apply VoteSet_erase_found_is_Some].
  intros [s' Hs']. apply VoteSet_erase_found_perm in Hs'. rewrite Hs'.
  apply list_elem_of_here.
Qed.

Lemma VoteSet_first_insert (x : Z) (s : list Z) : is_Some (VoteSet.first (VoteSet.insert x s)).
Proof. destruct s as [|y s]; simpl; [eauto|]. destruct (x <=? y); simpl; eauto. Qed.

#[local] Instance ge_antisymm : AntiSymm (=) (λ a b : Z, b ≤ a).
Proof. intros a b ? ?. lia. Qed.

(** X3.  [updateCdevMaxRequestAndNotifyIfChange] has a defined result exactly
    when the registry has an entry for the CDEV and that entry holds the vote
    to replace: otherwise [at] throws or [erase] is given [end()]. *)
Theorem updateCdevMaxRequestAndNotifyIfChange_defined (cdev_name : string)
    (cur_request new_request : Z) (this : ThermalThrottling) :
  is_Some (updateCdevMaxRequestAndNotifyIfChange cdev_name cur_request new_request this)
  ↔ ∃ request_set, cdev_all_request_map_ this !! cdev_name = Some request_set
                   ∧ cur_request ∈ request_set.
Proof.
  unfold updateCdevMaxRequestAndNotifyIfChange.
  destruct (cdev_all_request_map_ this !! cdev_name) as [request_set|] eqn:Hset; simpl.
  - split.
    + intros [r Hr]. exists request_set. split; [done|].
      apply VoteSet_erase_found_elem_of.
      destruct (VoteSet.first request_set); simpl in Hr; [|done].
      destruct (VoteSet.erase_found cur_request request_set); [eauto|done].
    + intros (s & [= <-] & Hin).
      destruct request_set as [|m request_set]; [by apply elem_of_nil in Hin|]. simpl.
      destruct (proj2 (VoteSet_erase_found_elem_of cur_request (m :: request_set)) Hin)
        as [erased Herased].
      simpl in Herased. rewrite Herased. simpl.
      destruct (VoteSet_first_insert new_request erased) as [m' ->]. simpl. eauto.
  - split; [by intros [? ?]|by intros (? & ? & ?)].
Qed.

(** X4.  On votes kept in descending order, replacing a vote and then
    replacing the new vote by the old one restores the registry, and the two
    calls return the same flag. *)
Theorem updateCdevMaxRequestAndNotifyIfChange_undo (cdev_name : string)
    (cur_request new_request : Z) (request_set : list Z) (notify : bool)
    (this this' : ThermalThrottling) :
  cdev_all_request_map_ this !! cdev_name = Some request_set →
  StronglySorted (λ a b, b ≤ a) request_set →
  updateCdevMaxRequestAndNotifyIfChange cdev_name cur_request new_request this
  = Some (notify, this') →
  updateCdevMaxRequestAndNotifyIfChange cdev_name new_request cur_request this'
  = Some (notify, this).
Proof.
  intros Hset Hsorted Hupd.
  unfold updateCdevMaxRequestAndNotifyIfChange in *. rewrite Hset in Hupd. simpl in Hupd.
  destruct (VoteSet.first request_set) as [m|] eqn:Hm; [|done]. simpl in Hupd.
  destruct (VoteSet.erase_found cur_request request_set) as [erased|] eqn:He; [|done].
  simpl in Hupd.
  destruct (VoteSet.first (VoteSet.insert new_request erased)) as [m'|] eqn:Hm'; [|done].
  simpl in Hupd. injection Hupd as <- <-. simpl.
  rewrite lookup_insert_eq. simpl. rewrite Hm'. simpl.
  assert (Hsorted_e : StronglySorted (λ a b, b ≤ a) erased)
    by by eapply VoteSet_erase_found_sorted.
  assert (Hin : new_request ∈ VoteSet.insert new_request erased).
  { rewrite VoteSet_insert_perm. apply list_elem_of_here. }
  destruct (VoteSet_erase_found_is_Some _ _ Hin) as [erased' He']. rewrite He'. simpl.
  assert (Hback : VoteSet.insert cur_request erased' = request_set).
  { apply (StronglySorted_unique (λ a b, b ≤ a)).
    - apply VoteSet_insert_sorted. eapply VoteSet_erase_found_sorted; [|exact He'].
      by apply VoteSet_insert_sorted.
    - done.
    - rewrite VoteSet_insert_perm.
      apply VoteSet_erase_found_perm in He, He'.
      rewrite VoteSet_insert_perm in He'.
      apply (inj (cons new_request)) in He'. by rewrite <- He', <- He. }
  rewrite Hback, Hm. simpl. f_equal. f_equal.
  - destruct (m' =? m) eqn:E1, (m =? m') eqn:E2; try done; lia.
  - destruct this as [statuses registry]. simpl in *. f_equal.
    rewrite insert_insert_eq. by apply insert_id.
Qed.

Lemma updateCdevMaxRequestAndNotifyIfChange_undo_witness :
  updateCdevMaxRequestAndNotifyIfChange "cpu" 3 1
    (default initial
       (snd <$> updateCdevMaxRequestAndNotifyIfChange "cpu" 1 3 Example.voted))
  = Some (true, Example.voted).
Proof.
  apply (updateCdevMaxRequestAndNotifyIfChange_undo "cpu" 1 3 [1] true Example.voted).
  - vm_compute. reflexivity.
  - repeat constructor.
  - vm_compute. reflexivity.
Defined.

(** ** Registration, clearing and the profile *)

Lemma register_loop_succeeds (name : string) (cmap : gmap string CdevInfo)
    (binded : BindedCdevInfoMap) (this : ThermalThrottling) :
  fst (register_loop name cmap binded this) = true
  ↔ ∀ cdev info, (cdev, info) ∈ binded → is_Some (cmap !! cdev).
Proof.
  revert this. induction binded as [|[c i] binded IH]; intros this; simpl.
  - split; [|done]. intros _ cdev info Hin. by apply elem_of_nil in Hin.
  - destruct (cmap !! c) eqn:Hc.
    + rewrite IH. split.
      * intros H cdev info Hin.
        apply elem_of_cons in Hin as [[= -> ->]|Hin]; [by rewrite Hc|eauto].
      * intros H cdev info Hin. apply (H cdev info). by apply list_elem_of_further.
    + simpl. split; [done|]. intros H.
      destruct (H c i (list_elem_of_here _ _)) as [? ?]. congruence.
Qed.

(** X5.  [registerThermalThrottling] returns true exactly when the sensor has
    no status yet, [throttling_info] is not null and every CDEV of
    [binded_cdev_info_map] is in the cooling-device map. *)
Theorem registerThermalThrottling_succeeds_iff (sensor_name : string)
    (throttling_info : option ThrottlingInfo)
    (cooling_device_info_map : gmap string CdevInfo) (this : ThermalThrottling) :
  fst (registerThermalThrottling sensor_name throttling_info cooling_device_info_map this)
  = true
  ↔ thermal_throttling_status_map_ this !! sensor_name = None
    ∧ ∃ ti, throttling_info = Some ti
            ∧ ∀ cdev info, (cdev, info) ∈ binded_cdev_info_map ti →
                           is_Some (cooling_device_info_map !! cdev).
Proof.
  unfold registerThermalThrottling.
  destruct (thermal_throttling_status_map_ this !! sensor_name) as [st|].
  - simpl. split; [done|]. by intros [? _].
  - destruct throttling_info as [ti|].
    + rewrite register_loop_succeeds. split.
      * intros H. split; [done|]. by exists ti.
      * by intros (_ & ti' & [= <-] & H).
    + simpl. split; [done|]. by intros (_ & ? & ? & _).
Qed.

Lemma existsb_power_threshold (info : BindedCdevInfo) :
  negb (String.eqb (power_rail info) "")
  && existsb (λ power_threshold, negb (F32.isnan power_threshold)) (power_thresholds info)
  = true
  ↔ has_release_threshold info.
Proof.
  unfold has_release_threshold, has_power_threshold.
  rewrite andb_true_iff, negb_true_iff, string_eqb_empty, existsb_elem_of.
  split; intros [Hr (w & Hw & Hn)]; (split; [done|]); exists w; split; auto;
    by apply negb_true_iff.
Qed.

(** The request maps of the sensor after the three registration blocks of one
    binding. *)
Lemma register_blocks_maps (name cdev : string) (info : BindedCdevInfo)
    (this : ThermalThrottling) :
  let st := status_ref name this in
  let st' := status_ref name
               (register_release name cdev info
                  (register_hardlimit name cdev info (register_pid name cdev info this))) in
  let pid := existsb (λ w, negb (F32.isnan w)) (cdev_weight_for_pid info) in
  let hard := existsb (λ limit, 0 <? limit) (limit_info info) in
  let release := negb (String.eqb (power_rail info) "")
                 && existsb (λ p, negb (F32.isnan p)) (power_thresholds info) in
  Status.pid_cdev_request_map st'
  = (if pid then <[cdev := 0]> (Status.pid_cdev_request_map st)
     else Status.pid_cdev_request_map st)
  ∧ Status.pid_power_budget_map st'
    = (if pid then <[cdev := F32.INT_MAX]> (Status.pid_power_budget_map st)
       else Status.pid_power_budget_map st)
  ∧ Status.hardlimit_cdev_request_map st'
    = (if hard then <[cdev := 0]> (Status.hardlimit_cdev_request_map st)
       else Status.hardlimit_cdev_request_map st)
  ∧ Status.throttling_release_map st'
    = (if release then <[cdev := 0]> (Status.throttling_release_map st)
       else Status.throttling_release_map st).
Proof.
  unfold register_release, register_hardlimit, register_pid.
  destruct (existsb _ (cdev_weight_for_pid info)), (existsb _ (limit_info info)),
    (String.eqb (power_rail info) ""), (existsb _ (power_thresholds info)); simpl;
    rewrite ?status_ref_with_status, ?status_ref_vote_insert; simpl;
    rewrite ?status_ref_with_status, ?status_ref_vote_insert; simpl;
    rewrite ?status_ref_with_status, ?status_ref_vote_insert; simpl;
    rewrite ?status_ref_with_status, ?status_ref_vote_insert; simpl; done.
Qed.

Lemma bound_with_nil (P : BindedCdevInfo → Prop) (c : string) : ¬ bound_with P [] c.
Proof. intros (? & H & _). by apply elem_of_nil in H. Qed.

Lemma bound_with_cons (P : BindedCdevInfo → Prop) (cdev c : string) (info : BindedCdevInfo)
    (binded : BindedCdevInfoMap) :
  bound_with P ((cdev, info) :: binded) c ↔ (c = cdev ∧ P info) ∨ bound_with P binded c.
Proof.
  unfold bound_with. split.
  - intros (i & Hin & HP). apply elem_of_cons in Hin as [[= -> ->]|Hin]; eauto.
  - intros [[-> HP]|(i & Hin & HP)]; eauto using list_elem_of_here, list_elem_of_further.
Qed.

Lemma bound_with_dec (f : BindedCdevInfo → bool) (binded : BindedCdevInfoMap) (c : string) :
  bound_with (λ info, f info = true) binded c ∨ ¬ bound_with (λ info, f info = true) binded c.
Proof.
  induction binded as [|[cdev info] binded IH].
  - right. apply bound_with_nil.
  - rewrite bound_with_cons. destruct IH as [IH|IH]; [auto|].
    destruct (decide (c = cdev)) as [->|Hne], (f info) eqn:Hf; naive_solver.
Qed.

Lemma bound_with_iff (P Q : BindedCdevInfo → Prop) (binded : BindedCdevInfoMap) (c : string) :
  (∀ info, P info ↔ Q info) → bound_with P binded c ↔ bound_with Q binded c.
Proof. intros H. unfold bound_with. naive_solver. Qed.

Lemma filled_nil {V} (P : BindedCdevInfo → Prop) (v : V) (m : gmap string V) :
  filled P [] v m m.
Proof. intros c. split; [|done]. intros H. by apply bound_with_nil in H. Qed.

Lemma filled_cons {V} (P : BindedCdevInfo → Prop) (f : BindedCdevInfo → bool)
    (cdev : string) (info : BindedCdevInfo) (binded : BindedCdevInfoMap) (v : V)
    (m m' : gmap string V) :
  (∀ info, f info = true ↔ P info) →
  filled P binded v (if f info then <[cdev := v]> m else m) m' →
  filled P ((cdev, info) :: binded) v m m'.
Proof.
  intros Hf Hfilled c. destruct (Hfilled c) as [Hyes Hno].
  rewrite bound_with_cons.
  assert (Hdec : bound_with P binded c ∨ ¬ bound_with P binded c).
  { rewrite <- (bound_with_iff _ _ binded c Hf). apply bound_with_dec. }
  destruct Hdec as [Hbound|Hbound].
  - split; [auto|]. intros H. destruct H. by right.
  - rewrite (Hno Hbound). split.
    + intros [[-> HP]|?]; [|done]. apply Hf in HP. rewrite HP. apply lookup_insert_eq.
    + intros H. destruct (f info) eqn:Hfi; [|done].
      apply lookup_insert_ne. intros <-. apply H. left. split; [done|by apply Hf].
Qed.

Lemma register_loop_maps (name : string) (cmap : gmap string CdevInfo)
    (binded : BindedCdevInfoMap) :
  ∀ this this',
    register_loop name cmap binded this = (true, this') →
    let st := status_ref name this in
    let st' := status_ref name this' in
    filled has_pid_weight binded 0
      (Status.pid_cdev_request_map st) (Status.pid_cdev_request_map st')
    ∧ filled has_pid_weight binded F32.INT_MAX
        (Status.pid_power_budget_map st) (Status.pid_power_budget_map st')
    ∧ filled has_hard_limit binded 0
        (Status.hardlimit_cdev_request_map st) (Status.hardlimit_cdev_request_map st')
    ∧ filled has_release_threshold binded 0
        (Status.throttling_release_map st) (Status.throttling_release_map st').
Proof.
  pose (f_pid := λ info, existsb (λ w, negb (F32.isnan w)) (cdev_weight_for_pid info)).
  pose (f_hard := λ info, existsb (λ limit, 0 <? limit) (limit_info info)).
  pose (f_release := λ info,
          negb (String.eqb (power_rail info) "")
          && existsb (λ p, negb (F32.isnan p)) (power_thresholds info)).
  induction binded as [|[cdev info] binded IH]; intros this this' Hloop; simpl in Hloop.
  - injection Hloop as <-. simpl. split_and!; apply filled_nil.
  - destruct (cmap !! cdev); [|done].
    destruct (IH _ _ Hloop) as (H1 & H2 & H3 & H4).
    destruct (register_blocks_maps name cdev info this) as (E1 & E2 & E3 & E4).
    rewrite E1 in H1. rewrite E2 in H2. rewrite E3 in H3. rewrite E4 in H4.
    simpl. split_and!.
    + by apply (filled_cons _ f_pid); [apply existsb_pid_weight|].
    + by apply (filled_cons _ f_pid); [apply existsb_pid_weight|].
    + by apply (filled_cons _ f_hard); [apply existsb_hard_limit|].
    + by apply (filled_cons _ f_release); [apply existsb_power_threshold|].
Qed.

(** X6.  After a successful registration of a new sensor: the PID request
    is 0 and the power budget is [INT_MAX] for exactly the bound CDEVs with a
    PID weight that is not NaN at some severity; the hard-limit request is 0
    for exactly those with a positive limit at some severity; the release
    step is 0 for exactly those with a power rail and a power threshold that
    is not NaN at some severity. *)
Theorem registered_request_maps (sensor_name : string) (ti : ThrottlingInfo)
    (cooling_device_info_map : gmap string CdevInfo) (this this' : ThermalThrottling) :
  thermal_throttling_status_map_ this !! sensor_name = None →
  registerThermalThrottling sensor_name (Some ti) cooling_device_info_map this
  = (true, this') →
  let st' := status_ref sensor_name this' in
  let binded := binded_cdev_info_map ti in
  filled has_pid_weight binded 0 ∅ (Status.pid_cdev_request_map st')
  ∧ filled has_pid_weight binded F32.INT_MAX ∅ (Status.pid_power_budget_map st')
  ∧ filled has_hard_limit binded 0 ∅ (Status.hardlimit_cdev_request_map st')
  ∧ filled has_release_threshold binded 0 ∅ (Status.throttling_release_map st').
Proof.
  intros Hnew Hreg. unfold registerThermalThrottling in Hreg. rewrite Hnew in Hreg.
  apply register_loop_maps in Hreg. destruct Hreg as (H1 & H2 & H3 & H4).
  assert (E : status_ref sensor_name this = Status.empty)
    by (unfold status_ref; by rewrite Hnew).
  rewrite status_ref_with_status, E in H1, H2, H3, H4. done.
Qed.

Lemma registered_request_maps_witness :
  let st' := status_ref "skin" Example.registered in
  let binded := binded_cdev_info_map Example.skin_info in
  filled has_pid_weight binded 0 ∅ (Status.pid_cdev_request_map st')
  ∧ filled has_pid_weight binded F32.INT_MAX ∅ (Status.pid_power_budget_map st')
  ∧ filled has_hard_limit binded 0 ∅ (Status.hardlimit_cdev_request_map st')
  ∧ filled has_release_threshold binded 0 ∅ (Status.throttling_release_map st').
Proof.
  apply (registered_request_maps "skin" Example.skin_info Example.cooling_devices
           initial Example.registered).
  - reflexivity.
  - vm_compute. reflexivity.
Defined.

Lemma registration_frame_refl (name : string) (this : ThermalThrottling) :
  registration_frame name this this.
Proof.
  split_and!; [done| |done]. intros cdev. exists 0%nat. simpl. by rewrite app_nil_r.
Qed.

Lemma registration_frame_trans (name : string) (this1 this2 this3 : ThermalThrottling) :
  registration_frame name this1 this2 → registration_frame name this2 this3 →
  registration_frame name this1 this3.
Proof.
  intros (A1 & B1 & C1) (A2 & B2 & C2). split_and!.
  - intros other Hne. by rewrite A2, A1.
  - intros cdev. destruct (B1 cdev) as [k1 H1], (B2 cdev) as [k2 H2].
    exists (k1 + k2)%nat. rewrite H2, H1, <- app_assoc. by rewrite replicate_add.
  - auto.
Qed.

Lemma registration_frame_with_status (name : string) (f : Status.t → Status.t)
    (this : ThermalThrottling) :
  registration_frame name this (with_status name f this).
Proof.
  split_and!.
  - intros other Hne. by apply lookup_with_status_ne.
  - intros cdev. exists 0%nat. simpl. by rewrite app_nil_r.
  - done.
Qed.

Lemma registration_frame_vote_insert (name cdev : string) (this : ThermalThrottling) :
  registration_frame name this (vote_insert cdev 0 this).
Proof.
  split_and!.
  - done.
  - intros c. unfold votes_of, vote_insert. simpl.
    destruct (decide (cdev = c)) as [->|Hne].
    + exists 1%nat. rewrite lookup_insert_eq. simpl.
      rewrite VoteSet_insert_perm. by rewrite (Permutation_app_comm _ [0]).
    + exists 0%nat. rewrite lookup_insert_ne by done. simpl. by rewrite app_nil_r.
  - intros c Hc. unfold vote_insert. simpl.
    destruct (decide (cdev = c)) as [->|Hne];
      [rewrite lookup_insert_eq; eauto|by rewrite lookup_insert_ne].
Qed.

Lemma registration_frame_blocks (name cdev : string) (info : BindedCdevInfo)
    (this : ThermalThrottling) :
  registration_frame name this
    (register_release name cdev info
       (register_hardlimit name cdev info (register_pid name cdev info this))).
Proof.
  unfold register_release, register_hardlimit, register_pid.
  repeat case_match;
    repeat first
      [ apply registration_frame_refl
      | (eapply registration_frame_trans; [|apply registration_frame_with_status])
      | (eapply registration_frame_trans; [|apply registration_frame_vote_insert]) ].
Qed.

Lemma registration_frame_loop (name : string) (cmap : gmap string CdevInfo)
    (binded : BindedCdevInfoMap) :
  ∀ this, registration_frame name this (snd (register_loop name cmap binded this)).
Proof.
  induction binded as [|[cdev info] binded IH]; intros this; simpl.
  - apply registration_frame_refl.
  - destruct (cmap !! cdev); [|apply registration_frame_refl].
    eapply registration_frame_trans; [apply registration_frame_blocks|apply IH].
Qed.

(** X7.  A registration, successful or not, leaves the statuses of the other
    sensors as they were, removes no CDEV and no vote from the registry, and
    adds only votes of 0. *)
Theorem registerThermalThrottling_frame (sensor_name : string)
    (throttling_info : option ThrottlingInfo)
    (cooling_device_info_map : gmap string CdevInfo) (this : ThermalThrottling) :
  registration_frame sensor_name this
    (snd (registerThermalThrottling sensor_name throttling_info cooling_device_info_map
            this)).
Proof.
  unfold registerThermalThrottling.
  destruct (thermal_throttling_status_map_ this !! sensor_name);
    [apply registration_frame_refl|].
  destruct throttling_info as [ti|]; [|apply registration_frame_refl].
  eapply registration_frame_trans;
    [apply registration_frame_with_status|apply registration_frame_loop].
Qed.

Lemma status_ext (s s' : Status.t) :
  Status.pid_power_budget_map s = Status.pid_power_budget_map s' →
  Status.pid_cdev_request_map s = Status.pid_cdev_request_map s' →
  Status.hardlimit_cdev_request_map s = Status.hardlimit_cdev_request_map s' →
  Status.throttling_release_map s = Status.throttling_release_map s' →
  Status.cdev_status_map s = Status.cdev_status_map s' →
  Status.prev_err s = Status.prev_err s' →
  Status.i_budget s = Status.i_budget s' →
  Status.prev_target s = Status.prev_target s' →
  Status.prev_power_budget s = Status.prev_power_budget s' →
  Status.budget_transient s = Status.budget_transient s' →
  Status.tran_cycle s = Status.tran_cycle s' →
  Status.profile s = Status.profile s' →
  s = s'.
Proof. destruct s, s'. simpl. intros. by subst. Qed.

Lemma cleared_status_idempotent (s : Status.t) :
  cleared_status (cleared_status s) = cleared_status s.
Proof.
  apply status_ext;
    lazy beta iota delta
      [cleared_status Status.set_tran_cycle Status.set_prev_power_budget
       Status.set_prev_target Status.set_i_budget Status.set_prev_err
       Status.set_throttling_release_map Status.set_hardlimit_cdev_request_map
       Status.set_pid_cdev_request_map Status.set_pid_power_budget_map
       Status.pid_power_budget_map Status.pid_cdev_request_map
       Status.hardlimit_cdev_request_map Status.throttling_release_map
       Status.cdev_status_map Status.prev_err Status.i_budget Status.prev_target
       Status.prev_power_budget Status.budget_transient Status.tran_cycle Status.profile];
    try reflexivity; by rewrite <- map_fmap_compose.
Qed.

Lemma clearThrottlingData_cleared_status (sensor_name : string) (this : ThermalThrottling) :
  clearThrottlingData sensor_name this
  = match thermal_throttling_status_map_ this !! sensor_name with
    | None => this
    | Some _ => with_status sensor_name cleared_status this
    end.
Proof. reflexivity. Qed.

Lemma with_status_with_status (name : string) (f g : Status.t → Status.t)
    (this : ThermalThrottling) :
  with_status name f (with_status name g this) = with_status name (λ s, f (g s)) this.
Proof.
  unfold with_status at 1 3. rewrite status_ref_with_status.
  unfold with_status. cbn [thermal_throttling_status_map_ cdev_all_request_map_].
  by rewrite insert_insert_eq.
Qed.

(** X8.  [clearThrottlingData] is idempotent. *)
Theorem clearThrottlingData_idempotent (sensor_name : string) (this : ThermalThrottling) :
  clearThrottlingData sensor_name (clearThrottlingData sensor_name this)
  = clearThrottlingData sensor_name this.
Proof.
  rewrite (clearThrottlingData_cleared_status sensor_name this).
  destruct (thermal_throttling_status_map_ this !! sensor_name) as [st|] eqn:Hst.
  - rewrite clearThrottlingData_cleared_status, lookup_with_status.
    rewrite with_status_with_status. unfold with_status.
    by rewrite cleared_status_idempotent.
  - by rewrite clearThrottlingData_cleared_status, Hst.
Qed.

(** X9.  With [throttling_info] present, [parseProfileProperty] stores the
    property as the profile of the sensor when it is empty or a key of
    [profile_map], and the empty profile otherwise, and changes nothing else;
    the profile stored is always empty or a key of [profile_map]. *)
Theorem parseProfileProperty_profile (property sensor_name : string)
    (sensor_info : SensorInfo) (ti : ThrottlingInfo) (this : ThermalThrottling) :
  throttling_info sensor_info = Some ti →
  parseProfileProperty property sensor_name sensor_info this
  = with_status sensor_name
      (Status.set_profile
         (if String.eqb property "" || count property (profile_map ti)
          then property else ""))
      this
  ∧ (Status.profile
       (status_ref sensor_name
          (parseProfileProperty property sensor_name sensor_info this)) = ""
     ∨ count
         (Status.profile
            (status_ref sensor_name
               (parseProfileProperty property sensor_name sensor_info this)))
         (profile_map ti) = true).
Proof.
  intros Hti.
  assert (Heq : parseProfileProperty property sensor_name sensor_info this
                = with_status sensor_name
                    (Status.set_profile
                       (if String.eqb property "" || count property (profile_map ti)
                        then property else ""))
                    this).
  { unfold parseProfileProperty. rewrite Hti. cbn zeta.
    destruct (String.eqb property "" || count property (profile_map ti)); [|done].
    destruct (String.eqb_spec property (Status.profile (status_ref sensor_name this)))
      as [->|Hne]; cbn [negb]; [|done].
    unfold with_status. f_equal. f_equal. by destruct (status_ref sensor_name this). }
  split; [done|]. rewrite Heq, status_ref_with_status.
  destruct (String.eqb_spec property "") as [->|Hne]; cbn [orb]; [by left|].
  destruct (count property (profile_map ti)) eqn:Hcount; [by right|by left].
Qed.

Lemma parseProfileProperty_profile_witness :
  parseProfileProperty "gaming" "skin" Example.skin Example.registered
  = with_status "skin"
      (Status.set_profile
         (if String.eqb "gaming" "" || count "gaming" (profile_map Example.skin_info)
          then "gaming" else ""))
      Example.registered
  ∧ (Status.profile
       (status_ref "skin"
          (parseProfileProperty "gaming" "skin" Example.skin Example.registered)) = ""
     ∨ count
         (Status.profile
            (status_ref "skin"
               (parseProfileProperty "gaming" "skin" Example.skin Example.registered)))
         (profile_map Example.skin_info) = true).
Proof.
  apply (parseProfileProperty_profile "gaming" "skin" Example.skin Example.skin_info
           Example.registered).
  reflexivity.
Defined.

(** ** Requests, release steps and excluded power *)

Lemma power_to_state_loop_cons (budget power power' : float) (rest : list float) (i : Z) :
  power_to_state_loop budget (power :: power' :: rest) i
  = if F32.geb budget power then i
    else power_to_state_loop budget (power' :: rest) (i + 1).
Proof. reflexivity. Qed.

Lemma power_to_state_loop_spec (budget : float) (state2power : list float) :
  ∀ i, state2power ≠ [] →
    let r := power_to_state_loop budget state2power i in
    i ≤ r < i + Z.of_nat (length state2power)
    ∧ (∀ (j : nat) p, Z.of_nat j < r - i → state2power !! j = Some p →
                      F32.geb budget p = false)
    ∧ (r = i + Z.of_nat (length state2power) - 1
       ∨ ∃ p, state2power !! Z.to_nat (r - i) = Some p ∧ F32.geb budget p = true).
Proof.
  induction state2power as [|power rest IH]; intros i Hne; [done|]. cbv zeta.
  destruct rest as [|power' rest].
  - simpl. split; [lia|split; [|left; lia]]. intros j p Hj. exfalso. clear -Hj. lia.
  - rewrite power_to_state_loop_cons.
    destruct (F32.geb budget power) eqn:Hgeb.
    + split; [|split].
      * cbn [length]. lia.
      * intros j p Hj. exfalso. clear -Hj. lia.
      * right. exists power. replace (i - i) with 0 by lia. done.
    + destruct (IH (i + 1) ltac:(done)) as (Hrange & Hbefore & Hat). cbv zeta in *.
      set (r := power_to_state_loop budget (power' :: rest) (i + 1)) in *.
      split; [|split].
      * cbn [length] in *. lia.
      * intros j p Hj Hp. destruct j as [|j]; [by injection Hp as <-|].
        apply (Hbefore j p); [lia|done].
      * destruct Hat as [Hlast|(p & Hp & Hgeb')].
        -- left. cbn [length] in *. lia.
        -- right. exists p. split; [|done].
           replace (Z.to_nat (r - i)) with (S (Z.to_nat (r - (i + 1)))) by lia. done.
Qed.

(** X10.  The state that [updateCdevRequestByPower] derives from a budget, for
    a CDEV whose [state2power] is not empty: it is a state of the CDEV, the
    budget covers the power of no state before it, and it is the last state
    or a state whose power the budget covers. *)
Theorem power_to_state_first_covered (state2power : list float) (budget : Z) :
  state2power ≠ [] →
  ∃ i, power_to_state state2power budget = Some i
       ∧ 0 ≤ i < Z.of_nat (length state2power)
       ∧ (∀ j p, 0 ≤ j < i → vat state2power j = Some p →
                 F32.geb (F32.of_int budget) p = false)
       ∧ (i = Z.of_nat (length state2power) - 1
          ∨ ∃ p, vat state2power i = Some p ∧ F32.geb (F32.of_int budget) p = true).
Proof.
  intros Hne. unfold power_to_state.
  destruct state2power as [|power rest] eqn:Hs; [done|]. rewrite <- Hs in *.
  eexists. split; [reflexivity|].
  destruct (power_to_state_loop_spec (F32.of_int budget) state2power 0 Hne)
    as (Hrange & Hbefore & Hat).
  set (r := power_to_state_loop (F32.of_int budget) state2power 0) in *.
  split; [|split].
  - lia.
  - intros j p Hj. unfold vat. destruct (Z.ltb_spec j 0); [lia|].
    intros Hp. apply (Hbefore (Z.to_nat j) p); [lia|done].
  - destruct Hat as [Hlast|(p & Hp & Hgeb)]; [left; lia|right].
    exists p. split; [|done]. unfold vat. destruct (Z.ltb_spec r 0); [lia|].
    by replace (r - 0) with r in Hp by lia.
Qed.

Lemma power_to_state_first_covered_witness :
  ∃ i, power_to_state [Example.fl 2000; Example.fl 1500; Example.fl 1000] 1500 = Some i
       ∧ 0 ≤ i < Z.of_nat (length [Example.fl 2000; Example.fl 1500; Example.fl 1000])
       ∧ (∀ j p, 0 ≤ j < i →
                 vat [Example.fl 2000; Example.fl 1500; Example.fl 1000] j = Some p →
                 F32.geb (F32.of_int 1500) p = false)
       ∧ (i = Z.of_nat (length [Example.fl 2000; Example.fl 1500; Example.fl 1000]) - 1
          ∨ ∃ p, vat [Example.fl 2000; Example.fl 1500; Example.fl 1000] i = Some p
                 ∧ F32.geb (F32.of_int 1500) p = true).
Proof.
  apply (power_to_state_first_covered
           [Example.fl 2000; Example.fl 1500; Example.fl 1000] 1500).
  done.
Defined.

Lemma next_release_step_within (logic : ReleaseLogic.t) (is_over_budget : bool)
    (max_state release_step : Z) :
  0 ≤ max_state → Z.abs release_step ≤ max_state →
  Z.abs (next_release_step logic is_over_budget max_state release_step) ≤ max_state.
Proof.
  intros Hmax Hstep. unfold next_release_step.
  destruct logic, is_over_budget; cbn [negb];
    repeat match goal with
           | |- context [?a <? ?b] => destruct (Z.ltb_spec a b)
           end; lia.
Qed.

Lemma release_loop_within (sensor_name : string) (cmap : gmap string CdevInfo)
    (psm : gmap string PowerStatus) (severity : ThrottlingSeverity)
    (binded : BindedCdevInfoMap) :
  (∀ cdev cdev_info, cmap !! cdev = Some cdev_info → 0 ≤ max_state cdev_info) →
  ∀ this this' result,
    release_steps_within cmap (status_ref sensor_name this) →
    release_loop sensor_name cmap psm severity binded this = Some (result, this') →
    release_steps_within cmap (status_ref sensor_name this').
Proof.
  intros Hmax.
  induction binded as [|[cdev info] binded IH]; intros this this' result Hwithin H.
  - by injection H as <- <-.
  - cbn [release_loop] in H.
    destruct (thermal_throttling_status_map_ this !! sensor_name) as [st|] eqn:Hst; [|done].
    cbn [mbind option_bind] in H.
    rewrite (status_ref_lookup _ _ _ Hst) in Hwithin.
    destruct (Status.throttling_release_map st !! cdev) as [release_step|] eqn:Hstep;
      [|injection H as <- <-; by rewrite (status_ref_lookup _ _ _ Hst)].
    destruct (psm !! power_rail info) as [status|];
      [|injection H as <- <-; by rewrite (status_ref_lookup _ _ _ Hst)].
    destruct (cmap !! cdev) as [cdev_info|] eqn:Hinfo; [|done].
    cbn [mbind option_bind] in H.
    eapply IH; [|exact H].
    rewrite status_ref_with_status, (status_ref_lookup _ _ _ Hst).
    intros c r ci. cbn [Status.set_throttling_release_map Status.throttling_release_map].
    destruct (decide (cdev = c)) as [<-|Hne].
    + rewrite lookup_insert_eq. intros [= <-] Hci.
      assert (ci = cdev_info) as -> by congruence.
      pose proof (Hmax cdev cdev_info Hinfo) as Hm.
      pose proof (Hwithin cdev release_step cdev_info Hstep Hinfo) as Hr.
      destruct (F32.isnan (last_updated_avg_power status)
                || F32.ltb (last_updated_avg_power status) F32.zero).
      * destruct (throttling_with_power_link info); lia.
      * by apply next_release_step_within.
    + rewrite lookup_insert_ne by done. apply Hwithin.
Qed.

(** X11.  With no negative [max_state] in the cooling-device map,
    [throttlingReleaseUpdate] keeps every release step of the sensor within
    the maximum state of its CDEV, in absolute value. *)
Theorem throttlingReleaseUpdate_within (sensor_name : string)
    (cooling_device_info_map : gmap string CdevInfo)
    (power_status_map : gmap string PowerStatus) (severity : ThrottlingSeverity)
    (sensor_info : SensorInfo) (this this' : ThermalThrottling) (result : bool) :
  (∀ cdev cdev_info, cooling_device_info_map !! cdev = Some cdev_info →
                     0 ≤ max_state cdev_info) →
  release_steps_within cooling_device_info_map (status_ref sensor_name this) →
  throttlingReleaseUpdate sensor_name cooling_device_info_map power_status_map severity
    sensor_info this = Some (result, this') →
  release_steps_within cooling_device_info_map (status_ref sensor_name this').
Proof.
  intros Hmax Hwithin. unfold throttlingReleaseUpdate.
  destruct (thermal_throttling_status_map_ this !! sensor_name); [|by intros [= <- <-]].
  destruct (throttling_info sensor_info) as [ti|]; [|done].
  cbn [mbind option_bind]. by apply release_loop_within.
Qed.

Lemma throttlingReleaseUpdate_within_witness :
  release_steps_within Example.release_devices
    (status_ref "soc"
       (default initial
          (snd <$> throttlingReleaseUpdate "soc" Example.release_devices Example.gpu_power
                     MODERATE Example.release_sensor Example.release_registered))).
Proof.
  apply (throttlingReleaseUpdate_within "soc" Example.release_devices Example.gpu_power
           MODERATE Example.release_sensor Example.release_registered _ false).
  - intros cdev cdev_info Hinfo. unfold Example.release_devices in Hinfo.
    apply lookup_insert_Some in Hinfo as [[_ <-]|[_ Hinfo]]; [simpl; lia|].
    apply lookup_singleton_Some in Hinfo as [_ <-]. simpl. lia.
  - intros cdev release_step cdev_info Hstep Hinfo.
    apply elem_of_map_to_list in Hstep. rewrite release_registered_status in Hstep.
    assert (release_step = 0) as -> by set_solver.
    unfold Example.release_devices in Hinfo.
    apply lookup_insert_Some in Hinfo as [[_ <-]|[_ Hinfo]]; [simpl; lia|].
    apply lookup_singleton_Some in Hinfo as [_ <-]. simpl. lia.
  - vm_compute. reflexivity.
Defined.

Lemma excluded_power_loop_defined (excluded : list (string * ThrottlingArray))
    (curr : ThrottlingSeverity) (psm : gmap string PowerStatus) :
  ∀ acc, is_Some (excluded_power_loop excluded curr psm acc)
         ↔ ∀ rail weights, (rail, weights) ∈ excluded → is_Some (psm !! rail).
Proof.
  induction excluded as [|[rail weights] excluded IH]; intros acc; cbn [excluded_power_loop].
  - split; [|eauto]. intros _ r w Hin. by apply elem_of_nil in Hin.
  - destruct (psm !! rail) as [status|] eqn:Hrail; cbn [mbind option_bind].
    + rewrite IH. split.
      * intros H r w [[= -> ->]|Hin]%elem_of_cons; [by rewrite Hrail|eauto].
      * intros H r w Hin. apply (H r w). by apply list_elem_of_further.
    + split; [by intros [? ?]|]. intros H.
      destruct (H rail weights (list_elem_of_here _ _)) as [? ?]. congruence.
Qed.

(** X12.  [computeExcludedPower] has a defined result exactly when
    [throttling_info] is not null and every rail of [excluded_power_info_map]
    is in the power status map: otherwise [at] throws. *)
Theorem computeExcludedPower_defined (sensor_info : SensorInfo)
    (curr_severity : ThrottlingSeverity) (power_status_map : gmap string PowerStatus) :
  is_Some (computeExcludedPower sensor_info curr_severity power_status_map)
  ↔ ∃ ti, throttling_info sensor_info = Some ti
          ∧ ∀ rail weights, (rail, weights) ∈ excluded_power_info_map ti →
                            is_Some (power_status_map !! rail).
Proof.
  unfold computeExcludedPower. destruct (throttling_info sensor_info) as [ti|].
  - cbn [mbind option_bind]. rewrite excluded_power_loop_defined. split.
    + intros H. by exists ti.
    + by intros (ti' & [= <-] & H).
  - cbn [mbind option_bind]. split; [by intros [? ?]|by intros (? & ? & _)].
Qed.

Lemma cooling_devices_request_loop_settled (sensor_name : string)
    (curr : ThrottlingSeverity) (binded : BindedCdevInfoMap)
    (requests : list (string * Z)) (out : list string) (this : ThermalThrottling) :
  (∀ c v, (c, v) ∈ requests →
          combined_request binded curr (status_ref sensor_name this) c = Some v) →
  cooling_devices_request_loop sensor_name curr binded requests out this = Some (out, this).
Proof.
  induction requests as [|[c0 v0] requests IH]; intros Hrequests; [done|].
  cbn [cooling_devices_request_loop].
  pose proof (Hrequests c0 v0 (list_elem_of_here _ _)) as H0.
  unfold combined_request in H0.
  destruct (assoc c0 binded) as [info|]; [|done].
  cbn [mbind option_bind] in *. injection H0 as H0. rewrite H0.
  rewrite Z.eqb_refl. cbn [negb]. apply IH.
  intros c v Hin. apply Hrequests. by apply list_elem_of_further.
Qed.

(** X13.  After a call of [computeCoolingDevicesRequest], a second call for
    the same sensor, configuration and severity appends nothing to
    [cooling_devices_to_update] and changes nothing. *)
Theorem computeCoolingDevicesRequest_settles (sensor_name : string)
    (sensor_info : SensorInfo) (curr_severity : ThrottlingSeverity)
    (cooling_devices_to_update updated pending : list string)
    (this this' : ThermalThrottling) :
  computeCoolingDevicesRequest sensor_name sensor_info curr_severity
    cooling_devices_to_update this = Some (updated, this') →
  computeCoolingDevicesRequest sensor_name sensor_info curr_severity pending this'
  = Some (pending, this').
Proof.
  intros Hcompute. unfold computeCoolingDevicesRequest in Hcompute.
  destruct (thermal_throttling_status_map_ this !! sensor_name) as [st|] eqn:Hst.
  - destruct (throttling_info sensor_info) as [ti|] eqn:Hti; [|done].
    cbn [mbind option_bind] in Hcompute.
    eapply cooling_devices_request_loop_replaces in Hcompute
      as (st' & Hst' & Hpid & Hhard & Hrel & Hprofile & _ & Hout & Hin);
      [|apply NoDup_fst_map_to_list|exact Hst|by intros c v ?%elem_of_map_to_list].
    unfold computeCoolingDevicesRequest. rewrite Hst', Hti. cbn [mbind option_bind].
    apply cooling_devices_request_loop_settled.
    intros c v Hcv. apply elem_of_map_to_list in Hcv.
    rewrite (status_ref_lookup _ _ _ Hst'), Hprofile.
    destruct (Status.cdev_status_map st !! c) as [previous|] eqn:Hprevious.
    + destruct (Hin c previous) as (request & Hreq & Hmap & _);
        [by apply elem_of_map_to_list|].
      assert (v = request) as -> by congruence.
      unfold combined_request in *. by rewrite Hpid, Hhard, Hrel.
    + destruct (Hout c) as [Hmap _].
      * intros Hc. apply list_elem_of_fmap in Hc as ([c' v'] & -> & Hcv').
        apply elem_of_map_to_list in Hcv'. simpl in Hprevious. congruence.
      * congruence.
  - injection Hcompute as <- <-. unfold computeCoolingDevicesRequest. by rewrite Hst.
Qed.

Lemma computeCoolingDevicesRequest_settles_witness :
  computeCoolingDevicesRequest "skin" Example.skin MODERATE ["gpu"] Example.voted
  = Some (["gpu"], Example.voted).
Proof.
  apply (computeCoolingDevicesRequest_settles "skin" Example.skin MODERATE [] ["cpu"]
           ["gpu"] Example.ticked Example.voted).
  vm_compute. reflexivity.
Defined.
